(** * Checkout, payment, refund and cart workflows of the shop backend

    A shallow embedding of [controllers/orderController.js],
    [controllers/transactionController.js], the cart controller,
    [middleware/auth.js], the routes of [routes/orderRoutes.js] that write
    and the tables of [database/schema.sql].

    Modelling conventions.
    - A table is the list of its rows in insertion order; a [SELECT] is a
      [filter], an [UPDATE] a [map], a [DELETE] a [filter], an [INSERT]
      appends a row.
    - [INT] columns hold integers ([Z]); amounts of money
      ([DECIMAL(10,2)]) are integers in minor units.
    - The quantity and the price of a checkout line are JS numbers,
      IEEE 754 doubles; they reach the columns as MySQL converts the
      literals that mysql2 writes for them.  The ids of a request and the
      quantities of the cart requests are integers.
    - An [ENUM] column accepts exactly the listed strings and a text
      column holds the string it is given; [NULL] and the absent JSON
      field are [None].
    - A pooled connection is a record holding the rows every session can
      see ([durable]), the rows this session sees ([view]) and whether a
      transaction is open ([in_tx]).  Outside a transaction every
      statement commits on its own (autocommit, the MySQL default).
    - Every awaited store call may raise.  Constraint violations are
      computed from the rows; other storage failures come from [fuse], the
      number of store calls that still succeed. *)

From Stdlib Require Import ZArith List String Bool Lia DecimalString
  SpecFloat.
Import ListNotations.

Local Open Scope string_scope.
Local Open Scope Z_scope.

(** Template-literal rendering of an integer, as in [`${item.id}`]. *)
Definition string_of_Z (z : Z) : string := NilZero.string_of_int (Z.to_int z).

(** Rendering of a possibly absent string field inside a template literal. *)
Definition string_of_field (v : option string) : string :=
  match v with
  | Some s => s
  | None => "undefined"
  end.

(** ** JS numbers *)

Module Js.

(** A JS number is an IEEE 754 binary64 value. *)
Definition number : Type := spec_float.

Definition prec : Z := 53.
Definition emax : Z := 1024.

(** [x + y] and [x * y] on numbers. *)
Definition add (x y : number) : number := SFadd prec emax x y.
Definition mul (x y : number) : number := SFmul prec emax x y.

(** The number nearest to [n / d], for [0 < d]. *)
Definition of_ratio (n d : Z) : number :=
  match n with
  | Z0 => S754_zero false
  | _ =>
      let '(m, e, l) := SFdiv_core_binary prec emax (Z.abs n) 0 d 0 in
      binary_round_aux prec emax (n <? 0) m e l
  end.

(** The number an integer literal denotes. *)
Definition of_Z (z : Z) : number := of_ratio z 1.

(** The number [JSON.parse] gives for a literal of the digits [digits]
    with the last [places] of them after the point: [decimal 1050 2] is
    [10.50]. *)
Definition decimal (digits : Z) (places : nat) : number :=
  of_ratio digits (10 ^ Z.of_nat places).

(** A number read as mantissa and exponent: [Some (m, e)] stands for
    [m * 2 ^ e], [None] for [NaN], [Infinity] and [-Infinity]. *)
Definition finite (v : number) : option (Z * Z) :=
  match v with
  | S754_zero _ => Some (0, 0)
  | S754_finite s m e =>
      match binary_round prec emax s m e with
      | S754_zero _ => Some (0, 0)
      | S754_finite s' m' e' => Some (if s' then Z.neg m' else Z.pos m', e')
      | _ => None
      end
  | _ => None
  end.

(** [compare_scaled s p w q] compares [s * 10 ^ p] with [w * 2 ^ q]. *)
Definition compare_scaled (s p w q : Z) : comparison :=
  (s * 10 ^ Z.max p 0 * 2 ^ Z.max (- q) 0
   ?= w * 2 ^ Z.max q 0 * 10 ^ Z.max (- p) 0).

(** The exponent [f] with [10 ^ f <= m * 2 ^ e < 10 ^ (f + 1)], for
    [0 < m]. *)
Definition floor_log10 (m e : Z) : Z :=
  let guess := (Z.log2 m + e) * 30103 / 100000 in
  if match compare_scaled 1 (guess + 1) m e with Gt => false | _ => true end
  then guess + 1
  else if match compare_scaled 1 guess m e with Gt => false | _ => true end
  then guess
  else guess - 1.

(** A candidate of [k] digits for the decimal of [m * 2 ^ e]: the digits
    [s] at the exponent [p], and how far [s * 10 ^ p] is from the number,
    in units shared by the candidates of one [k]. *)
Record candidate := {
  c_digits : Z;
  c_exponent : Z;
  c_distance : Z
}.

Definition closer (a b : candidate) : candidate :=
  match c_distance a ?= c_distance b with
  | Lt => a
  | Gt => b
  | Eq => if Z.even (c_digits a) then a else b
  end.

(** The candidates of [k] digits that read back as [m * 2 ^ e].  The
    decimals that read back as it lie between the midpoints with its two
    neighbours, [lower / 4] and [upper / 4] in units of [2 ^ e], the
    midpoints included when [m] is even. *)
Definition candidates (m e k : Z) : list candidate :=
  let f := floor_log10 m e in
  let lower := if (m =? 2 ^ 52) && (- 1074 <? e) then 4 * m - 1
               else 4 * m - 2 in
  let upper := 4 * m + 2 in
  let p0 := f - k in
  let a := 2 ^ Z.max (e - 2) 0 * 10 ^ Z.max (- p0) 0 in
  let b := 2 ^ Z.max (- (e - 2)) 0 * 10 ^ Z.max p0 0 in
  let inside x :=
    if Z.even m then (lower * a <=? x * b) && (x * b <=? upper * a)
    else (lower * a <? x * b) && (x * b <? upper * a) in
  flat_map (fun j =>
    let low := 4 * m * a / (b * 10 ^ j) in
    flat_map (fun s =>
      if (10 ^ (k - 1) <=? s) && (s <? 10 ^ k) && inside (s * 10 ^ j)
      then [{| c_digits := s; c_exponent := p0 + j;
               c_distance := Z.abs (s * 10 ^ j * b - 4 * m * a) |}]
      else []) [low; low + 1]) [0; 1; 2].

(** The shortest decimal that reads back as [m * 2 ^ e] and, of those of
    its length, the one nearest to it: its digits and its exponent. *)
Fixpoint shortest (fuel : nat) (m e k : Z) : Z * Z :=
  match candidates m e k with
  | c :: cs =>
      let best := fold_left closer cs c in
      (c_digits best, c_exponent best)
  | [] =>
      match fuel with
      | O => (m * 2 ^ Z.max e 0, 0)
      | S fuel' => shortest fuel' m e (k + 1)
      end
  end.

(** The decimal [String(v)] writes: [Some (s, p)] stands for
    [s * 10 ^ p]; [None] for ["NaN"], ["Infinity"] and ["-Infinity"]. *)
Definition to_decimal (v : number) : option (Z * Z) :=
  match finite v with
  | None => None
  | Some (0, _) => Some (0, 0)
  | Some (m, e) =>
      let (s, p) := shortest 17 (Z.abs m) e 1 in
      Some (Z.sgn m * s, p)
  end.

(** A JSON value of a request body; an object or an array stands by its
    text. *)
Inductive value :=
| JNull
| JBool (b : bool)
| JNumber (v : number)
| JText (s : string)
| JObject (text : string).

(** Whether [v || d] is [v]: [null], [false], [0], [NaN] and the empty
    string give way to [d]. *)
Definition truthy (v : value) : bool :=
  match v with
  | JNull => false
  | JBool b => b
  | JNumber (S754_zero _) => false
  | JNumber S754_nan => false
  | JNumber _ => true
  | JText s => negb (s =? "")%string
  | JObject _ => true
  end.

(** The value that the text [JSON.stringify(v)] denotes: a number that is
    not finite is written [null]. *)
Definition stringified (v : value) : value :=
  match v with
  | JNumber n =>
      match finite n with
      | Some _ => JNumber n
      | None => JNull
      end
  | _ => v
  end.

End Js.

(** ** Tables of [schema.sql] *)

Module Schema.

Record product := {
  p_id : Z;
  p_name : string;
  p_price : Z;
  p_stock : Z
}.

Record shipping := {
  name : string;
  email : string;
  address : string;
  city : string;
  zip : string
}.

Record order := {
  o_id : Z;
  o_user_id : Z;
  o_order_number : string;
  o_total_amount : Z;
  o_status : option string;
  o_shipping : shipping
}.

Record order_item := {
  oi_order_id : Z;
  oi_product_id : Z;
  oi_quantity : Z;
  oi_price : Z
}.

(** The [payment_details] JSON column: either the object the controller
    builds from the payment method, or the caller's own payload. *)
Inductive payment_details :=
| MethodOnly (payment_method : string)
| Supplied (payload : Js.value).

Record transaction := {
  t_id : Z;
  t_order_id : Z;
  t_transaction_id : string;
  t_amount : Z;
  t_payment_method : string;
  t_status : string;
  t_payment_details : payment_details
}.

Record status_entry := {
  h_order_id : Z;
  h_status : string;
  h_notes : string
}.

Record cart := {
  c_id : Z;
  c_user_id : Z
}.

Record cart_item := {
  ci_id : Z;
  ci_cart_id : Z;
  ci_product_id : Z;
  ci_quantity : Z
}.

Record db := {
  products : list product;
  orders : list order;
  order_items : list order_item;
  transactions : list transaction;
  order_status_history : list status_entry;
  carts : list cart;
  cart_items : list cart_item
}.

(** [orders.status] and [order_status_history.status]:
    [ENUM('pending', 'processing', 'shipped', 'delivered', 'cancelled')]. *)
Definition order_status_enum : list string :=
  ["pending"; "processing"; "shipped"; "delivered"; "cancelled"].

(** [transactions.status]:
    [ENUM('pending', 'completed', 'failed', 'refunded')]. *)
Definition transaction_status_enum : list string :=
  ["pending"; "completed"; "failed"; "refunded"].

Inductive error :=
| ER_TRUNCATED (column : string)
| ER_BAD_NULL (column : string)
| ER_DUP_ENTRY (key : string)
| ER_BAD_FIELD (name : string)
| ER_OUT_OF_RANGE (column : string)
| StoreFault
| JsError (message : string).

Definition member (s : string) (l : list string) : bool :=
  existsb (String.eqb s) l.

(** Conversion of a string for an [ENUM] column.  A listed string is
    stored as it is; any other string is refused in strict SQL mode and
    stored as the empty string without it. *)
Definition enum_value (strict : bool) (column : string)
    (allowed : list string) (s : string) : error + string :=
  if member s allowed then inr s
  else if strict then inl (ER_TRUNCATED column)
  else inr "".

(** *** JS numbers bound to a statement

    [connection.query(sql, values)] writes [String(v)] for a number [v]
    in the place of its [?].  MySQL reads a decimal literal exactly, and
    rounds it, halves away from zero, when it stores it in an [INT] or a
    [DECIMAL(10,2)] column; a value outside the column's range is refused
    in strict SQL mode and replaced by the nearest end of the range
    without it.  The literals that [String] writes with an exponent are
    below [0.000001] or from [1e21] on: the first are stored as zero and
    the others are out of range, so the decimal decides for them too. *)

(** The literal of a number: its digits [s] and exponent [p], for
    [s * 10 ^ p].  [NaN] and [Infinity] are no literals: MySQL reads them
    as names of columns, which no table has. *)
Definition literal (v : Js.number) : error + Z * Z :=
  match Js.to_decimal v with
  | Some x => inr x
  | None =>
      inl (ER_BAD_FIELD match v with
                        | S754_nan => "NaN"
                        | _ => "Infinity"
                        end)
  end.

(** [n / d] rounded to the nearest integer, halves away from zero, for
    [0 < d]. *)
Definition round_half_away (n d : Z) : Z :=
  Z.sgn n * ((2 * Z.abs n + d) / (2 * d)).

(** [s * 10 ^ p] rounded to [places] decimals, in units of the last of
    them. *)
Definition rounded (places : Z) (x : Z * Z) : Z :=
  let (s, p) := x in
  if 0 <=? p + places then s * 10 ^ (p + places)
  else round_half_away s (10 ^ (- (p + places))).

(** A rounded value stored in a column that holds [low] to [high]. *)
Definition in_range (strict : bool) (column : string) (low high v : Z)
    : error + Z :=
  if v <? low then if strict then inl (ER_OUT_OF_RANGE column) else inr low
  else if high <? v
       then if strict then inl (ER_OUT_OF_RANGE column) else inr high
       else inr v.

(** A literal stored in an [INT] column. *)
Definition int_column (strict : bool) (column : string) (x : Z * Z)
    : error + Z :=
  in_range strict column (- 2147483648) 2147483647 (rounded 0 x).

(** A literal stored in a [DECIMAL(10,2)] column, in minor units. *)
Definition decimal_column (strict : bool) (column : string) (x : Z * Z)
    : error + Z :=
  in_range strict column (- 9999999999) 9999999999 (rounded 2 x).

(** The value a [DECIMAL(10,2)] column takes for a number bound to it. *)
Definition amount_value (strict : bool) (column : string) (v : Js.number)
    : error + Z :=
  match literal v with
  | inl e => inl e
  | inr x => decimal_column strict column x
  end.

(** The values the columns [quantity] and [price] of [order_items] take
    for the numbers bound to them. *)
Definition order_item_values (strict : bool) (quantity price : Js.number)
    : error + Z * Z :=
  match literal quantity with
  | inl e => inl e
  | inr q =>
      match literal price with
      | inl e => inl e
      | inr p =>
          match int_column strict "quantity" q with
          | inl e => inl e
          | inr q' =>
              match decimal_column strict "price" p with
              | inl e => inl e
              | inr p' => inr (q', p')
              end
          end
      end
  end.

(** *** Setters *)

Definition with_products (v : list product) (d : db) : db :=
  {| products := v; orders := orders d; order_items := order_items d;
     transactions := transactions d;
     order_status_history := order_status_history d;
     carts := carts d; cart_items := cart_items d |}.

Definition with_orders (v : list order) (d : db) : db :=
  {| products := products d; orders := v; order_items := order_items d;
     transactions := transactions d;
     order_status_history := order_status_history d;
     carts := carts d; cart_items := cart_items d |}.

Definition with_order_items (v : list order_item) (d : db) : db :=
  {| products := products d; orders := orders d; order_items := v;
     transactions := transactions d;
     order_status_history := order_status_history d;
     carts := carts d; cart_items := cart_items d |}.

Definition with_transactions (v : list transaction) (d : db) : db :=
  {| products := products d; orders := orders d;
     order_items := order_items d; transactions := v;
     order_status_history := order_status_history d;
     carts := carts d; cart_items := cart_items d |}.

Definition with_history (v : list status_entry) (d : db) : db :=
  {| products := products d; orders := orders d;
     order_items := order_items d; transactions := transactions d;
     order_status_history := v;
     carts := carts d; cart_items := cart_items d |}.

Definition with_carts (v : list cart) (d : db) : db :=
  {| products := products d; orders := orders d;
     order_items := order_items d; transactions := transactions d;
     order_status_history := order_status_history d;
     carts := v; cart_items := cart_items d |}.

Definition with_cart_items (v : list cart_item) (d : db) : db :=
  {| products := products d; orders := orders d;
     order_items := order_items d; transactions := transactions d;
     order_status_history := order_status_history d;
     carts := carts d; cart_items := v |}.

Definition set_stock (v : Z) (p : product) : product :=
  {| p_id := p_id p; p_name := p_name p; p_price := p_price p;
     p_stock := v |}.

Definition set_o_status (v : option string) (o : order) : order :=
  {| o_id := o_id o; o_user_id := o_user_id o;
     o_order_number := o_order_number o;
     o_total_amount := o_total_amount o; o_status := v;
     o_shipping := o_shipping o |}.

Definition set_t_status (v : string) (t : transaction) : transaction :=
  {| t_id := t_id t; t_order_id := t_order_id t;
     t_transaction_id := t_transaction_id t; t_amount := t_amount t;
     t_payment_method := t_payment_method t; t_status := v;
     t_payment_details := t_payment_details t |}.

Definition set_ci_quantity (v : Z) (i : cart_item) : cart_item :=
  {| ci_id := ci_id i; ci_cart_id := ci_cart_id i;
     ci_product_id := ci_product_id i; ci_quantity := v |}.

(** *** Statements

    Each definition is one SQL statement of the controllers, as a
    function of the rows the session sees.  A statement that can violate
    a constraint returns [error + db]. *)

(** [SELECT ... FROM products WHERE id = ?] *)
Definition select_products (id : Z) (d : db) : list product :=
  filter (fun p => p_id p =? id) (products d).

(** [SET stock = stock + ? WHERE id = ?] over the rows of [products]. *)
Definition add_stock (delta id : Z) (ps : list product) : list product :=
  map (fun p => if p_id p =? id then set_stock (p_stock p + delta) p else p)
    ps.

(** [UPDATE products SET stock = stock + ? WHERE id = ?] with the
    [quantity] of an order item bound to the first [?]. *)
Definition update_stock (delta id : Z) (d : db) : db :=
  with_products (add_stock delta id (products d)) d.

(** [stock - ?] for the literal [x], as the [INT] column [stock] stores
    it. *)
Definition stock_less (strict : bool) (x : Z * Z) (stock : Z) : error + Z :=
  let (s, p) := x in
  in_range strict "stock" (- 2147483648) 2147483647
    (if 0 <=? p then stock - s * 10 ^ p
     else round_half_away (stock * 10 ^ (- p) - s) (10 ^ (- p))).

(** [SET stock = stock - ? WHERE id = ?] over the rows of [products]. *)
Fixpoint take_stock (strict : bool) (x : Z * Z) (id : Z)
    (ps : list product) : error + list product :=
  match ps with
  | [] => inr []
  | p :: ps' =>
      if p_id p =? id
      then
        match stock_less strict x (p_stock p) with
        | inl e => inl e
        | inr v =>
            match take_stock strict x id ps' with
            | inl e => inl e
            | inr r => inr (set_stock v p :: r)
            end
        end
      else
        match take_stock strict x id ps' with
        | inl e => inl e
        | inr r => inr (p :: r)
        end
  end.

(** [UPDATE products SET stock = stock - ? WHERE id = ?] with a JS number
    bound to the first [?]. *)
Definition decrease_stock (strict : bool) (quantity : Js.number) (id : Z)
    (d : db) : error + db :=
  match literal quantity with
  | inl e => inl e
  | inr x =>
      match take_stock strict x id (products d) with
      | inl e => inl e
      | inr ps => inr (with_products ps d)
      end
  end.

(** [INSERT INTO orders (user_id, order_number, total_amount,
    shipping_...) VALUES (...)] for the value [total] that the column
    [total_amount] takes: [status] takes its default ['pending'];
    [order_number] is [UNIQUE]. *)
Definition insert_order (id user : Z) (number : string) (total : Z)
    (s : shipping) (d : db) : error + db :=
  if existsb (fun o => o_order_number o =? number)%string (orders d)
  then inl (ER_DUP_ENTRY "order_number")
  else inr (with_orders
    (orders d ++ [{| o_id := id; o_user_id := user;
                     o_order_number := number; o_total_amount := total;
                     o_status := Some "pending"; o_shipping := s |}])%list
    d).

(** [SELECT * FROM orders WHERE id = ?] *)
Definition select_orders (id : Z) (d : db) : list order :=
  filter (fun o => o_id o =? id) (orders d).

(** [SELECT * FROM orders WHERE id = ? AND user_id = ?] *)
Definition select_orders_of_user (id user : Z) (d : db) : list order :=
  filter (fun o => (o_id o =? id) && (o_user_id o =? user)) (orders d).

(** [UPDATE orders SET status = ? ... WHERE id = ?]: the column is
    nullable; the value is converted for every matched row, so nothing
    is raised when no row matches. *)
Definition update_order_status (strict : bool) (status : option string)
    (id : Z) (d : db) : error + db :=
  match select_orders id d with
  | [] => inr d
  | _ :: _ =>
      let store v :=
        with_orders
          (map (fun o => if o_id o =? id then set_o_status v o else o)
               (orders d)) d in
      match status with
      | None => inr (store None)
      | Some s =>
          match enum_value strict "status" order_status_enum s with
          | inl e => inl e
          | inr v => inr (store (Some v))
          end
      end
  end.

(** [INSERT INTO order_items (order_id, product_id, quantity, price)
    VALUES (?, ?, ?, ?)] for the values that the columns [quantity] and
    [price] take. *)
Definition insert_order_item (order_id product_id quantity price : Z)
    (d : db) : db :=
  with_order_items
    (order_items d ++ [{| oi_order_id := order_id;
                          oi_product_id := product_id;
                          oi_quantity := quantity;
                          oi_price := price |}])%list d.

(** [SELECT product_id, quantity FROM order_items WHERE order_id = ?] *)
Definition select_order_items (order_id : Z) (d : db) : list order_item :=
  filter (fun i => oi_order_id i =? order_id) (order_items d).

(** [INSERT INTO transactions (order_id, transaction_id, amount,
    payment_method, status, payment_details) VALUES (...)] for the value
    that the column [amount] takes; [transaction_id] is [UNIQUE]. *)
Definition insert_transaction (strict : bool) (id order_id : Z)
    (txn : string) (amount : Z) (method : string) (status : string)
    (details : payment_details) (d : db) : error + db :=
  if existsb (fun t => t_transaction_id t =? txn)%string (transactions d)
  then inl (ER_DUP_ENTRY "transaction_id")
  else
    match enum_value strict "status" transaction_status_enum status with
    | inl e => inl e
    | inr v =>
        inr (with_transactions
          (transactions d ++ [{| t_id := id; t_order_id := order_id;
                                 t_transaction_id := txn;
                                 t_amount := amount;
                                 t_payment_method := method;
                                 t_status := v;
                                 t_payment_details := details |}])%list
          d)
    end.

(** [SELECT * FROM transactions WHERE order_id = ?] *)
Definition select_transactions_of_order (order_id : Z) (d : db)
    : list transaction :=
  filter (fun t => t_order_id t =? order_id) (transactions d).

(** [SELECT * FROM transactions WHERE id = ?] *)
Definition select_transactions (id : Z) (d : db) : list transaction :=
  filter (fun t => t_id t =? id) (transactions d).

(** [UPDATE transactions SET status = ? ... WHERE id = ?] *)
Definition update_transaction_status (strict : bool) (status : string)
    (id : Z) (d : db) : error + db :=
  match select_transactions id d with
  | [] => inr d
  | _ :: _ =>
      match enum_value strict "status" transaction_status_enum status with
      | inl e => inl e
      | inr v =>
          inr (with_transactions
            (map (fun t => if t_id t =? id then set_t_status v t else t)
                 (transactions d)) d)
      end
  end.

(** [INSERT INTO order_status_history (order_id, status, notes)
    VALUES (?, ?, ?)]; [status] is [NOT NULL]. *)
Definition insert_status_history (strict : bool) (order_id : Z)
    (status : option string) (notes : string) (d : db) : error + db :=
  match status with
  | None => inl (ER_BAD_NULL "status")
  | Some s =>
      match enum_value strict "status" order_status_enum s with
      | inl e => inl e
      | inr v =>
          inr (with_history
            (order_status_history d ++ [{| h_order_id := order_id;
                                           h_status := v;
                                           h_notes := notes |}])%list d)
      end
  end.

(** [SELECT status FROM order_status_history WHERE order_id = ?
    ORDER BY created_at DESC LIMIT 1]: the entry appended last. *)
Definition select_latest_status (order_id : Z) (d : db) : list string :=
  match rev (filter (fun h => h_order_id h =? order_id)
                    (order_status_history d)) with
  | [] => []
  | h :: _ => [h_status h]
  end.

(** [SELECT ... FROM carts WHERE user_id = ?] *)
Definition select_carts (user : Z) (d : db) : list cart :=
  filter (fun c => c_user_id c =? user) (carts d).

(** [INSERT INTO carts (user_id) VALUES (?)] *)
Definition insert_cart (id user : Z) (d : db) : db :=
  with_carts (carts d ++ [{| c_id := id; c_user_id := user |}])%list d.

(** [SELECT * FROM cart_items WHERE cart_id = ? AND product_id = ?] *)
Definition select_cart_items (cart_id product_id : Z) (d : db)
    : list cart_item :=
  filter (fun i => (ci_cart_id i =? cart_id)
                   && (ci_product_id i =? product_id)) (cart_items d).

(** [SELECT ci.*, p.name, p.price, p.image_url, p.stock FROM cart_items
    ci JOIN products p ON ci.product_id = p.id WHERE ci.cart_id = ?] *)
Definition select_cart_lines (cart_id : Z) (d : db)
    : list (cart_item * product) :=
  flat_map (fun i => map (pair i) (select_products (ci_product_id i) d))
    (filter (fun i => ci_cart_id i =? cart_id) (cart_items d)).

(** [UPDATE cart_items SET quantity = ? ... WHERE id = ?] *)
Definition update_cart_item_quantity (quantity id : Z) (d : db) : db :=
  with_cart_items
    (map (fun i => if ci_id i =? id then set_ci_quantity quantity i else i)
         (cart_items d)) d.

(** [INSERT INTO cart_items (cart_id, product_id, quantity)
    VALUES (?, ?, ?)] *)
Definition insert_cart_item (id cart_id product_id quantity : Z) (d : db)
    : db :=
  with_cart_items
    (cart_items d ++ [{| ci_id := id; ci_cart_id := cart_id;
                         ci_product_id := product_id;
                         ci_quantity := quantity |}])%list d.

(** [DELETE FROM cart_items WHERE cart_id = ?] *)
Definition delete_cart_items (cart_id : Z) (d : db) : db :=
  with_cart_items
    (filter (fun i => negb (ci_cart_id i =? cart_id)) (cart_items d)) d.

(** [DELETE FROM cart_items WHERE id = ?] *)
Definition delete_cart_item (id : Z) (d : db) : db :=
  with_cart_items (filter (fun i => negb (ci_id i =? id)) (cart_items d)) d.

(** [SELECT ci.* FROM cart_items ci JOIN carts c ON ci.cart_id = c.id
    WHERE ci.id = ? AND c.user_id = ?] *)
Definition select_cart_items_of_user (id user : Z) (d : db)
    : list cart_item :=
  flat_map (fun i =>
              map (fun _ => i)
                (filter (fun k => (c_id k =? ci_cart_id i)
                                  && (c_user_id k =? user)) (carts d)))
    (filter (fun i => ci_id i =? id) (cart_items d)).

(** [SELECT ci.*, p.stock FROM cart_items ci JOIN carts c ON ci.cart_id =
    c.id JOIN products p ON ci.product_id = p.id WHERE ci.id = ? AND
    c.user_id = ?] *)
Definition select_cart_item_stock (id user : Z) (d : db)
    : list (cart_item * product) :=
  flat_map (fun i => map (pair i) (select_products (ci_product_id i) d))
    (select_cart_items_of_user id user d).

(** [SELECT oi.*, p.name, p.image_url ... FROM order_items oi JOIN
    products p ON oi.product_id = p.id WHERE oi.order_id = ?] *)
Definition select_order_lines (order_id : Z) (d : db)
    : list (order_item * product) :=
  flat_map (fun i => map (pair i) (select_products (oi_product_id i) d))
    (select_order_items order_id d).

(** [SELECT * FROM orders WHERE user_id = ? ORDER BY created_at DESC]:
    the order inserted last comes first. *)
Definition select_orders_by_user (user : Z) (d : db) : list order :=
  rev (filter (fun o => o_user_id o =? user) (orders d)).

(** [SELECT * FROM order_status_history WHERE order_id = ?
    ORDER BY created_at] *)
Definition select_status_history (order_id : Z) (d : db)
    : list status_entry :=
  filter (fun h => h_order_id h =? order_id) (order_status_history d).

End Schema.

(** ** The pooled connection and the handlers' control flow *)

Module Conn.
Import Schema.

(** The [AUTO_INCREMENT] counters of the tables whose generated ids the
    controllers read back.  They belong to the server and are not
    restored by a rollback. *)
Record auto_increment := {
  next_order_id : Z;
  next_transaction_id : Z;
  next_cart_id : Z;
  next_cart_item_id : Z
}.

Record conn := {
  strict : bool;
  fuse : option nat;
  counters : auto_increment;
  durable : db;
  view : db;
  in_tx : bool
}.

(** The JSON bodies the handlers send. *)
Inductive payload :=
| Message (message : string)
| OrderCreated (orderId : Z) (orderNumber transactionId : string)
| PaymentProcessed (message transactionId : string)
| CartData (id userId : Z) (items : list (cart_item * product))
    (total itemCount : Z).

(** What a handler does with the request: [res.status(s).json(b)], or
    [next(error)], which hands the error to the error middleware. *)
Inductive response :=
| Json (status : Z) (body : payload)
| NextError (e : error).

(** The result of running a piece of a handler's [try] block: it
    completes with a value, leaves the handler through
    [return res.status(..).json(..)], or throws. *)
Inductive outcome (A : Type) :=
| Val (a : A)
| Ret (r : response)
| Exc (e : error).
Arguments Val {A} a.
Arguments Ret {A} r.
Arguments Exc {A} e.

Definition M (A : Type) : Type := conn -> outcome A * conn.

Definition ret {A} (a : A) : M A := fun c => (Val a, c).

Definition bind {A B} (m : M A) (k : A -> M B) : M B :=
  fun c =>
    match m c with
    | (Val a, c') => k a c'
    | (Ret r, c') => (Ret r, c')
    | (Exc e, c') => (Exc e, c')
    end.

Definition respond {A} (r : response) : M A := fun c => (Ret r, c).

Definition throw {A} (e : error) : M A := fun c => (Exc e, c).

Declare Scope handler_scope.
Delimit Scope handler_scope with handler.
Notation "x <- m ;; k" := (bind m (fun x => k))
  (at level 100, m at next level, right associativity) : handler_scope.
Notation "m ;; k" := (bind m (fun _ => k))
  (at level 100, right associativity) : handler_scope.

Local Open Scope handler_scope.

(** [for (const x of l) { await f(x) }] *)
Fixpoint for_each {A} (l : list A) (f : A -> M unit) : M unit :=
  match l with
  | [] => ret tt
  | x :: l' => f x ;; for_each l' f
  end.

(** *** Setters *)

Definition with_fuse (v : option nat) (c : conn) : conn :=
  {| strict := strict c; fuse := v; counters := counters c;
     durable := durable c; view := view c; in_tx := in_tx c |}.

Definition with_counters (v : auto_increment) (c : conn) : conn :=
  {| strict := strict c; fuse := fuse c; counters := v;
     durable := durable c; view := view c; in_tx := in_tx c |}.

Definition set_next_order_id (v : Z) (a : auto_increment)
    : auto_increment :=
  {| next_order_id := v; next_transaction_id := next_transaction_id a;
     next_cart_id := next_cart_id a;
     next_cart_item_id := next_cart_item_id a |}.

Definition set_next_transaction_id (v : Z) (a : auto_increment)
    : auto_increment :=
  {| next_order_id := next_order_id a; next_transaction_id := v;
     next_cart_id := next_cart_id a;
     next_cart_item_id := next_cart_item_id a |}.

Definition set_next_cart_id (v : Z) (a : auto_increment)
    : auto_increment :=
  {| next_order_id := next_order_id a;
     next_transaction_id := next_transaction_id a;
     next_cart_id := v; next_cart_item_id := next_cart_item_id a |}.

Definition set_next_cart_item_id (v : Z) (a : auto_increment)
    : auto_increment :=
  {| next_order_id := next_order_id a;
     next_transaction_id := next_transaction_id a;
     next_cart_id := next_cart_id a; next_cart_item_id := v |}.

(** *** Store calls *)

(** One awaited call on the connection: it raises once the fuse is
    spent. *)
Definition tick : M unit :=
  fun c =>
    match fuse c with
    | None => (Val tt, c)
    | Some O => (Exc StoreFault, c)
    | Some (S n) => (Val tt, with_fuse (Some n) c)
    end.

(** The rows a statement leaves behind: inside a transaction only this
    session sees them, outside one they are committed at once. *)
Definition store (d : db) (c : conn) : conn :=
  {| strict := strict c; fuse := fuse c; counters := counters c;
     durable := if in_tx c then durable c else d;
     view := d; in_tx := in_tx c |}.

(** The session after [START TRANSACTION]: the statement first commits
    whatever transaction the session still has open. *)
Definition opened (c : conn) : conn :=
  {| strict := strict c; fuse := fuse c; counters := counters c;
     durable := view c; view := view c; in_tx := true |}.

(** The session after [COMMIT]. *)
Definition committed (c : conn) : conn :=
  {| strict := strict c; fuse := fuse c; counters := counters c;
     durable := view c; view := view c; in_tx := false |}.

(** [connection.beginTransaction()] *)
Definition beginTransaction : M unit :=
  tick ;; fun c => (Val tt, opened c).

(** [connection.commit()] *)
Definition commit : M unit :=
  tick ;; fun c => (Val tt, committed c).

(** [connection.rollback()], as called in the [catch] blocks. *)
Definition rollback (c : conn) : conn :=
  {| strict := strict c; fuse := fuse c; counters := counters c;
     durable := durable c; view := durable c; in_tx := false |}.

(** [connection.release()]: the connection goes back to the pool with
    its session state as it is. *)
Definition release (c : conn) : conn := c.

(** [connection.query] of a [SELECT]. *)
Definition query {A} (q : db -> A) : M A :=
  tick ;; fun c => (Val (q (view c)), c).

(** [connection.query] of a statement that writes and may violate a
    constraint; the statement is given the SQL mode. *)
Definition execute (q : bool -> db -> error + db) : M unit :=
  tick ;;
  fun c =>
    match q (strict c) (view c) with
    | inl e => (Exc e, c)
    | inr d => (Val tt, store d c)
    end.

(** [connection.query] of an [INSERT] whose generated id is read back
    as [result.insertId]. *)
Definition insert (next : auto_increment -> Z)
    (set_next : Z -> auto_increment -> auto_increment)
    (q : Z -> bool -> db -> error + db) : M Z :=
  tick ;;
  fun c =>
    let id := next (counters c) in
    let c1 := with_counters (set_next (id + 1) (counters c)) c in
    match q id (strict c) (view c) with
    | inl e => (Exc e, c1)
    | inr d => (Val id, store d c1)
    end.

(** The same call when the statement binds JS numbers: [values] are the
    values its columns take for them.  A number that the statement or a
    column refuses ends the call before an id is generated. *)
Definition insert_values {V} (values : bool -> error + V)
    (next : auto_increment -> Z)
    (set_next : Z -> auto_increment -> auto_increment)
    (q : V -> Z -> bool -> db -> error + db) : M Z :=
  tick ;;
  fun c =>
    match values (strict c) with
    | inl e => (Exc e, c)
    | inr v =>
        let id := next (counters c) in
        let c1 := with_counters (set_next (id + 1) (counters c)) c in
        match q v id (strict c) (view c) with
        | inl e => (Exc e, c1)
        | inr d => (Val id, store d c1)
        end
    end.

(** The frame shared by the handlers:
    [try { body } catch (error) { await connection.rollback();
    next(error); } finally { connection.release(); }].  An early
    [return] inside [try] reaches [finally] only. *)
Definition handler (body : M response) (c : conn) : response * conn :=
  match body c with
  | (Val r, c') => (r, release c')
  | (Ret r, c') => (r, release c')
  | (Exc e, c') => (NextError e, release (rollback c'))
  end.

(** A handler called from inside another one, as in
    [return getCart(req, res, next)]. *)
Definition call (h : conn -> response * conn) : M response :=
  fun c => let (r, c') := h c in (Ret r, c').

(** [v || d] on a string field: the default replaces an absent or empty
    value. *)
Definition or_default (v : option string) (d : string) : string :=
  match v with
  | Some s => if (s =? "")%string then d else s
  | None => d
  end.

(** What a handler that only reads gives: the data of
    [res.json({ success: true, data })], or a refusal. *)
Inductive answer (A : Type) :=
| Data (a : A)
| Refused (r : response).
Arguments Data {A} a.
Arguments Refused {A} r.

(** The frame of the handlers that read through [pool.query]:
    [try { body } catch (error) { next(error); }], with no transaction
    and nothing to roll back. *)
Definition reading {A} (body : M A) (c : conn) : answer A * conn :=
  match body c with
  | (Val a, c') => (Data a, c')
  | (Ret r, c') => (Refused r, c')
  | (Exc e, c') => (Refused (NextError e), c')
  end.

(** [for (const x of l) { ... await ...; x.field = ... }]: the loop that
    completes every element of [l] in turn. *)
Fixpoint for_each_of {A B} (l : list A) (f : A -> M B) : M (list B) :=
  match l with
  | [] => ret []
  | x :: l' => y <- f x ;; ys <- for_each_of l' f ;; ret (y :: ys)
  end.

End Conn.

(** ** [controllers/orderController.js] *)

Module OrderController.
Import Schema Conn.
Local Open Scope handler_scope.

(** One element of [req.body.items]: [quantity] and [price] are the
    numbers the request carries, which no statement of [createOrder]
    checks. *)
Record item := {
  id : Z;
  quantity : Js.number;
  price : Js.number
}.

(** [Date.now()] and [Math.floor(1000 + Math.random() * 9000)] as read
    when an order number or a transaction id is generated. *)
Record stamp := {
  now : Z;
  suffix : Z
}.

Record createOrder_request := {
  userId : Z;
  items : list item;
  shippingInfo : shipping;
  paymentMethod : string;
  order_stamp : stamp;
  transaction_stamp : stamp
}.

Definition orderNumber_of (s : stamp) : string :=
  ("ORD-" ++ string_of_Z (now s) ++ "-" ++ string_of_Z (suffix s))%string.

Definition transactionId_of (s : stamp) : string :=
  ("TXN-" ++ string_of_Z (now s) ++ "-" ++ string_of_Z (suffix s))%string.

(** [items.reduce((sum, item) => sum + item.price * item.quantity, 0)] *)
Definition totalAmount_of (l : list item) : Js.number :=
  fold_left (fun sum item => Js.add sum (Js.mul (price item) (quantity item)))
    l (Js.of_Z 0).

(** The first loop of [createOrder]: "Verify all products exist before
    proceeding". *)
Definition verify_products (items : list item) : M unit :=
  for_each items (fun item =>
    product <- query (select_products (id item)) ;;
    match product with
    | [] =>
        respond (Json 400 (Message
          ("Product with ID " ++ string_of_Z (id item)
           ++ " not found")%string))
    | _ :: _ => ret tt
    end).

(** The second loop of [createOrder]: "Add order items" and "Update
    product stock". *)
Definition add_order_items (orderId : Z) (items : list item) : M unit :=
  for_each items (fun item =>
    execute (fun s d =>
      match order_item_values s (quantity item) (price item) with
      | inl e => inl e
      | inr (quantity, price) =>
          inr (insert_order_item orderId (id item) quantity price d)
      end) ;;
    execute (fun s => decrease_stock s (quantity item) (id item))).

(** The loop that returns stock, written alike in [updateOrderStatus]
    and [processRefund]. *)
Definition return_stock (items : list order_item) : M unit :=
  for_each items (fun item =>
    execute (fun _ d => inr (update_stock (oi_quantity item)
                               (oi_product_id item) d))).

Definition createOrder (req : createOrder_request)
    : conn -> response * conn :=
  handler (
    beginTransaction ;;
    if userId req =? 0
    then respond (Json 401 (Message "User not authenticated"))
    else
      verify_products (items req) ;;
      let orderNumber := orderNumber_of (order_stamp req) in
      let totalAmount := totalAmount_of (items req) in
      insertId <- insert_values
        (fun s => amount_value s "total_amount" totalAmount)
        next_order_id set_next_order_id
        (fun total new _ => insert_order new (userId req) orderNumber
                              total (shippingInfo req)) ;;
      if insertId =? 0
      then throw (JsError "Failed to create order")
      else
        let orderId := insertId in
        add_order_items orderId (items req) ;;
        let transactionId := transactionId_of (transaction_stamp req) in
        insert_values (fun s => amount_value s "amount" totalAmount)
          next_transaction_id set_next_transaction_id
          (fun amount new s =>
             insert_transaction s new orderId transactionId amount
               (paymentMethod req) "completed"
               (MethodOnly (paymentMethod req))) ;;
        execute (fun s => insert_status_history s orderId (Some "pending")
                            "Order created and payment received") ;;
        cart <- query (select_carts (userId req)) ;;
        match cart with
        | [] => ret tt
        | cart0 :: _ =>
            execute (fun _ d => inr (delete_cart_items (c_id cart0) d))
        end ;;
        commit ;;
        ret (Json 201 (OrderCreated orderId orderNumber transactionId))).

(** [status === "cancelled"] *)
Definition is_cancelled (status : option string) : bool :=
  match status with
  | Some s => (s =? "cancelled")%string
  | None => false
  end.

(** [updateOrderStatus]: [req.params.id], [req.body.status] and
    [req.body.notes].  The handler never calls [beginTransaction]. *)
Definition updateOrderStatus (id : Z) (status notes : option string)
    : conn -> response * conn :=
  handler (
    order <- query (select_orders id) ;;
    match order with
    | [] => respond (Json 404 (Message "Order not found"))
    | _ :: _ =>
        execute (fun s => update_order_status s status id) ;;
        execute (fun s => insert_status_history s id status
                            (or_default notes
                               ("Status updated to "
                                ++ string_of_field status)%string)) ;;
        (if is_cancelled status
         then
           items <- query (select_order_items id) ;;
           return_stock items
         else ret tt) ;;
        commit ;;
        ret (Json 200 (Message "Order status updated successfully"))
    end).

(** [status[0]?.status || "pending"] over the latest history entry, the
    status [getUserOrders] and [getAllOrders] display. *)
Definition currentStatus (order_id : Z) (d : db) : string :=
  match select_latest_status order_id d with
  | [] => "pending"
  | s :: _ => if (s =? "")%string then "pending" else s
  end.

(** An element of the [data] of [getUserOrders]: the order row with its
    [items] and [currentStatus]. *)
Record order_summary := {
  s_order : order;
  s_items : list (order_item * product);
  s_currentStatus : string
}.

(** [getUserOrders] for [req.user.id]. *)
Definition getUserOrders (userId : Z)
    : conn -> answer (list order_summary) * conn :=
  reading (
    orders <- query (select_orders_by_user userId) ;;
    for_each_of orders (fun order =>
      items <- query (select_order_lines (o_id order)) ;;
      status <- query (select_latest_status (o_id order)) ;;
      ret {| s_order := order; s_items := items;
             s_currentStatus :=
               match status with
               | [] => "pending"
               | s :: _ => if (s =? "")%string then "pending" else s
               end |})).

(** The [data] of [getOrderById]. *)
Record order_details := {
  d_order : order;
  d_items : list (order_item * product);
  d_statusHistory : list status_entry;
  d_transaction : option transaction
}.

(** [getOrderById] for [req.user.id] and [req.params.id]. *)
Definition getOrderById (userId id : Z)
    : conn -> answer order_details * conn :=
  reading (
    order <- query (select_orders_of_user id userId) ;;
    match order with
    | [] => respond (Json 404 (Message "Order not found"))
    | order0 :: _ =>
        items <- query (select_order_lines id) ;;
        statusHistory <- query (select_status_history id) ;;
        transaction <- query (select_transactions_of_order id) ;;
        ret {| d_order := order0; d_items := items;
               d_statusHistory := statusHistory;
               d_transaction := hd_error transaction |}
    end).

End OrderController.

(** ** [controllers/transactionController.js] *)

Module TransactionController.
Import Schema Conn.
Local Open Scope handler_scope.

Record processPayment_request := {
  userId : Z;
  orderId : Z;
  paymentMethod : string;
  paymentDetails : option Js.value;
  transaction_stamp : OrderController.stamp
}.

(** [JSON.stringify(paymentDetails || { payment_method: paymentMethod })] *)
Definition details_of (req : processPayment_request) : payment_details :=
  match paymentDetails req with
  | Some p =>
      if Js.truthy p then Supplied (Js.stringified p)
      else MethodOnly (paymentMethod req)
  | None => MethodOnly (paymentMethod req)
  end.

Definition processPayment (req : processPayment_request)
    : conn -> response * conn :=
  handler (
    beginTransaction ;;
    order <- query (select_orders_of_user (orderId req) (userId req)) ;;
    match order with
    | [] => respond (Json 404 (Message "Order not found"))
    | order0 :: _ =>
        existingPayment <-
          query (select_transactions_of_order (orderId req)) ;;
        match existingPayment with
        | _ :: _ =>
            respond (Json 400 (Message
              "Payment already processed for this order"))
        | [] =>
            let transactionId :=
              OrderController.transactionId_of (transaction_stamp req) in
            insert next_transaction_id set_next_transaction_id
              (fun new s => insert_transaction s new (orderId req)
                              transactionId (o_total_amount order0)
                              (paymentMethod req) "completed"
                              (details_of req)) ;;
            execute (fun s => update_order_status s (Some "processing")
                                (orderId req)) ;;
            execute (fun s => insert_status_history s (orderId req)
                                (Some "processing")
                                "Payment received and order is being processed") ;;
            commit ;;
            ret (Json 201 (PaymentProcessed
                   "Payment processed successfully" transactionId))
        end
    end).

(** [amount || 'Full amount'] inside the refund note. *)
Definition amount_text (amount : option Z) : string :=
  match amount with
  | Some a => if a =? 0 then "Full amount" else string_of_Z a
  | None => "Full amount"
  end.

(** [processRefund]: [req.params.id], [req.body.amount] and
    [req.body.reason]. *)
Definition processRefund (id : Z) (amount : option Z)
    (reason : option string) : conn -> response * conn :=
  handler (
    beginTransaction ;;
    transaction <- query (select_transactions id) ;;
    match transaction with
    | [] => respond (Json 404 (Message "Transaction not found"))
    | transaction0 :: _ =>
        if (t_status transaction0 =? "refunded")%string
        then respond (Json 400 (Message
               "This transaction has already been refunded"))
        else
          execute (fun s => update_transaction_status s "refunded" id) ;;
          execute (fun s => update_order_status s (Some "refunded")
                              (t_order_id transaction0)) ;;
          execute (fun s => insert_status_history s
                              (t_order_id transaction0) (Some "refunded")
                              ("Refund processed: "
                               ++ or_default reason "No reason provided"
                               ++ ". Amount: " ++ amount_text amount)%string) ;;
          items <- query (select_order_items (t_order_id transaction0)) ;;
          OrderController.return_stock items ;;
          commit ;;
          ret (Json 200 (Message "Refund processed successfully"))
    end).

End TransactionController.

(** ** The cart controller *)

Module CartController.
Import Schema Conn.
Local Open Scope handler_scope.

(** [getCart] for [req.user.id]. *)
Definition getCart (userId : Z) : conn -> response * conn :=
  handler (
    beginTransaction ;;
    carts <- query (select_carts userId) ;;
    cart <- match carts with
            | cart0 :: _ => ret cart0
            | [] =>
                insertId <- insert next_cart_id set_next_cart_id
                  (fun new _ d => inr (insert_cart new userId d)) ;;
                ret {| c_id := insertId; c_user_id := userId |}
            end ;;
    items <- query (select_cart_lines (c_id cart)) ;;
    let total :=
      fold_left (fun sum item => sum + p_price (snd item)
                                       * ci_quantity (fst item)) items 0 in
    commit ;;
    ret (Json 200 (CartData (c_id cart) (c_user_id cart) items total
           (fold_left (fun count item => count + ci_quantity (fst item))
              items 0)))).

(** [req.body] of [addToCart]; an absent [quantity] defaults to 1. *)
Record addToCart_request := {
  userId : Z;
  productId : Z;
  quantity : option Z
}.

(** [const { productId, quantity = 1 } = req.body] *)
Definition requested (req : addToCart_request) : Z :=
  match quantity req with
  | Some q => q
  | None => 1
  end.

Definition addToCart (req : addToCart_request) : conn -> response * conn :=
  handler (
    beginTransaction ;;
    let quantity := requested req in
    if (productId req =? 0) || (quantity <? 1)
    then respond (Json 400 (Message
           "Product ID and valid quantity are required"))
    else
      products <- query (select_products (productId req)) ;;
      match products with
      | [] => respond (Json 404 (Message "Product not found"))
      | product :: _ =>
          if p_stock product <? quantity
          then respond (Json 400 (Message
                 ("Only " ++ string_of_Z (p_stock product)
                  ++ " items available in stock")%string))
          else
            carts <- query (select_carts (userId req)) ;;
            cart <- match carts with
                    | cart0 :: _ => ret cart0
                    | [] =>
                        insertId <- insert next_cart_id set_next_cart_id
                          (fun new _ d =>
                             inr (insert_cart new (userId req) d)) ;;
                        ret {| c_id := insertId;
                               c_user_id := userId req |}
                    end ;;
            existingItems <-
              query (select_cart_items (c_id cart) (productId req)) ;;
            match existingItems with
            | existing0 :: _ =>
                let newQuantity := ci_quantity existing0 + quantity in
                if p_stock product <? newQuantity
                then respond (Json 400 (Message
                       ("Only "
                        ++ string_of_Z (p_stock product
                                        - ci_quantity existing0)
                        ++ " more items available in stock")%string))
                else
                  execute (fun _ d =>
                    inr (update_cart_item_quantity newQuantity
                           (ci_id existing0) d))
            | [] =>
                insert next_cart_item_id set_next_cart_item_id
                  (fun new _ d =>
                     inr (insert_cart_item new (c_id cart)
                            (productId req) quantity d)) ;;
                ret tt
            end ;;
            commit ;;
            call (getCart (userId req))
      end).

(** [updateCartItem] for [req.user.id], [req.params.itemId] and
    [req.body.quantity]. *)
Definition updateCartItem (userId itemId : Z) (quantity : option Z)
    : conn -> response * conn :=
  handler (
    beginTransaction ;;
    match quantity with
    | None => respond (Json 400 (Message "Valid quantity is required"))
    | Some quantity =>
        if quantity <? 0
        then respond (Json 400 (Message "Valid quantity is required"))
        else
          items <- query (select_cart_item_stock itemId userId) ;;
          match items with
          | [] => respond (Json 404 (Message "Cart item not found"))
          | cartItem :: _ =>
              (if quantity =? 0
               then execute (fun _ d => inr (delete_cart_item itemId d))
               else
                 if p_stock (snd cartItem) <? quantity
                 then respond (Json 400 (Message
                        ("Only " ++ string_of_Z (p_stock (snd cartItem))
                         ++ " items available in stock")%string))
                 else
                   execute (fun _ d =>
                     inr (update_cart_item_quantity quantity itemId d))) ;;
              commit ;;
              call (getCart userId)
          end
    end).

(** [removeFromCart] for [req.user.id] and [req.params.itemId]. *)
Definition removeFromCart (userId itemId : Z) : conn -> response * conn :=
  handler (
    beginTransaction ;;
    items <- query (select_cart_items_of_user itemId userId) ;;
    match items with
    | [] => respond (Json 404 (Message "Cart item not found"))
    | _ :: _ =>
        execute (fun _ d => inr (delete_cart_item itemId d)) ;;
        commit ;;
        call (getCart userId)
    end).

(** [clearCart] for [req.user.id]. *)
Definition clearCart (userId : Z) : conn -> response * conn :=
  handler (
    beginTransaction ;;
    carts <- query (select_carts userId) ;;
    match carts with
    | [] => respond (Json 200 (Message "Cart is already empty"))
    | cart0 :: _ =>
        let cartId := c_id cart0 in
        execute (fun _ d => inr (delete_cart_items cartId d)) ;;
        commit ;;
        ret (Json 200 (Message "Cart cleared successfully"))
    end).

End CartController.

(** ** [middleware/auth.js] and the tables [roles] and [users] *)

Module Auth.
Import Ascii Schema Conn.
Local Open Scope handler_scope.

Record role := {
  r_id : Z;
  r_name : string
}.

Record user := {
  u_id : Z;
  u_name : string;
  u_email : string;
  u_password : string;
  u_role_id : Z
}.

(** The two tables the middleware reads.  None of the handlers embedded
    here writes them. *)
Record accounts := {
  roles : list role;
  users : list user
}.

(** [SELECT * FROM users WHERE id = ?] *)
Definition select_users (id : Z) (a : accounts) : list user :=
  filter (fun u => u_id u =? id) (users a).

(** [SELECT name FROM roles WHERE id = ?] *)
Definition select_role_names (id : Z) (a : accounts) : list string :=
  map r_name (filter (fun r => r_id r =? id) (roles a)).

(** [s.split(' ')] *)
Fixpoint split_space (s : string) : list string :=
  match s with
  | EmptyString => [EmptyString]
  | String a s' =>
      if Ascii.eqb a " "%char then EmptyString :: split_space s'
      else
        match split_space s' with
        | w :: ws => String a w :: ws
        | [] => [String a EmptyString]
        end
  end.

(** [req.headers.authorization?.split(' ')[1]], with [None] for the
    values [!token] rejects: no header, no second word, an empty one. *)
Definition token_of (authorization : option string) : option string :=
  match authorization with
  | None => None
  | Some header =>
      match nth_error (split_space header) 1 with
      | Some token => if (token =? "")%string then None else Some token
      | None => None
      end
  end.

Section Middleware.

(** [jwt.verify(token, JWT_SECRET)]: the [id] of the payload when the
    token verifies, [None] when the call throws. *)
Variable verify : string -> option Z.

Variable a : accounts.

(** [verifyToken]: the next handler of the route runs with [req.user] set
    to the row of the user the token names. *)
Definition verifyToken (authorization : option string)
    (next : user -> conn -> response * conn) : conn -> response * conn :=
  fun c =>
    match token_of authorization with
    | None => (Json 401 (Message "No token provided"), c)
    | Some token =>
        match verify token with
        | None => (Json 401 (Message "Invalid token"), c)
        | Some id =>
            match query (fun _ => select_users id a) c with
            | (Val [], c') => (Json 401 (Message "User not found"), c')
            | (Val (user0 :: _), c') => next user0 c'
            | (_, c') => (Json 401 (Message "Invalid token"), c')
            end
        end
    end.

(** [checkRole(roles)] for [req.user]. *)
Definition checkRole (allowed : list string) (user : user)
    (next : conn -> response * conn) : conn -> response * conn :=
  fun c =>
    match query (fun _ => select_role_names (u_role_id user) a) c with
    | (Val [], c') => (Json 403 (Message "Access denied"), c')
    | (Val (name0 :: _), c') =>
        if member name0 allowed then next c'
        else (Json 403 (Message "Access denied"), c')
    | (_, c') => (Json 500 (Message "Error checking user role"), c')
    end.

End Middleware.

End Auth.

(** ** [routes/orderRoutes.js]: the routes that write *)

Module OrderRoutes.
Import Schema Conn Auth.

(** The request [createOrder] sees behind [verifyToken]: the body, with
    [req.user.id] as the user. *)
Definition as_user (user : Auth.user)
    (body : OrderController.createOrder_request)
    : OrderController.createOrder_request :=
  {| OrderController.userId := u_id user;
     OrderController.items := OrderController.items body;
     OrderController.shippingInfo := OrderController.shippingInfo body;
     OrderController.paymentMethod := OrderController.paymentMethod body;
     OrderController.order_stamp := OrderController.order_stamp body;
     OrderController.transaction_stamp :=
       OrderController.transaction_stamp body |}.

Section Routes.

Variable verify : string -> option Z.
Variable a : accounts.

(** [router.post('/', verifyToken, createOrder)] *)
Definition post_order (authorization : option string)
    (body : OrderController.createOrder_request)
    : conn -> response * conn :=
  verifyToken verify a authorization (fun user =>
    OrderController.createOrder (as_user user body)).

(** [router.put('/:id/status', verifyToken, checkRole(['admin']),
    updateOrderStatus)] *)
Definition put_order_status (authorization : option string) (id : Z)
    (status notes : option string) : conn -> response * conn :=
  verifyToken verify a authorization (fun user =>
    checkRole a ["admin"] user
      (OrderController.updateOrderStatus id status notes)).

(** [router.post('/transactions/:id/refund', verifyToken,
    checkRole(['admin']), processRefund)] *)
Definition post_refund (authorization : option string) (id : Z)
    (amount : option Z) (reason : option string)
    : conn -> response * conn :=
  verifyToken verify a authorization (fun user =>
    checkRole a ["admin"] user
      (TransactionController.processRefund id amount reason)).

End Routes.

End OrderRoutes.

(** ** [getTransactionById]

    The handler reads columns by name from the rows the driver hands it,
    so the rows are embedded as the objects they are: column names with
    their values. *)

Module TransactionReader.
Import Schema Conn Auth.
Local Open Scope handler_scope.

Inductive js_value :=
| Undefined
| Null
| Number (z : Z)
| Text (s : string)
| Object.

Definition js_object : Type := list (string * js_value).

(** [o.name]: [undefined] when the object has no such property. *)
Fixpoint field (name : string) (o : js_object) : js_value :=
  match o with
  | [] => Undefined
  | (k, v) :: o' => if (k =? name)%string then v else field name o'
  end.

(** [a !== b].  Two objects are taken to be different ones. *)
Definition strict_neq (a b : js_value) : bool :=
  match a, b with
  | Undefined, Undefined => false
  | Null, Null => false
  | Number x, Number y => negb (x =? y)
  | Text x, Text y => negb (x =? y)%string
  | _, _ => true
  end.

(** A row of [SELECT * FROM users], which is what [req.user] holds. *)
Definition object_of_user (u : user) : js_object :=
  [("id", Number (u_id u)); ("name", Text (u_name u));
   ("email", Text (u_email u)); ("password", Text (u_password u));
   ("role_id", Number (u_role_id u)); ("created_at", Object);
   ("updated_at", Object)].

(** The columns of [t.*] for a row of [transactions]. *)
Definition object_of_transaction (t : transaction) : js_object :=
  [("id", Number (t_id t)); ("order_id", Number (t_order_id t));
   ("transaction_id", Text (t_transaction_id t));
   ("amount", Number (t_amount t));
   ("payment_method", Text (t_payment_method t)); ("card_last4", Null);
   ("status", Text (t_status t)); ("payment_details", Object);
   ("created_at", Object); ("updated_at", Object)].

(** [SELECT t.*, o.order_number, o.total_amount, u.name as user_name,
    u.email as user_email FROM transactions t JOIN orders o ON
    t.order_id = o.id JOIN users u ON o.user_id = u.id WHERE t.id = ?] *)
Definition select_transaction_rows (a : accounts) (id : Z) (d : db)
    : list js_object :=
  flat_map (fun t =>
    flat_map (fun o =>
      map (fun u =>
             (object_of_transaction t
              ++ [("order_number", Text (o_order_number o));
                  ("total_amount", Number (o_total_amount o));
                  ("user_name", Text (u_name u));
                  ("user_email", Text (u_email u))])%list)
        (filter (fun u => u_id u =? o_user_id o) (users a)))
      (select_orders (t_order_id t) d))
    (select_transactions id d).

(** [SELECT * FROM orders WHERE id = ?] and the items query, for the
    value of [transaction[0].order_id]. *)
Definition order_id_of (v : js_value) : option Z :=
  match v with
  | Number z => Some z
  | _ => None
  end.

(** The [data] of [getTransactionById]: the transaction's row with the
    properties [order] and [items] added. *)
Record transaction_details := {
  td_transaction : js_object;
  td_order : option order;
  td_items : list (order_item * product)
}.

(** [getTransactionById] for [req.user] and [req.params.id]. *)
Definition getTransactionById (a : accounts) (user : Auth.user) (id : Z)
    : conn -> answer transaction_details * conn :=
  reading (
    transaction <- query (select_transaction_rows a id) ;;
    match transaction with
    | [] => respond (Json 404 (Message "Transaction not found"))
    | transaction0 :: _ =>
        if strict_neq (field "role" (object_of_user user)) (Text "admin")
           && strict_neq (field "user_id" transaction0)
                (field "id" (object_of_user user))
        then respond (Json 403 (Message
               "Not authorized to access this transaction"))
        else
          let order_id := order_id_of (field "order_id" transaction0) in
          order <- query (fun d =>
                     match order_id with
                     | Some z => select_orders z d
                     | None => []
                     end) ;;
          items <- query (fun d =>
                     match order_id with
                     | Some z => select_order_lines z d
                     | None => []
                     end) ;;
          ret {| td_transaction := transaction0;
                 td_order := hd_error order;
                 td_items := items |}
    end).

End TransactionReader.

(** * Reasoning about handlers *)

Import Schema Conn.
Local Open Scope handler_scope.

(** [wp m Q c]: running [m] from [c] ends in an outcome and a connection
    state that satisfy [Q]. *)
Definition wp {A} (m : M A) (Q : outcome A -> conn -> Prop) (c : conn)
    : Prop :=
  Q (fst (m c)) (snd (m c)).

(** What [bind] asks of its first part. *)
Definition then_wp {A B} (k : A -> M B) (Q : outcome B -> conn -> Prop)
    (o : outcome A) (c : conn) : Prop :=
  match o with
  | Val a => wp (k a) Q c
  | Ret r => Q (Ret r) c
  | Exc e => Q (Exc e) c
  end.

(** What [handler] asks of its body for the response and the released
    connection to satisfy [P]. *)
Definition handled (P : response -> conn -> Prop) (o : outcome response)
    (c : conn) : Prop :=
  match o with
  | Val r => P r c
  | Ret r => P r c
  | Exc e => P (NextError e) (rollback c)
  end.

(** A response that reports success. *)
Definition is_success (r : response) : bool :=
  match r with
  | Json status _ => status <? 400
  | NextError _ => false
  end.

(** The connection has no uncommitted writes. *)
Definition idle (c : conn) : Prop := view c = durable c.

(** ** The rows a workflow leaves behind

    The statements of each workflow composed as one function of the rows,
    for stating what a completed workflow has written. *)

(** The rows after the two statements the checkout's second loop runs
    for a line. *)
Definition place_item (strict : bool) (orderId : Z) (d : db)
    (item : OrderController.item) : error + db :=
  match order_item_values strict (OrderController.quantity item)
          (OrderController.price item) with
  | inl e => inl e
  | inr (quantity, price) =>
      decrease_stock strict (OrderController.quantity item)
        (OrderController.id item)
        (insert_order_item orderId (OrderController.id item) quantity price
           d)
  end.

Fixpoint place_items (strict : bool) (orderId : Z)
    (l : list OrderController.item) (d : db) : error + db :=
  match l with
  | [] => inr d
  | item :: l' =>
      match place_item strict orderId d item with
      | inl e => inl e
      | inr d1 => place_items strict orderId l' d1
      end
  end.

Definition restock (l : list order_item) (d : db) : db :=
  fold_left (fun d item =>
               update_stock (oi_quantity item) (oi_product_id item) d) l d.

Definition clear_cart (user : Z) (d : db) : db :=
  match select_carts user d with
  | [] => d
  | cart0 :: _ => delete_cart_items (c_id cart0) d
  end.

(** The writes of a checkout that runs to its commit, for the generated
    order id and transaction row id. *)
Definition checkout (strict : bool)
    (req : OrderController.createOrder_request) (orderId txnRow : Z)
    (d : db) : error + db :=
  let totalAmount :=
    OrderController.totalAmount_of (OrderController.items req) in
  match amount_value strict "total_amount" totalAmount with
  | inl e => inl e
  | inr total =>
  match insert_order orderId (OrderController.userId req)
          (OrderController.orderNumber_of (OrderController.order_stamp req))
          total (OrderController.shippingInfo req) d with
  | inl e => inl e
  | inr d1 =>
  match place_items strict orderId (OrderController.items req) d1 with
  | inl e => inl e
  | inr d2 =>
  match amount_value strict "amount" totalAmount with
  | inl e => inl e
  | inr amount =>
  match insert_transaction strict txnRow orderId
          (OrderController.transactionId_of
             (OrderController.transaction_stamp req))
          amount (OrderController.paymentMethod req) "completed"
          (MethodOnly (OrderController.paymentMethod req)) d2 with
  | inl e => inl e
  | inr d3 =>
  match insert_status_history strict orderId (Some "pending")
          "Order created and payment received" d3 with
  | inl e => inl e
  | inr d4 => inr (clear_cart (OrderController.userId req) d4)
  end end end end end end.

(** Every line of the request names a product that exists. *)
Definition all_products_exist (l : list OrderController.item) (d : db)
    : Prop :=
  Forall (fun item => select_products (OrderController.id item) d <> []) l.

(** The first line of the request whose product does not exist. *)
Definition first_missing (l : list OrderController.item) (d : db)
    : option OrderController.item :=
  find (fun item =>
          match select_products (OrderController.id item) d with
          | [] => true
          | _ :: _ => false
          end) l.

(** The [AUTO_INCREMENT] counters only grow. *)
Definition counters_le (a b : auto_increment) : Prop :=
  next_order_id a <= next_order_id b
  /\ next_transaction_id a <= next_transaction_id b
  /\ next_cart_id a <= next_cart_id b
  /\ next_cart_item_id a <= next_cart_item_id b.

(** What a call of [createOrder] on an idle connection [c] gives: either
    the order is placed and committed, or the response reports a failure
    and the rows are as they were. *)
Definition createOrder_post (req : OrderController.createOrder_request)
    (c : conn) (r : response) (c' : conn) : Prop :=
  strict c' = strict c
  /\ view c' = durable c'
  /\ counters_le (counters c) (counters c')
  /\ ((r = Json 201 (OrderCreated (next_order_id (counters c))
             (OrderController.orderNumber_of
                (OrderController.order_stamp req))
             (OrderController.transactionId_of
                (OrderController.transaction_stamp req)))
       /\ OrderController.userId req <> 0
       /\ next_order_id (counters c) <> 0
       /\ all_products_exist (OrderController.items req) (durable c)
       /\ checkout (strict c) req (next_order_id (counters c))
            (next_transaction_id (counters c)) (durable c)
          = inr (durable c')
       /\ in_tx c' = false
       /\ counters c'
          = set_next_transaction_id (next_transaction_id (counters c) + 1)
              (set_next_order_id (next_order_id (counters c) + 1)
                 (counters c)))
      \/ (is_success r = false /\ durable c' = durable c)).

(** Every id a row carries was generated before the counters reached
    their present values, so the next generated id is carried by no row. *)
Definition fresh_ids (n : auto_increment) (d : db) : Prop :=
  Forall (fun o => o_id o < next_order_id n) (orders d)
  /\ Forall (fun i => oi_order_id i < next_order_id n) (order_items d)
  /\ Forall (fun t => t_order_id t < next_order_id n
                      /\ t_id t < next_transaction_id n) (transactions d)
  /\ Forall (fun h => h_order_id h < next_order_id n)
       (order_status_history d)
  /\ Forall (fun k => c_id k < next_cart_id n) (carts d)
  /\ Forall (fun i => ci_cart_id i < next_cart_id n
                      /\ ci_id i < next_cart_item_id n) (cart_items d).

Definition fresh (c : conn) : Prop := fresh_ids (counters c) (durable c).

(** The sum over order items of price times quantity. *)
Definition order_items_total (l : list order_item) : Z :=
  fold_right (fun i acc => oi_price i * oi_quantity i + acc) 0 l.

(** The order item a checkout stores for a line of the request. *)
Definition order_item_of (strict : bool) (orderId : Z)
    (item : OrderController.item) : error + order_item :=
  match order_item_values strict (OrderController.quantity item)
          (OrderController.price item) with
  | inl e => inl e
  | inr (quantity, price) =>
      inr {| oi_order_id := orderId; oi_product_id := OrderController.id item;
             oi_quantity := quantity; oi_price := price |}
  end.

(** The order items [rows] are those a checkout stores for the lines
    [l], line by line. *)
Definition stored_lines (strict : bool) (orderId : Z)
    (l : list OrderController.item) (rows : list order_item) : Prop :=
  Forall2 (fun item row => order_item_of strict orderId item = inr row)
    l rows.

(** The stock of product [pid]: one number when the product exists. *)
Definition stock_of (pid : Z) (d : db) : list Z :=
  map p_stock (select_products pid d).

(** The writes of a status transition that runs to its commit. *)
Definition transition (strict : bool) (id : Z) (status notes : option string)
    (d : db) : error + db :=
  match update_order_status strict status id d with
  | inl e => inl e
  | inr d1 =>
      match insert_status_history strict id status
              (or_default notes
                 ("Status updated to " ++ string_of_field status)%string)
              d1 with
      | inl e => inl e
      | inr d2 =>
          inr (if OrderController.is_cancelled status
               then restock (select_order_items id d2) d2
               else d2)
      end
  end.

(** The rows a status transition can leave behind when it does not run
    to its commit.  Inside a transaction they are the rows it started
    from.  In autocommit mode they are the rows after any number of its
    statements on an order that exists: none, the order update, the
    history insert too, and then the stock returned for a prefix of the
    order's items. *)
Definition partial_transition (strict transactional : bool) (id : Z)
    (status notes : option string) (d d' : db) : Prop :=
  d' = d
  \/ (transactional = false
      /\ select_orders id d <> []
      /\ exists d1,
           update_order_status strict status id d = inr d1
           /\ (d' = d1
               \/ exists d2,
                    insert_status_history strict id status
                      (or_default notes
                         ("Status updated to "
                          ++ string_of_field status)%string) d1
                    = inr d2
                    /\ exists returned pending,
                         select_order_items id d2
                         = (returned ++ pending)%list
                         /\ d' = restock returned d2)).

(** What a call of [updateOrderStatus] on an idle connection [c] gives:
    either the transition is made and committed, or the response reports
    a failure and the rows are those of a transition cut short. *)
Definition updateOrderStatus_post (id : Z) (status notes : option string)
    (c : conn) (r : response) (c' : conn) : Prop :=
  strict c' = strict c
  /\ counters c' = counters c
  /\ view c' = durable c'
  /\ ((r = Json 200 (Message "Order status updated successfully")
       /\ select_orders id (durable c) <> []
       /\ transition (strict c) id status notes (durable c)
          = inr (durable c')
       /\ in_tx c' = false)
      \/ (is_success r = false
          /\ partial_transition (strict c) (in_tx c) id status notes
               (durable c) (durable c'))).



(** The writes of a payment that runs to its commit, for the order row
    read at the start and the generated transaction row id. *)
Definition payment (strict : bool)
    (req : TransactionController.processPayment_request) (total txnRow : Z)
    (d : db) : error + db :=
  match insert_transaction strict txnRow
          (TransactionController.orderId req)
          (OrderController.transactionId_of
             (TransactionController.transaction_stamp req))
          total (TransactionController.paymentMethod req) "completed"
          (TransactionController.details_of req) d with
  | inl e => inl e
  | inr d1 =>
      match update_order_status strict (Some "processing")
              (TransactionController.orderId req) d1 with
      | inl e => inl e
      | inr d2 =>
          insert_status_history strict (TransactionController.orderId req)
            (Some "processing")
            "Payment received and order is being processed" d2
      end
  end.

(** What a call of [processPayment] on an idle connection [c] gives. *)
Definition processPayment_post
    (req : TransactionController.processPayment_request)
    (c : conn) (r : response) (c' : conn) : Prop :=
  strict c' = strict c
  /\ view c' = durable c'
  /\ counters_le (counters c) (counters c')
  /\ ((r = Json 201 (PaymentProcessed "Payment processed successfully"
             (OrderController.transactionId_of
                (TransactionController.transaction_stamp req)))
       /\ (exists order0 rest,
             select_orders_of_user (TransactionController.orderId req)
               (TransactionController.userId req) (durable c)
             = order0 :: rest
             /\ payment (strict c) req (o_total_amount order0)
                  (next_transaction_id (counters c)) (durable c)
                = inr (durable c'))
       /\ select_transactions_of_order (TransactionController.orderId req)
            (durable c) = []
       /\ in_tx c' = false
       /\ counters c'
          = set_next_transaction_id (next_transaction_id (counters c) + 1)
              (counters c))
      \/ (is_success r = false /\ durable c' = durable c)).

(** The note a refund leaves in the status history. *)
Definition refund_note (amount : option Z) (reason : option string)
    : string :=
  ("Refund processed: " ++ or_default reason "No reason provided"
   ++ ". Amount: " ++ TransactionController.amount_text amount)%string.

(** The writes of a refund that runs to its commit, for the transaction
    row [id] and the order it belongs to. *)
Definition refund (strict : bool) (id order_id : Z) (amount : option Z)
    (reason : option string) (d : db) : error + db :=
  match update_transaction_status strict "refunded" id d with
  | inl e => inl e
  | inr d1 =>
      match update_order_status strict (Some "refunded") order_id d1 with
      | inl e => inl e
      | inr d2 =>
          match insert_status_history strict order_id (Some "refunded")
                  (refund_note amount reason) d2 with
          | inl e => inl e
          | inr d3 => inr (restock (select_order_items order_id d3) d3)
          end
      end
  end.

(** What a call of [processRefund] on an idle connection [c] gives. *)
Definition processRefund_post (id : Z) (amount : option Z)
    (reason : option string) (c : conn) (r : response) (c' : conn)
    : Prop :=
  strict c' = strict c
  /\ view c' = durable c'
  /\ counters c' = counters c
  /\ ((r = Json 200 (Message "Refund processed successfully")
       /\ (exists transaction0 rest,
             select_transactions id (durable c) = transaction0 :: rest
             /\ t_status transaction0 <> "refunded"
             /\ refund (strict c) id (t_order_id transaction0) amount
                  reason (durable c)
                = inr (durable c'))
       /\ in_tx c' = false)
      \/ (is_success r = false /\ durable c' = durable c)).

(** No order is referenced by more than one transaction row. *)
Definition at_most_one_transaction (d : db) : Prop :=
  forall order_id,
    (List.length (select_transactions_of_order order_id d) <= 1)%nat.

(** ** A small shop

    Two products, one customer (user 7) with product 1 in the cart, and
    the checkout of two lines that customer makes. *)

Module Sample.

Definition shop : db :=
  {| products :=
       [{| p_id := 1; p_name := "Dark bar"; p_price := 1000; p_stock := 5 |};
        {| p_id := 2; p_name := "Truffles"; p_price := 250; p_stock := 1 |}];
     orders := [];
     order_items := [];
     transactions := [];
     order_status_history := [];
     carts := [{| c_id := 1; c_user_id := 7 |}];
     cart_items := [{| ci_id := 1; ci_cart_id := 1; ci_product_id := 1;
                      ci_quantity := 2 |}] |}.

(** A connection fresh from the pool on that shop, for an SQL mode and a
    number of store calls that will succeed. *)
Definition connection (strict_mode : bool) (calls : option nat) : conn :=
  {| strict := strict_mode; fuse := calls;
     counters := {| next_order_id := 1; next_transaction_id := 1;
                    next_cart_id := 2; next_cart_item_id := 2 |};
     durable := shop; view := shop; in_tx := false |}.

Definition home : shipping :=
  {| name := "Ada"; email := "ada@example.com"; address := "1 Main St";
     city := "Turin"; zip := "10100" |}.

(** A checkout of [lines] by user 7. *)
Definition order_of (lines : list OrderController.item)
    : OrderController.createOrder_request :=
  {| OrderController.userId := 7;
     OrderController.items := lines;
     OrderController.shippingInfo := home;
     OrderController.paymentMethod := "card";
     OrderController.order_stamp :=
       {| OrderController.now := 1700000000000;
          OrderController.suffix := 4242 |};
     OrderController.transaction_stamp :=
       {| OrderController.now := 1700000000001;
          OrderController.suffix := 1717 |} |}.

(** A line of [quantity] units of [product] at a price of [price] minor
    units: [line 1 2 1000] is [{ id: 1, quantity: 2, price: 10.00 }]. *)
Definition line (product quantity price : Z) : OrderController.item :=
  {| OrderController.id := product;
     OrderController.quantity := Js.of_Z quantity;
     OrderController.price := Js.decimal price 2 |}.

(** Two dark bars and one box of truffles. *)
Definition basket : OrderController.createOrder_request :=
  order_of [line 1 2 1000; line 2 1 250].

(** The connection after that checkout, handed out again by the pool with
    [calls] store calls that will succeed. *)
Definition after_checkout (strict_mode : bool) (calls : option nat) : conn :=
  with_fuse calls
    (snd (OrderController.createOrder basket (connection strict_mode None))).

(** The connection after a refund of that checkout's transaction on a
    server that is not in strict SQL mode. *)
Definition after_refund (calls : option nat) : conn :=
  with_fuse calls
    (snd (TransactionController.processRefund 1 None None
            (after_checkout false None))).

End Sample.

(** What holds of the connection between any two requests. *)
Definition consistent (c : conn) : Prop :=
  idle c /\ fresh c /\ at_most_one_transaction (durable c).

(** ** The requests the connection serves *)

Inductive request :=
| CreateOrder (req : OrderController.createOrder_request)
| UpdateOrderStatus (id : Z) (status notes : option string)
| ProcessPayment (req : TransactionController.processPayment_request)
| ProcessRefund (id : Z) (amount : option Z) (reason : option string)
| GetCart (userId : Z)
| AddToCart (req : CartController.addToCart_request).

Definition serve (q : request) : conn -> response * conn :=
  match q with
  | CreateOrder req => OrderController.createOrder req
  | UpdateOrderStatus id status notes =>
      OrderController.updateOrderStatus id status notes
  | ProcessPayment req => TransactionController.processPayment req
  | ProcessRefund id amount reason =>
      TransactionController.processRefund id amount reason
  | GetCart userId => CartController.getCart userId
  | AddToCart req => CartController.addToCart req
  end.

(** The states the connection goes through from [c0]: any requests, one
    after the other, the store free to fail during each of them. *)
Inductive reachable (c0 : conn) : conn -> Prop :=
| reach_start : reachable c0 c0
| reach_serve c q f :
    reachable c0 c -> reachable c0 (with_fuse f (snd (serve q c))).

(** A shop that opens with a catalogue and nothing else. *)
Definition opening (strict_mode : bool) (catalogue : list product) : conn :=
  let rows :=
    {| products := catalogue; orders := []; order_items := [];
       transactions := []; order_status_history := []; carts := [];
       cart_items := [] |} in
  {| strict := strict_mode; fuse := None;
     counters := {| next_order_id := 1; next_transaction_id := 1;
                    next_cart_id := 1; next_cart_item_id := 1 |};
     durable := rows; view := rows; in_tx := false |}.

(** Every order's status is the status of the latest entry of its
    history. *)
Definition status_agrees (d : db) : Prop :=
  forall o, In o (orders d) ->
    exists s, o_status o = Some s /\ select_latest_status (o_id o) d = [s].


(** ** A shop with an order that was never paid

    One product and one order of user 7 that no transaction references,
    as left by an import of orders. *)

Module Imported.

Definition shop : db :=
  {| products :=
       [{| p_id := 1; p_name := "Dark bar"; p_price := 1000; p_stock := 5 |}];
     orders :=
       [{| o_id := 1; o_user_id := 7; o_order_number := "ORD-1-1000";
           o_total_amount := 2000; o_status := Some "pending";
           o_shipping := Sample.home |}];
     order_items :=
       [{| oi_order_id := 1; oi_product_id := 1; oi_quantity := 2;
           oi_price := 1000 |}];
     transactions := [];
     order_status_history :=
       [{| h_order_id := 1; h_status := "pending"; h_notes := "Imported" |}];
     carts := [];
     cart_items := [] |}.

Definition connection (strict_mode : bool) (calls : option nat) : conn :=
  {| strict := strict_mode; fuse := calls;
     counters := {| next_order_id := 2; next_transaction_id := 1;
                    next_cart_id := 1; next_cart_item_id := 1 |};
     durable := shop; view := shop; in_tx := false |}.

(** The payment user 7 makes for the order. *)
Definition pay : TransactionController.processPayment_request :=
  {| TransactionController.userId := 7;
     TransactionController.orderId := 1;
     TransactionController.paymentMethod := "card";
     TransactionController.paymentDetails := None;
     TransactionController.transaction_stamp :=
       {| OrderController.now := 1700000000002;
          OrderController.suffix := 2323 |} |}.

End Imported.

(** ** The rows the cart handlers leave behind *)

(** The cart [getCart] and [addToCart] work on: the first cart of the
    user, or the one created under the next generated id. *)
Definition cart_of (user next : Z) (d : db) : cart :=
  match select_carts user d with
  | cart0 :: _ => cart0
  | [] => {| c_id := next; c_user_id := user |}
  end.

(** The rows once the user has a cart. *)
Definition with_cart (user next : Z) (d : db) : db :=
  match select_carts user d with
  | _ :: _ => d
  | [] => insert_cart next user d
  end.

(** [items.reduce((sum, item) => sum + (item.price * item.quantity), 0)] *)
Definition cart_total (items : list (cart_item * product)) : Z :=
  fold_left (fun sum item => sum + p_price (snd item)
                                   * ci_quantity (fst item)) items 0.

(** [items.reduce((count, item) => count + item.quantity, 0)] *)
Definition cart_count (items : list (cart_item * product)) : Z :=
  fold_left (fun count item => count + ci_quantity (fst item)) items 0.

(** The body [getCart] sends for cart [k] over the rows [d]. *)
Definition cart_body (k : cart) (d : db) : payload :=
  CartData (c_id k) (c_user_id k) (select_cart_lines (c_id k) d)
    (cart_total (select_cart_lines (c_id k) d))
    (cart_count (select_cart_lines (c_id k) d)).

(** What a call of [getCart] on an idle connection [c] gives. *)
Definition getCart_post (userId : Z) (c : conn) (r : response) (c' : conn)
    : Prop :=
  strict c' = strict c
  /\ view c' = durable c'
  /\ counters_le (counters c) (counters c')
  /\ ((r = Json 200
             (cart_body (cart_of userId (next_cart_id (counters c))
                           (durable c)) (durable c'))
       /\ durable c' = with_cart userId (next_cart_id (counters c))
                         (durable c)
       /\ in_tx c' = false)
      \/ (is_success r = false /\ durable c' = durable c)).

(** The writes of [addToCart] up to its commit, for the generated cart
    id and cart item id. *)
Definition add_item (req : CartController.addToCart_request)
    (nextCart nextItem : Z) (d : db) : db :=
  let k := cart_of (CartController.userId req) nextCart d in
  let d1 := with_cart (CartController.userId req) nextCart d in
  match select_cart_items (c_id k) (CartController.productId req) d1 with
  | existing0 :: _ =>
      update_cart_item_quantity
        (ci_quantity existing0 + CartController.requested req)
        (ci_id existing0) d1
  | [] =>
      insert_cart_item nextItem (c_id k) (CartController.productId req)
        (CartController.requested req) d1
  end.

(** The quantity of the requested product the user's cart holds. *)
Definition in_cart (req : CartController.addToCart_request) (d : db) : Z :=
  match select_carts (CartController.userId req) d with
  | [] => 0
  | cart0 :: _ =>
      match select_cart_items (c_id cart0) (CartController.productId req)
              d with
      | [] => 0
      | existing0 :: _ => ci_quantity existing0
      end
  end.

(** What a call of [addToCart] gives on an idle connection [c] whose rows
    carry only ids generated before: either the item is added and
    committed, and then the cart is sent unless reading it back fails, or
    the response reports a failure and the rows are as they were. *)
Definition addToCart_post (req : CartController.addToCart_request)
    (c : conn) (r : response) (c' : conn) : Prop :=
  strict c' = strict c
  /\ view c' = durable c'
  /\ counters_le (counters c) (counters c')
  /\ ((CartController.productId req <> 0
       /\ 1 <= CartController.requested req
       /\ (exists product rest,
             select_products (CartController.productId req) (durable c)
             = product :: rest
             /\ CartController.requested req <= p_stock product
             /\ in_cart req (durable c) + CartController.requested req
                <= p_stock product)
       /\ durable c'
          = add_item req (next_cart_id (counters c))
              (next_cart_item_id (counters c)) (durable c)
       /\ (r = Json 200
                 (cart_body (cart_of (CartController.userId req)
                               (next_cart_id (counters c)) (durable c))
                    (durable c'))
           \/ is_success r = false))
      \/ (is_success r = false /\ durable c' = durable c)).

(** The write of [updateCartItem] for a quantity that passed its
    checks. *)
Definition change_item (itemId quantity : Z) (d : db) : db :=
  if quantity =? 0 then delete_cart_item itemId d
  else update_cart_item_quantity quantity itemId d.

(** What a call of [updateCartItem] on an idle connection [c] gives. *)
Definition updateCartItem_post (userId itemId : Z) (quantity : option Z)
    (c : conn) (r : response) (c' : conn) : Prop :=
  strict c' = strict c
  /\ view c' = durable c'
  /\ counters_le (counters c) (counters c')
  /\ ((exists q cartItem rest,
         quantity = Some q
         /\ 0 <= q
         /\ select_cart_item_stock itemId userId (durable c)
            = cartItem :: rest
         /\ (q <> 0 -> q <= p_stock (snd cartItem))
         /\ durable c' = change_item itemId q (durable c)
         /\ (r = Json 200
                   (cart_body (cart_of userId (next_cart_id (counters c))
                                 (durable c)) (durable c'))
             \/ is_success r = false))
      \/ (is_success r = false /\ durable c' = durable c)).

(** What a call of [removeFromCart] on an idle connection [c] gives. *)
Definition removeFromCart_post (userId itemId : Z) (c : conn)
    (r : response) (c' : conn) : Prop :=
  strict c' = strict c
  /\ view c' = durable c'
  /\ counters_le (counters c) (counters c')
  /\ ((select_cart_items_of_user itemId userId (durable c) <> []
       /\ durable c' = delete_cart_item itemId (durable c)
       /\ (r = Json 200
                 (cart_body (cart_of userId (next_cart_id (counters c))
                               (durable c)) (durable c'))
           \/ is_success r = false))
      \/ (is_success r = false /\ durable c' = durable c)).

(** What a call of [clearCart] on an idle connection [c] gives. *)
Definition clearCart_post (userId : Z) (c : conn) (r : response)
    (c' : conn) : Prop :=
  strict c' = strict c
  /\ view c' = durable c'
  /\ counters c' = counters c
  /\ ((r = Json 200 (Message "Cart cleared successfully")
       /\ select_carts userId (durable c) <> []
       /\ durable c' = clear_cart userId (durable c)
       /\ in_tx c' = false)
      \/ (r = Json 200 (Message "Cart is already empty")
          /\ select_carts userId (durable c) = []
          /\ durable c' = durable c)
      \/ (is_success r = false /\ durable c' = durable c)).

(** ** Handlers that only read *)

(** A piece of a handler that leaves the session as it found it, apart
    from the store calls it has used up. *)
Definition reads {A} (m : M A) : Prop :=
  forall c, exists f, snd (m c) = with_fuse f c.

(** The summary [getUserOrders] builds for order [o] over the rows
    [d]. *)
Definition summary_of (d : db) (o : order) : OrderController.order_summary :=
  {| OrderController.s_order := o;
     OrderController.s_items := select_order_lines (o_id o) d;
     OrderController.s_currentStatus :=
       OrderController.currentStatus (o_id o) d |}.

(** ** Every request that writes *)

Inductive operation :=
| Workflow (q : request)
| UpdateCartItem (userId itemId : Z) (quantity : option Z)
| RemoveFromCart (userId itemId : Z)
| ClearCart (userId : Z).

Definition perform (o : operation) : conn -> response * conn :=
  match o with
  | Workflow q => serve q
  | UpdateCartItem userId itemId quantity =>
      CartController.updateCartItem userId itemId quantity
  | RemoveFromCart userId itemId =>
      CartController.removeFromCart userId itemId
  | ClearCart userId => CartController.clearCart userId
  end.

(** The states the connection goes through from [c0] when any of the
    writing handlers are called one after the other, the store free to
    fail during each of them. *)
Inductive reaches (c0 : conn) : conn -> Prop :=
| reaches_start : reaches c0 c0
| reaches_step c o f :
    reaches c0 c -> reaches c0 (with_fuse f (snd (perform o c))).

(** The carts as the [UNIQUE] keys of [schema.sql] want them: one cart
    for a user and one item for a product in a cart. *)
Definition cart_rows_ok (d : db) : Prop :=
  (forall user, (List.length (select_carts user d) <= 1)%nat)
  /\ (forall cart_id product_id,
        (List.length (select_cart_items cart_id product_id d) <= 1)%nat).

(** The books: no two orders share an id, and every order is referenced
    by exactly one transaction, whose amount is the order's total. *)
Definition ledger_ok (d : db) : Prop :=
  NoDup (map o_id (orders d))
  /\ (forall o, In o (orders d) ->
        exists t,
          select_transactions_of_order (o_id o) d = [t]
          /\ t_amount t = o_total_amount o).

(** What a handler other than a checkout may change of the books: the
    status of orders and of transactions. *)
Definition ledger_frame (d d' : db) : Prop :=
  map (fun o => (o_id o, o_total_amount o)) (orders d')
  = map (fun o => (o_id o, o_total_amount o)) (orders d)
  /\ order_items d' = order_items d
  /\ map (fun t => (t_order_id t, t_amount t)) (transactions d')
     = map (fun t => (t_order_id t, t_amount t)) (transactions d).

(** The carts are untouched. *)
Definition cart_frame (d d' : db) : Prop :=
  carts d' = carts d /\ cart_items d' = cart_items d.

(** ** Callers *)

(** The request carries a token that verifies and names a user whose
    role is called "admin". *)
Definition admin_caller (verify : string -> option Z) (a : Auth.accounts)
    (authorization : option string) : Prop :=
  exists token id user rest others,
    Auth.token_of authorization = Some token
    /\ verify token = Some id
    /\ Auth.select_users id a = user :: rest
    /\ Auth.select_role_names (Auth.u_role_id user) a = "admin" :: others.

(** The request was turned away by the middleware: nothing was written
    and the status is 401, 403 or 500. *)
Definition turned_away (c : conn) (r : response) (c' : conn) : Prop :=
  durable c' = durable c
  /\ view c' = view c
  /\ exists status message,
       r = Json status (Message message)
       /\ (status = 401 \/ status = 403 \/ status = 500).

(** ** The staff of the small shop

    The two roles [schema.sql] inserts, the administrator it creates
    (user 1) and the customer of the sample (user 7), with a token
    each. *)

Module Staff.

Definition accounts : Auth.accounts :=
  {| Auth.roles :=
       [{| Auth.r_id := 1; Auth.r_name := "admin" |};
        {| Auth.r_id := 2; Auth.r_name := "user" |}];
     Auth.users :=
       [{| Auth.u_id := 1; Auth.u_name := "Admin";
           Auth.u_email := "admin@example.com";
           Auth.u_password := "$2b$10$hash"; Auth.u_role_id := 1 |};
        {| Auth.u_id := 7; Auth.u_name := "Ada";
           Auth.u_email := "ada@example.com";
           Auth.u_password := "$2b$10$hash"; Auth.u_role_id := 2 |}] |}.

(** A verification that accepts two tokens. *)
Definition verify (token : string) : option Z :=
  if (token =? "token-of-admin")%string then Some 1
  else if (token =? "token-of-ada")%string then Some 7
  else None.

Definition admin : option string := Some "Bearer token-of-admin".

Definition ada : option string := Some "Bearer token-of-ada".

End Staff.

Section WeakestPreconditions.

Context {A : Type}.
Implicit Types (Q : outcome A -> conn -> Prop) (c : conn).

Lemma wp_ret (a : A) Q c : Q (Val a) c -> wp (ret a) Q c.
Proof. exact (fun H => H). Qed.

Lemma wp_respond r Q c : Q (Ret r) c -> wp (respond r) Q c.
Proof. exact (fun H => H). Qed.

Lemma wp_throw e Q c : Q (Exc e) c -> wp (throw e) Q c.
Proof. exact (fun H => H). Qed.

Lemma wp_mono (m : M A) Q Q' c :
  wp m Q c -> (forall o c', Q o c' -> Q' o c') -> wp m Q' c.
Proof. unfold wp. intros H HQ. apply HQ, H. Qed.

Lemma wp_bind {B} (m : M B) (k : B -> M A) Q c :
  wp m (then_wp k Q) c -> wp (bind m k) Q c.
Proof.
  unfold wp, bind, then_wp.
  destruct (m c) as [[b | r | e] c']; simpl; trivial.
Qed.

End WeakestPreconditions.

Lemma handler_wp (body : M response) (P : response -> conn -> Prop) c :
  wp body (handled P) c ->
  P (fst (handler body c)) (snd (handler body c)).
Proof.
  unfold wp, handler, handled, release.
  destruct (body c) as [[r | r | e] c']; simpl; trivial.
Qed.

(** ** Store calls when no storage failure is due *)

Section NoFault.

Variable c : conn.
Hypothesis no_fault : fuse c = None.

Lemma wp_tick_ok Q : Q (Val tt) c -> wp tick Q c.
Proof. unfold wp, tick. rewrite no_fault. trivial. Qed.

Lemma wp_beginTransaction_ok Q :
  Q (Val tt) (opened c) -> wp beginTransaction Q c.
Proof. intros H. apply wp_bind, wp_tick_ok. exact H. Qed.

Lemma wp_commit_ok Q : Q (Val tt) (committed c) -> wp commit Q c.
Proof. intros H. apply wp_bind, wp_tick_ok. exact H. Qed.

Lemma wp_query_ok {A} (q : db -> A) Q :
  Q (Val (q (view c))) c -> wp (query q) Q c.
Proof. intros H. apply wp_bind, wp_tick_ok. exact H. Qed.

Lemma wp_execute_ok q Q :
  match q (strict c) (view c) with
  | inl e => Q (Exc e) c
  | inr d => Q (Val tt) (store d c)
  end ->
  wp (execute q) Q c.
Proof.
  intros H. apply wp_bind, wp_tick_ok. unfold then_wp, wp.
  destruct (q (strict c) (view c)); exact H.
Qed.

Lemma wp_insert_ok next set_next q Q :
  (let id := next (counters c) in
   let c1 := with_counters (set_next (id + 1) (counters c)) c in
   match q id (strict c) (view c) with
   | inl e => Q (Exc e) c1
   | inr d => Q (Val id) (store d c1)
   end) ->
  wp (insert next set_next q) Q c.
Proof.
  intros H. apply wp_bind, wp_tick_ok. unfold then_wp, wp. simpl in *.
  destruct (q (next (counters c)) (strict c) (view c)); exact H.
Qed.


End NoFault.

(** ** Store calls that may fail *)

Section AnyFault.

Variable c : conn.

Lemma wp_tick Q :
  Q (Exc StoreFault) c -> (forall f, Q (Val tt) (with_fuse f c)) ->
  wp tick Q c.
Proof.
  intros He Hv. unfold wp, tick.
  destruct (fuse c) as [[|n]|] eqn:E; simpl.
  - exact He.
  - apply Hv.
  - specialize (Hv None). unfold with_fuse in Hv. rewrite <- E in Hv.
    destruct c; exact Hv.
Qed.

Lemma wp_beginTransaction Q :
  Q (Exc StoreFault) c -> (forall f, Q (Val tt) (opened (with_fuse f c))) ->
  wp beginTransaction Q c.
Proof. intros He Hv. apply wp_bind, wp_tick; [exact He | exact Hv]. Qed.

Lemma wp_commit Q :
  Q (Exc StoreFault) c ->
  (forall f, Q (Val tt) (committed (with_fuse f c))) ->
  wp commit Q c.
Proof. intros He Hv. apply wp_bind, wp_tick; [exact He | exact Hv]. Qed.

Lemma wp_query {A} (q : db -> A) Q :
  Q (Exc StoreFault) c ->
  (forall f, Q (Val (q (view c))) (with_fuse f c)) ->
  wp (query q) Q c.
Proof. intros He Hv. apply wp_bind, wp_tick; [exact He | exact Hv]. Qed.

Lemma wp_execute q Q :
  Q (Exc StoreFault) c ->
  (forall f,
     match q (strict c) (view c) with
     | inl e => Q (Exc e) (with_fuse f c)
     | inr d => Q (Val tt) (store d (with_fuse f c))
     end) ->
  wp (execute q) Q c.
Proof.
  intros He Hv. apply wp_bind, wp_tick; [exact He |].
  intros f. specialize (Hv f). unfold then_wp, wp. simpl.
  destruct (q (strict c) (view c)); exact Hv.
Qed.

Lemma wp_insert next set_next q Q :
  Q (Exc StoreFault) c ->
  (forall f,
     let id := next (counters c) in
     let c1 :=
       with_counters (set_next (id + 1) (counters c)) (with_fuse f c) in
     match q id (strict c) (view c) with
     | inl e => Q (Exc e) c1
     | inr d => Q (Val id) (store d c1)
     end) ->
  wp (insert next set_next q) Q c.
Proof.
  intros He Hv. apply wp_bind, wp_tick; [exact He |].
  intros f. specialize (Hv f). unfold then_wp, wp. simpl in *.
  destruct (q (next (counters c)) (strict c) (view c)); exact Hv.
Qed.

Lemma wp_insert_values {V} (values : bool -> error + V) next set_next q
    Q :
  Q (Exc StoreFault) c ->
  (forall f,
     match values (strict c) with
     | inl e => Q (Exc e) (with_fuse f c)
     | inr v =>
         let id := next (counters c) in
         let c1 :=
           with_counters (set_next (id + 1) (counters c)) (with_fuse f c) in
         match q v id (strict c) (view c) with
         | inl e => Q (Exc e) c1
         | inr d => Q (Val id) (store d c1)
         end
     end) ->
  wp (insert_values values next set_next q) Q c.
Proof.
  intros He Hv. apply wp_bind, wp_tick; [exact He |].
  intros f. specialize (Hv f). unfold then_wp, wp. simpl in *.
  destruct (values (strict c)); [exact Hv |].
  destruct (q v (next (counters c)) (strict c) (view c)); exact Hv.
Qed.

End AnyFault.

(** ** The session state across store calls *)

Lemma with_fuse_same c : with_fuse (fuse c) c = c.
Proof. destruct c; reflexivity. Qed.

Lemma with_fuse_twice f g c : with_fuse f (with_fuse g c) = with_fuse f c.
Proof. reflexivity. Qed.

(** ** [createOrder]: the product check *)

Lemma first_missing_In l d item :
  first_missing l d = Some item ->
  In item l /\ select_products (OrderController.id item) d = [].
Proof.
  unfold first_missing. intros H. apply find_some in H.
  destruct H as [Hin Hsel]. split; [exact Hin |].
  destruct (select_products (OrderController.id item) d);
    [reflexivity | discriminate].
Qed.

Lemma first_missing_None l d :
  first_missing l d = None -> all_products_exist l d.
Proof.
  unfold first_missing, all_products_exist. intros H.
  apply Forall_forall. intros item Hin.
  pose proof (find_none _ _ H item Hin) as Hn. simpl in Hn.
  destruct (select_products (OrderController.id item) d);
    [discriminate | discriminate].
Qed.

Lemma first_missing_exists l d item :
  In item l -> select_products (OrderController.id item) d = [] ->
  exists item', first_missing l d = Some item'.
Proof.
  intros Hin Hsel. destruct (first_missing l d) as [i |] eqn:E.
  - exists i. reflexivity.
  - pose proof (find_none _ _ E item Hin) as Hn. simpl in Hn.
    rewrite Hsel in Hn. discriminate.
Qed.

(** Without storage failures the check stops at the first line whose
    product is missing and touches nothing. *)
Lemma wp_verify_products_ok l c Q :
  fuse c = None ->
  match first_missing l (view c) with
  | Some item =>
      Q (Ret (Json 400 (Message
           ("Product with ID " ++ string_of_Z (OrderController.id item)
            ++ " not found")%string))) c
  | None => Q (Val tt) c
  end ->
  wp (OrderController.verify_products l) Q c.
Proof.
  intros Hf. induction l as [| item l IH]; simpl; intros H.
  - exact H.
  - apply wp_bind, wp_bind, wp_query_ok; [exact Hf |].
    unfold then_wp at 1.
    destruct (select_products (OrderController.id item) (view c)) eqn:E.
    + apply wp_respond. exact H.
    + apply wp_ret. unfold then_wp. apply IH. exact H.
Qed.

(** While the store answers, a checkout by an authenticated caller is
    refused with status 400 at the first line whose product is missing. *)
Lemma createOrder_refuses_missing req c item :
  fuse c = None ->
  idle c ->
  OrderController.userId req <> 0 ->
  In item (OrderController.items req) ->
  select_products (OrderController.id item) (durable c) = [] ->
  exists missing,
    In missing (OrderController.items req)
    /\ select_products (OrderController.id missing) (durable c) = []
    /\ fst (OrderController.createOrder req c)
       = Json 400 (Message
           ("Product with ID " ++ string_of_Z (OrderController.id missing)
            ++ " not found")%string)
    /\ durable (snd (OrderController.createOrder req c)) = durable c
    /\ view (snd (OrderController.createOrder req c)) = durable c.
Proof.
  intros Hf Hidle Hu Hin Hsel. unfold idle in Hidle.
  rewrite <- Hidle in Hsel.
  destruct (first_missing_exists _ _ _ Hin Hsel) as [missing Hm].
  destruct (first_missing_In _ _ _ Hm) as [Hin' Hsel'].
  exists missing. rewrite <- Hidle. split; [exact Hin' |].
  split; [exact Hsel' |].
  apply (handler_wp _ (fun r c' =>
    r = Json 400 (Message
          ("Product with ID " ++ string_of_Z (OrderController.id missing)
           ++ " not found")%string)
    /\ durable c' = view c /\ view c' = view c)).
  apply wp_bind, wp_beginTransaction_ok; [exact Hf |].
  unfold then_wp.
  destruct (OrderController.userId req =? 0) eqn:E;
    [apply Z.eqb_eq in E; contradiction |].
  apply wp_bind, wp_verify_products_ok; [exact Hf |].
  simpl view. rewrite Hm. simpl. auto.
Qed.

(** ** The loops, with storage failures possible *)

Lemma store_view c : in_tx c = true \/ idle c -> store (view c) c = c.
Proof.
  unfold store, idle. destruct c as [s f n d v t]; simpl.
  intros [-> | ->]; [reflexivity | destruct t; reflexivity].
Qed.

Lemma store_store d1 d2 c : store d2 (store d1 c) = store d2 c.
Proof. unfold store. simpl. destruct (in_tx c); reflexivity. Qed.

Lemma wp_verify_products l : forall c Q,
  (forall f, Q (Exc StoreFault) (with_fuse f c)) ->
  (forall f item, In item l ->
     select_products (OrderController.id item) (view c) = [] ->
     Q (Ret (Json 400 (Message
          ("Product with ID " ++ string_of_Z (OrderController.id item)
           ++ " not found")%string))) (with_fuse f c)) ->
  (forall f, all_products_exist l (view c) -> Q (Val tt) (with_fuse f c)) ->
  wp (OrderController.verify_products l) Q c.
Proof.
  induction l as [| item l IH]; intros c Q He Hr Hv.
  - apply wp_ret. rewrite <- (with_fuse_same c). apply Hv. constructor.
  - simpl. apply wp_bind, wp_bind, wp_query.
    + rewrite <- (with_fuse_same c). apply He.
    + intros f. unfold then_wp at 1.
      destruct (select_products (OrderController.id item) (view c)) eqn:E.
      * apply wp_respond. apply Hr; [left; reflexivity | exact E].
      * apply wp_ret. unfold then_wp. apply IH.
        -- intros g. apply He.
        -- intros g i Hi Hs. apply Hr; [right; exact Hi | exact Hs].
        -- intros g Hall. apply Hv. constructor; [| exact Hall].
           rewrite E. discriminate.
Qed.

(** The second loop ends in an error, inside the transaction, or with
    the rows of [place_items]. *)
Lemma wp_add_order_items orderId l : forall c Q,
  store (view c) c = c ->
  (forall f d e, Q (Exc e) (with_fuse f (store d c))) ->
  (forall f d',
     place_items (strict c) orderId l (view c) = inr d' ->
     Q (Val tt) (with_fuse f (store d' c))) ->
  wp (OrderController.add_order_items orderId l) Q c.
Proof.
  induction l as [| item l IH]; intros c Q Hc He Hv.
  - apply wp_ret. specialize (Hv (fuse c) (view c) eq_refl).
    rewrite Hc, with_fuse_same in Hv. exact Hv.
  - simpl. apply wp_bind, wp_bind, wp_execute.
    + specialize (He (fuse c) (view c) StoreFault).
      rewrite Hc, with_fuse_same in He. exact He.
    + intros f. cbn [place_items] in Hv. unfold place_item in Hv.
      destruct (order_item_values (strict c) (OrderController.quantity item)
                  (OrderController.price item)) as [e | [q p]].
      { specialize (He f (view c) e). rewrite Hc in He. exact He. }
      unfold then_wp at 1. apply wp_execute.
      * apply He.
      * intros g. simpl view. simpl strict.
        destruct (decrease_stock (strict c) (OrderController.quantity item)
                    (OrderController.id item)
                    (insert_order_item orderId (OrderController.id item)
                       q p (view c))) as [e | d1].
        { specialize (He g (insert_order_item orderId
                              (OrderController.id item) q p (view c)) e).
          unfold store in *. simpl in *. destruct (in_tx c); exact He. }
        unfold then_wp. apply IH.
        -- simpl. unfold store. simpl. destruct (in_tx c); reflexivity.
        -- intros h d e. specialize (He h d e). unfold store in *.
           simpl in *. destruct (in_tx c); exact He.
        -- intros h d' Hd'. specialize (Hv h d' Hd'). unfold store in *.
           simpl in *. destruct (in_tx c); exact Hv.
Qed.

Lemma restock_app l1 l2 d : restock (l1 ++ l2) d = restock l2 (restock l1 d).
Proof. unfold restock. apply fold_left_app. Qed.

(** A storage failure inside the loop leaves the stock returned for the
    items before the one at which it struck. *)
Lemma wp_return_stock l : forall c Q,
  store (view c) c = c ->
  (forall f returned pending,
     l = (returned ++ pending)%list ->
     Q (Exc StoreFault) (with_fuse f (store (restock returned (view c)) c))) ->
  (forall f, Q (Val tt) (with_fuse f (store (restock l (view c)) c))) ->
  wp (OrderController.return_stock l) Q c.
Proof.
  induction l as [| item l IH]; intros c Q Hc He Hv.
  - apply wp_ret. specialize (Hv (fuse c)). simpl in Hv.
    rewrite Hc, with_fuse_same in Hv. exact Hv.
  - simpl. apply wp_bind, wp_execute.
    + specialize (He (fuse c) [] (item :: l) eq_refl). simpl in He.
      rewrite Hc, with_fuse_same in He. exact He.
    + intros f. unfold then_wp. apply IH.
      * simpl. unfold store. simpl. destruct (in_tx c); reflexivity.
      * intros h returned pending Hl.
        specialize (He h (item :: returned) pending).
        rewrite Hl in He. specialize (He eq_refl).
        unfold store in *. simpl in *.
        destruct (in_tx c); exact He.
      * intros h. specialize (Hv h). unfold store in *. simpl in *.
        destruct (in_tx c); exact Hv.
Qed.

(** ** [createOrder] on an idle connection *)

Lemma counters_le_refl a : counters_le a a.
Proof. unfold counters_le. lia. Qed.

Lemma createOrder_post_failed req c r c' :
  is_success r = false ->
  strict c' = strict c ->
  view c' = durable c' ->
  durable c' = durable c ->
  counters_le (counters c) (counters c') ->
  createOrder_post req c r c'.
Proof. unfold createOrder_post. intuition. Qed.

(** The obligation left by a path on which the workflow fails inside its
    transaction: lemma [L] states the failure case of the postcondition,
    [H] that the connection was idle on entry. *)
Ltac failed L H :=
  simpl; apply L; simpl; rewrite ?H;
  solve [ reflexivity | unfold counters_le; simpl; lia ].

Lemma createOrder_spec req c :
  idle c ->
  createOrder_post req c (fst (OrderController.createOrder req c))
    (snd (OrderController.createOrder req c)).
Proof.
  unfold idle. intros Hidle.
  apply (handler_wp _ (createOrder_post req c)).
  apply wp_bind, wp_beginTransaction.
  { failed createOrder_post_failed Hidle. }
  intros f0. unfold then_wp.
  destruct (OrderController.userId req =? 0) eqn:Eu.
  { apply wp_respond. failed createOrder_post_failed Hidle. }
  apply wp_bind, wp_verify_products.
  { intros f. failed createOrder_post_failed Hidle.  }
  { intros f item Hin Hsel. failed createOrder_post_failed Hidle. }
  intros f1 Hall. unfold then_wp. simpl view in Hall.
  apply wp_bind, wp_insert_values.
  { failed createOrder_post_failed Hidle. }
  intros f2. simpl strict.
  destruct (amount_value (strict c) "total_amount" _) as [e | total] eqn:E0.
  { failed createOrder_post_failed Hidle. }
  cbv zeta. simpl counters. simpl view. simpl strict.
  destruct (insert_order _ _ _ _ _ _) as [e | d1] eqn:E1.
  { failed createOrder_post_failed Hidle. }
  unfold then_wp.
  destruct (next_order_id (counters c) =? 0) eqn:En.
  { apply wp_throw. failed createOrder_post_failed Hidle. }
  apply wp_bind, wp_add_order_items.
  { reflexivity. }
  { intros f d e. failed createOrder_post_failed Hidle. }
  intros f3 d2 E2. unfold then_wp. simpl view in E2 |- *.
  simpl strict in E2.
  apply wp_bind, wp_insert_values.
  { failed createOrder_post_failed Hidle. }
  intros f4. simpl strict.
  destruct (amount_value (strict c) "amount" _) as [e | amount] eqn:E0'.
  { failed createOrder_post_failed Hidle. }
  cbv zeta. simpl counters. simpl view. simpl strict.
  destruct (insert_transaction _ _ _ _ _ _ _ _ _) as [e | d3] eqn:E3.
  { failed createOrder_post_failed Hidle. }
  unfold then_wp.
  apply wp_bind, wp_execute.
  { failed createOrder_post_failed Hidle. }
  intros f5. simpl view. simpl strict.
  destruct (insert_status_history _ _ _ _ _) as [e | d4] eqn:E4.
  { failed createOrder_post_failed Hidle. }
  unfold then_wp.
  apply wp_bind, wp_query.
  { failed createOrder_post_failed Hidle. }
  intros f6. unfold then_wp at 1. simpl view.
  assert (Hfinal : forall f c1,
    strict c1 = strict c -> in_tx c1 = true -> durable c1 = durable c ->
    view c1 = clear_cart (OrderController.userId req) d4 ->
    counters c1
    = set_next_transaction_id (next_transaction_id (counters c) + 1)
        (set_next_order_id (next_order_id (counters c) + 1) (counters c)) ->
    then_wp (fun _ : unit => commit ;; ret (Json 201
               (OrderCreated (next_order_id (counters c))
                  (OrderController.orderNumber_of
                     (OrderController.order_stamp req))
                  (OrderController.transactionId_of
                     (OrderController.transaction_stamp req)))))
      (handled (createOrder_post req c)) (Val tt) (with_fuse f c1)).
  { intros f c1 Hs Ht Hd Hv Hn. unfold then_wp.
    apply wp_bind, wp_commit.
    - simpl; apply createOrder_post_failed; simpl; rewrite ?Hs, ?Hd, ?Hn;
        solve [ reflexivity | unfold counters_le; simpl; lia ].
    - intros g. unfold then_wp. apply wp_ret. simpl.
      unfold createOrder_post. simpl. rewrite Hs, Hn, Hv.
      split; [reflexivity |]. split; [reflexivity |].
      split; [unfold counters_le; simpl; lia |].
      left. split; [reflexivity |].
      split; [intros H0; rewrite H0 in Eu; discriminate |].
      split; [apply Z.eqb_neq; exact En |].
      rewrite <- Hidle. split; [exact Hall |].
      split; [| split; reflexivity].
      cbn [next_transaction_id set_next_order_id] in E3.
      unfold checkout. cbv zeta. rewrite E0, E1, E2, E0', E3, E4.
      reflexivity. }
  unfold clear_cart in Hfinal. apply wp_bind.
  destruct (select_carts (OrderController.userId req) d4) as [| cart0 rest].
  - apply wp_ret. rewrite <- (with_fuse_twice f6 f6).
    apply Hfinal; simpl; try reflexivity. exact Hidle.
  - apply wp_execute.
    + failed createOrder_post_failed Hidle.
    + intros f7. cbv beta iota. simpl view.
      change (store ?d (with_fuse ?f ?x)) with (with_fuse f (store d x)).
      apply Hfinal; simpl; try reflexivity. exact Hidle.
Qed.

(** ** [updateOrderStatus] on an idle connection *)

Lemma updateOrderStatus_post_failed id status notes c r c' :
  is_success r = false ->
  strict c' = strict c ->
  counters c' = counters c ->
  view c' = durable c' ->
  partial_transition (strict c) (in_tx c) id status notes (durable c)
    (durable c') ->
  updateOrderStatus_post id status notes c r c'.
Proof. unfold updateOrderStatus_post. intuition. Qed.

(** The rows a failing path leaves, by the mode the connection was in. *)
Lemma partial_by_mode strict id status notes (t : bool) d d' x :
  (t = false -> partial_transition strict false id status notes d x) ->
  d' = (if t then d else x) ->
  partial_transition strict t id status notes d d'.
Proof.
  intros Hx ->. destruct t; [left; reflexivity | apply Hx; reflexivity].
Qed.

Lemma updateOrderStatus_spec id status notes c :
  idle c ->
  updateOrderStatus_post id status notes c
    (fst (OrderController.updateOrderStatus id status notes c))
    (snd (OrderController.updateOrderStatus id status notes c)).
Proof.
  unfold idle. intros Hidle.
  apply (handler_wp _ (updateOrderStatus_post id status notes c)).
  assert (Hstill : forall r x,
    is_success r = false ->
    strict x = strict c -> counters x = counters c ->
    view x = durable x -> durable x = durable c ->
    updateOrderStatus_post id status notes c r x).
  { intros r x Hr Hs Hn Hv Hd.
    apply updateOrderStatus_post_failed; try assumption.
    left. exact Hd. }
  apply wp_bind, wp_query.
  { simpl. apply Hstill; simpl; rewrite ?Hidle; reflexivity. }
  intros f0. unfold then_wp at 1.
  destruct (select_orders id (view c)) as [| order0 rest] eqn:Eo.
  { apply wp_respond. simpl. apply Hstill; simpl; rewrite ?Hidle; reflexivity. }
  assert (Hexists : select_orders id (durable c) <> []).
  { rewrite <- Hidle, Eo. discriminate. }
  apply wp_bind, wp_execute.
  { simpl. apply Hstill; simpl; rewrite ?Hidle; reflexivity. }
  intros f1. simpl view. simpl strict.
  destruct (update_order_status _ _ _ _) as [e | d1] eqn:E1.
  { simpl. apply Hstill; simpl; rewrite ?Hidle; reflexivity. }
  rewrite Hidle in E1.
  assert (Hcut : forall r x returned pending d2,
    is_success r = false ->
    strict x = strict c -> counters x = counters c ->
    view x = durable x ->
    insert_status_history (strict c) id status
      (or_default notes ("Status updated to " ++ string_of_field status)%string)
      d1 = inr d2 ->
    select_order_items id d2 = (returned ++ pending)%list ->
    durable x = (if in_tx c then durable c else restock returned d2) ->
    updateOrderStatus_post id status notes c r x).
  { intros r x returned pending d2 Hr Hs Hn Hv E2 Hl Hd.
    apply updateOrderStatus_post_failed; try assumption.
    apply (partial_by_mode _ _ _ _ _ _ _ (restock returned d2)); [| exact Hd].
    intros _. right. split; [reflexivity |]. split; [exact Hexists |].
    exists d1. split; [exact E1 |]. right.
    exists d2. split; [exact E2 |]. exists returned, pending. auto. }
  unfold then_wp.
  apply wp_bind, wp_execute.
  { simpl. apply updateOrderStatus_post_failed; simpl; try reflexivity.
    apply (partial_by_mode _ _ _ _ _ _ _ d1); [| reflexivity].
    intros _. right. split; [reflexivity |]. split; [exact Hexists |].
    exists d1. auto. }
  intros f2. simpl view. simpl strict.
  destruct (insert_status_history _ _ _ _ _) as [e | d2] eqn:E2.
  { simpl. apply updateOrderStatus_post_failed; simpl; try reflexivity.
    apply (partial_by_mode _ _ _ _ _ _ _ d1); [| reflexivity].
    intros _. right. split; [reflexivity |]. split; [exact Hexists |].
    exists d1. auto. }
  unfold then_wp.
  assert (Hfinal : forall f c1,
    strict c1 = strict c -> counters c1 = counters c ->
    durable c1
    = (if in_tx c then durable c
       else if OrderController.is_cancelled status
            then restock (select_order_items id d2) d2 else d2) ->
    view c1 = (if OrderController.is_cancelled status
               then restock (select_order_items id d2) d2 else d2) ->
    then_wp (fun _ : unit => commit ;; ret (Json 200
               (Message "Order status updated successfully")))
      (handled (updateOrderStatus_post id status notes c)) (Val tt)
      (with_fuse f c1)).
  { intros f c1 Hs Hn Hd Hv. unfold then_wp.
    apply wp_bind, wp_commit.
    - simpl.
      destruct (OrderController.is_cancelled status).
      + apply (Hcut _ _ (select_order_items id d2) [] d2); simpl;
          rewrite ?Hs, ?Hn, ?app_nil_r; try reflexivity; assumption.
      + apply (Hcut _ _ [] (select_order_items id d2) d2); simpl;
          rewrite ?Hs, ?Hn; try reflexivity; assumption.
    - intros g. unfold then_wp. apply wp_ret. simpl.
      unfold updateOrderStatus_post. simpl. rewrite Hs, Hn, Hv.
      split; [reflexivity |]. split; [reflexivity |].
      split; [reflexivity |].
      left. split; [reflexivity |].
      split; [exact Hexists |].
      split; [| reflexivity].
      unfold transition. rewrite E1, E2. reflexivity. }
  apply wp_bind.
  destruct (OrderController.is_cancelled status).
  - apply wp_bind, wp_query.
    + simpl. apply (Hcut _ _ [] (select_order_items id d2) d2); simpl;
        try reflexivity; try assumption.
      destruct (in_tx c); reflexivity.
    + intros f3. unfold then_wp at 1. simpl view.
      apply wp_return_stock.
      * unfold store. simpl. destruct (in_tx c); reflexivity.
      * intros f returned pending Hl. simpl.
        apply (Hcut _ _ returned pending d2); simpl;
          try reflexivity; try assumption.
        destruct (in_tx c); reflexivity.
      * intros f. simpl view.
        apply Hfinal; simpl; try reflexivity.
        destruct (in_tx c); reflexivity.
  - apply wp_ret.
    change (store ?d (with_fuse ?f ?x)) with (with_fuse f (store d x)).
    apply Hfinal; simpl; try reflexivity.
    destruct (in_tx c); reflexivity.
Qed.

(** ** Numbers as the statements carry them *)

(** What [String] writes for some numbers: [0.1 + 0.2] is written
    [0.30000000000000004], [1.005 * 1000] is written
    [1004.9999999999999], [0.004 * 1000] is written [4], and the number
    read from [123456789012345678901] is written
    [123456789012345680000]. *)
Lemma to_decimal_examples :
  Js.to_decimal (Js.add (Js.decimal 1 1) (Js.decimal 2 1))
  = Some (30000000000000004, -17)
  /\ Js.to_decimal (Js.mul (Js.decimal 1005 3) (Js.of_Z 1000))
     = Some (10049999999999999, -13)
  /\ Js.to_decimal (Js.mul (Js.decimal 4 3) (Js.of_Z 1000)) = Some (4, 0)
  /\ Js.to_decimal (Js.of_Z 123456789012345678901)
     = Some (12345678901234568, 4)
  /\ Js.to_decimal (Js.decimal (- 5) 1) = Some (- 5, -1)
  /\ Js.to_decimal (Js.decimal 1 7) = Some (1, -7)
  /\ Js.to_decimal (Js.mul (Js.of_Z (10 ^ 200)) (Js.of_Z (10 ^ 200))) = None.
Proof. vm_compute. repeat split. Qed.

(** What the columns store: an [INT] column stores [0.5] as [1], [-2.5]
    as [-3] and [1.4] as [1]; a [DECIMAL(10,2)] column stores [0.004] as
    [0.00] and [0.005] as [0.01]; [3000000000] is out of the range of an
    [INT], refused in strict mode and stored as the top of the range
    without it; a stock of [5] less [0.5] is stored as [5]. *)
Lemma column_examples :
  int_column true "quantity" (5, -1) = inr 1
  /\ int_column true "quantity" (- 25, -1) = inr (- 3)
  /\ int_column true "quantity" (14, -1) = inr 1
  /\ decimal_column true "price" (4, -3) = inr 0
  /\ decimal_column true "price" (5, -3) = inr 1
  /\ decimal_column true "price" (1, 1) = inr 1000
  /\ int_column true "quantity" (3, 9) = inl (ER_OUT_OF_RANGE "quantity")
  /\ int_column false "quantity" (3, 9) = inr 2147483647
  /\ stock_less true (5, -1) 5 = inr 5
  /\ literal S754_nan = inl (ER_BAD_FIELD "NaN").
Proof. vm_compute. repeat split. Qed.

(** ** Rows after the checkout's second loop *)

Lemma amount_value_column strict column column' v total :
  amount_value strict column v = inr total ->
  amount_value strict column' v = inr total.
Proof.
  unfold amount_value, decimal_column, in_range.
  destruct (literal v) as [e | x]; [discriminate |].
  destruct (rounded 2 x <? - 9999999999), (9999999999 <? rounded 2 x),
    strict; try discriminate; trivial.
Qed.

Lemma decrease_stock_rows strict quantity id d d' :
  decrease_stock strict quantity id d = inr d' ->
  orders d' = orders d
  /\ order_items d' = order_items d
  /\ transactions d' = transactions d
  /\ order_status_history d' = order_status_history d
  /\ carts d' = carts d
  /\ cart_items d' = cart_items d.
Proof.
  unfold decrease_stock.
  destruct (literal quantity) as [e | x]; [discriminate |].
  destruct (take_stock strict x id (products d)) as [e | ps];
    [discriminate |].
  intros H. injection H as <-. repeat split.
Qed.

Lemma place_item_rows strict orderId d item d' :
  place_item strict orderId d item = inr d' ->
  exists row,
    order_item_of strict orderId item = inr row
    /\ order_items d' = (order_items d ++ [row])%list
    /\ orders d' = orders d
    /\ transactions d' = transactions d
    /\ order_status_history d' = order_status_history d
    /\ carts d' = carts d
    /\ cart_items d' = cart_items d.
Proof.
  unfold place_item, order_item_of.
  destruct (order_item_values strict (OrderController.quantity item)
              (OrderController.price item)) as [e | [q p]];
    [discriminate |].
  intros H. apply decrease_stock_rows in H.
  destruct H as (Ho & Hi & Ht & Hh & Hc & Hci).
  eexists. split; [reflexivity |].
  rewrite Ho, Hi, Ht, Hh, Hc, Hci. repeat split.
Qed.

Lemma place_items_rows strict orderId l : forall d d',
  place_items strict orderId l d = inr d' ->
  exists rows,
    stored_lines strict orderId l rows
    /\ order_items d' = (order_items d ++ rows)%list
    /\ orders d' = orders d
    /\ transactions d' = transactions d
    /\ order_status_history d' = order_status_history d
    /\ carts d' = carts d
    /\ cart_items d' = cart_items d.
Proof.
  induction l as [| item l IH]; intros d d'; cbn [place_items].
  - intros H. injection H as <-. exists []. rewrite app_nil_r.
    repeat split. constructor.
  - destruct (place_item strict orderId d item) as [e | d1] eqn:E1;
      [discriminate |].
    intros H. apply IH in H.
    destruct H as (rows & Hrows & Hi & Ho & Ht & Hh & Hc & Hci).
    destruct (place_item_rows _ _ _ _ _ E1)
      as (row & Hrow & Hi1 & Ho1 & Ht1 & Hh1 & Hc1 & Hci1).
    exists (row :: rows).
    rewrite Hi, Ho, Ht, Hh, Hc, Hci, Hi1, Ho1, Ht1, Hh1, Hc1, Hci1.
    rewrite <- app_assoc. repeat split.
    constructor; assumption.
Qed.

Lemma stored_lines_order_id strict orderId l rows :
  stored_lines strict orderId l rows ->
  Forall (fun i => oi_order_id i = orderId) rows.
Proof.
  induction 1 as [| item row l rows H _ IH]; constructor; [| exact IH].
  unfold order_item_of in H.
  destruct (order_item_values strict (OrderController.quantity item)
              (OrderController.price item)) as [e | [q p]];
    [discriminate |].
  injection H as <-. reflexivity.
Qed.


Lemma restock_rest l : forall d,
  orders (restock l d) = orders d
  /\ order_items (restock l d) = order_items d
  /\ transactions (restock l d) = transactions d
  /\ order_status_history (restock l d) = order_status_history d
  /\ carts (restock l d) = carts d
  /\ cart_items (restock l d) = cart_items d.
Proof.
  unfold restock.
  induction l as [| item l IH]; intros d; cbn [fold_left].
  - repeat split.
  - destruct (IH (update_stock (oi_quantity item) (oi_product_id item) d))
      as (H1 & H2 & H3 & H4 & H5 & H6).
    rewrite H1, H2, H3, H4, H5, H6. repeat split.
Qed.

(** ** Stock after a sequence of updates *)





(** ** Rows no generated id has reached *)

Lemma filter_none {A} (f : A -> bool) (P : A -> Prop) l :
  Forall P l -> (forall x, P x -> f x = false) -> filter f l = [].
Proof.
  intros HP Hf. induction HP as [| x l Hx _ IH]; simpl; [reflexivity |].
  rewrite (Hf x Hx). exact IH.
Qed.

Lemma filter_all {A} (f : A -> bool) l :
  (forall x, In x l -> f x = true) -> filter f l = l.
Proof.
  induction l as [| x l IH]; simpl; intros H; [reflexivity |].
  rewrite (H x (or_introl eq_refl)), IH; [reflexivity |].
  intros y Hy. apply H. right. exact Hy.
Qed.

Lemma fresh_select_transactions_of_order n d :
  fresh_ids n d -> select_transactions_of_order (next_order_id n) d = [].
Proof.
  intros (_ & _ & H & _). unfold select_transactions_of_order.
  apply (filter_none _ _ _ H). intros i Hi. apply Z.eqb_neq. lia.
Qed.

Lemma select_order_items_placed strict orderId l rows :
  stored_lines strict orderId l rows ->
  filter (fun i => oi_order_id i =? orderId) rows = rows.
Proof.
  intros H. apply filter_all. intros i Hi.
  pose proof (stored_lines_order_id _ _ _ _ H) as Hid.
  rewrite Forall_forall in Hid. apply Z.eqb_eq, Hid, Hi.
Qed.

(** ** The rows a committed checkout has written *)

Lemma checkout_rows strict req orderId txnRow d d' :
  checkout strict req orderId txnRow d = inr d' ->
  exists total rows,
    amount_value strict "total_amount"
      (OrderController.totalAmount_of (OrderController.items req))
    = inr total
    /\ stored_lines strict orderId (OrderController.items req) rows
    /\ orders d'
       = (orders d ++
          [{| o_id := orderId; o_user_id := OrderController.userId req;
              o_order_number :=
                OrderController.orderNumber_of
                  (OrderController.order_stamp req);
              o_total_amount := total;
              o_status := Some "pending";
              o_shipping := OrderController.shippingInfo req |}])%list
    /\ order_items d' = (order_items d ++ rows)%list
    /\ transactions d'
       = (transactions d ++
          [{| t_id := txnRow; t_order_id := orderId;
              t_transaction_id :=
                OrderController.transactionId_of
                  (OrderController.transaction_stamp req);
              t_amount := total;
              t_payment_method := OrderController.paymentMethod req;
              t_status := "completed";
              t_payment_details :=
                MethodOnly (OrderController.paymentMethod req) |}])%list
    /\ order_status_history d'
       = (order_status_history d ++
          [{| h_order_id := orderId; h_status := "pending";
              h_notes := "Order created and payment received" |}])%list
    /\ carts d' = carts d
    /\ cart_items d'
       = cart_items (clear_cart (OrderController.userId req) d).
Proof.
  unfold checkout. cbv zeta.
  destruct (amount_value strict "total_amount" _) as [e | total] eqn:E0;
    [discriminate |].
  rewrite (amount_value_column _ _ "amount" _ _ E0).
  unfold insert_order, insert_transaction, insert_status_history.
  destruct (existsb _ (orders d)); [discriminate |].
  set (d1 := with_orders _ d).
  destruct (place_items strict orderId _ d1) as [e | d2] eqn:E2;
    [discriminate |].
  destruct (existsb _ (transactions d2)); [discriminate |].
  simpl enum_value. cbv iota.
  intros H. injection H as <-.
  destruct (place_items_rows _ _ _ _ _ E2)
    as (rows & Hrows & Hi & Ho & Ht & Hh & Hc & Hci).
  exists total, rows. split; [reflexivity |]. split; [exact Hrows |].
  assert (Hcart : forall u x, carts (clear_cart u x) = carts x).
  { intros u x. unfold clear_cart.
    destruct (select_carts u x); reflexivity. }
  assert (Hother : forall u x,
    orders (clear_cart u x) = orders x
    /\ order_items (clear_cart u x) = order_items x
    /\ transactions (clear_cart u x) = transactions x
    /\ order_status_history (clear_cart u x) = order_status_history x).
  { intros u x. unfold clear_cart.
    destruct (select_carts u x); repeat split. }
  match goal with
  | |- context [clear_cart ?u ?x] =>
      destruct (Hother u x) as (Ho' & Hi' & Ht' & Hh');
      rewrite Ho', Hi', Ht', Hh', (Hcart u x)
  end.
  simpl. rewrite Hi, Ho, Ht, Hh, Hc.
  repeat split.
  unfold clear_cart, select_carts. simpl. rewrite Hc. simpl.
  destruct (filter _ (carts d)); simpl; [exact Hci |].
  unfold delete_cart_items. simpl. rewrite Hci. reflexivity.
Qed.

Lemma update_order_status_rows strict status id d d' :
  update_order_status strict status id d = inr d' ->
  products d' = products d
  /\ order_items d' = order_items d
  /\ transactions d' = transactions d
  /\ order_status_history d' = order_status_history d
  /\ carts d' = carts d
  /\ cart_items d' = cart_items d.
Proof.
  unfold update_order_status.
  destruct (select_orders id d); [intros H; injection H as <-; repeat split |].
  destruct status as [s |].
  - destruct (enum_value strict "status" order_status_enum s);
      [discriminate |].
    intros H; injection H as <-; repeat split.
  - intros H; injection H as <-; repeat split.
Qed.

Lemma insert_status_history_rows strict id status notes d d' :
  insert_status_history strict id status notes d = inr d' ->
  products d' = products d
  /\ orders d' = orders d
  /\ order_items d' = order_items d
  /\ transactions d' = transactions d
  /\ carts d' = carts d
  /\ cart_items d' = cart_items d.
Proof.
  unfold insert_status_history. destruct status as [s |]; [| discriminate].
  destruct (enum_value strict "status" order_status_enum s); [discriminate |].
  intros H; injection H as <-; repeat split.
Qed.


(** What the response [201] of [createOrder] tells about the rows. *)
Lemma createOrder_created req c orderId orderNumber transactionId :
  idle c ->
  fst (OrderController.createOrder req c)
  = Json 201 (OrderCreated orderId orderNumber transactionId) ->
  orderId = next_order_id (counters c)
  /\ checkout (strict c) req orderId (next_transaction_id (counters c))
       (durable c)
     = inr (durable (snd (OrderController.createOrder req c)))
  /\ idle (snd (OrderController.createOrder req c))
  /\ strict (snd (OrderController.createOrder req c)) = strict c.
Proof.
  intros Hidle Hr.
  destruct (createOrder_spec req c Hidle) as (Hs & Hv & _ & [HA | HB]).
  - destruct HA as (Hr' & _ & _ & _ & Hc & _).
    rewrite Hr in Hr'. injection Hr' as -> _ _.
    repeat split; assumption.
  - destruct HB as (Hf & _). rewrite Hr in Hf. discriminate.
Qed.

(** ** [processPayment] on an idle connection *)

Lemma processPayment_post_failed req c r c' :
  is_success r = false ->
  strict c' = strict c ->
  view c' = durable c' ->
  durable c' = durable c ->
  counters_le (counters c) (counters c') ->
  processPayment_post req c r c'.
Proof. unfold processPayment_post. intuition. Qed.

Lemma processPayment_spec req c :
  idle c ->
  processPayment_post req c
    (fst (TransactionController.processPayment req c))
    (snd (TransactionController.processPayment req c)).
Proof.
  unfold idle. intros Hidle.
  apply (handler_wp _ (processPayment_post req c)).
  apply wp_bind, wp_beginTransaction.
  { failed processPayment_post_failed Hidle. }
  intros f0. unfold then_wp.
  apply wp_bind, wp_query.
  { failed processPayment_post_failed Hidle. }
  intros f1. unfold then_wp at 1. simpl view.
  destruct (select_orders_of_user _ _ (view c)) as [| order0 rest] eqn:Eo.
  { apply wp_respond. failed processPayment_post_failed Hidle. }
  apply wp_bind, wp_query.
  { failed processPayment_post_failed Hidle. }
  intros f2. unfold then_wp at 1. simpl view.
  destruct (select_transactions_of_order _ (view c)) as [| t0 ts] eqn:Et.
  2:{ apply wp_respond. failed processPayment_post_failed Hidle. }
  apply wp_bind, wp_insert.
  { failed processPayment_post_failed Hidle. }
  intros f3. cbv zeta. simpl counters. simpl view. simpl strict.
  destruct (insert_transaction _ _ _ _ _ _ _ _ _) as [e | d1] eqn:E1.
  { failed processPayment_post_failed Hidle. }
  unfold then_wp.
  apply wp_bind, wp_execute.
  { failed processPayment_post_failed Hidle. }
  intros f4. simpl view. simpl strict.
  destruct (update_order_status _ _ _ _) as [e | d2] eqn:E2.
  { failed processPayment_post_failed Hidle. }
  unfold then_wp.
  apply wp_bind, wp_execute.
  { failed processPayment_post_failed Hidle. }
  intros f5. simpl view. simpl strict.
  destruct (insert_status_history _ _ _ _ _) as [e | d3] eqn:E3.
  { failed processPayment_post_failed Hidle. }
  unfold then_wp.
  apply wp_bind, wp_commit.
  { failed processPayment_post_failed Hidle. }
  intros f6. unfold then_wp. apply wp_ret. simpl.
  unfold processPayment_post. simpl.
  split; [reflexivity |]. split; [reflexivity |].
  split; [unfold counters_le; simpl; lia |].
  left. rewrite <- Hidle. split; [reflexivity |].
  split; [| split; [exact Et | split; reflexivity]].
  exists order0, rest. split; [exact Eo |].
  unfold payment. rewrite E1, E2, E3. reflexivity.
Qed.

(** ** [processRefund] on an idle connection *)

Lemma processRefund_post_failed id amount reason c r c' :
  is_success r = false ->
  strict c' = strict c ->
  view c' = durable c' ->
  durable c' = durable c ->
  counters c' = counters c ->
  processRefund_post id amount reason c r c'.
Proof. unfold processRefund_post. intuition. Qed.

Lemma processRefund_spec id amount reason c :
  idle c ->
  processRefund_post id amount reason c
    (fst (TransactionController.processRefund id amount reason c))
    (snd (TransactionController.processRefund id amount reason c)).
Proof.
  unfold idle. intros Hidle.
  apply (handler_wp _ (processRefund_post id amount reason c)).
  apply wp_bind, wp_beginTransaction.
  { failed processRefund_post_failed Hidle. }
  intros f0. unfold then_wp.
  apply wp_bind, wp_query.
  { failed processRefund_post_failed Hidle. }
  intros f1. unfold then_wp at 1. simpl view.
  destruct (select_transactions id (view c)) as [| t0 rest] eqn:Et.
  { apply wp_respond. failed processRefund_post_failed Hidle. }
  destruct (t_status t0 =? "refunded")%string eqn:Es.
  { apply wp_respond. failed processRefund_post_failed Hidle. }
  apply wp_bind, wp_execute.
  { failed processRefund_post_failed Hidle. }
  intros f2. simpl view. simpl strict.
  destruct (update_transaction_status _ _ _ _) as [e | d1] eqn:E1.
  { failed processRefund_post_failed Hidle. }
  unfold then_wp.
  apply wp_bind, wp_execute.
  { failed processRefund_post_failed Hidle. }
  intros f3. simpl view. simpl strict.
  destruct (update_order_status _ _ _ _) as [e | d2] eqn:E2.
  { failed processRefund_post_failed Hidle. }
  unfold then_wp.
  apply wp_bind, wp_execute.
  { failed processRefund_post_failed Hidle. }
  intros f4. simpl view. simpl strict.
  destruct (insert_status_history _ _ _ _ _) as [e | d3] eqn:E3.
  { failed processRefund_post_failed Hidle. }
  unfold then_wp.
  apply wp_bind, wp_query.
  { failed processRefund_post_failed Hidle. }
  intros f5. unfold then_wp at 1. simpl view.
  apply wp_bind, wp_return_stock.
  { reflexivity. }
  { intros f returned pending _. failed processRefund_post_failed Hidle. }
  intros f6. unfold then_wp. simpl view.
  apply wp_bind, wp_commit.
  { failed processRefund_post_failed Hidle. }
  intros f7. unfold then_wp. apply wp_ret. simpl.
  unfold processRefund_post. simpl.
  split; [reflexivity |]. split; [reflexivity |]. split; [reflexivity |].
  left. rewrite <- Hidle. split; [reflexivity |].
  split; [| reflexivity].
  exists t0, rest. split; [exact Et |].
  split; [intros H; rewrite H in Es; discriminate |].
  unfold refund, refund_note. rewrite E1, E2, E3. reflexivity.
Qed.

(** ** At most one transaction per order *)

Lemma payment_rows strict req total txnRow d d' :
  payment strict req total txnRow d = inr d' ->
  exists t,
    t_order_id t = TransactionController.orderId req
    /\ t_id t = txnRow
    /\ transactions d' = (transactions d ++ [t])%list
    /\ products d' = products d
    /\ order_items d' = order_items d
    /\ carts d' = carts d
    /\ cart_items d' = cart_items d.
Proof.
  unfold payment.
  destruct (insert_transaction _ _ _ _ _ _ _ _ d) as [e | d1] eqn:E1;
    [discriminate |].
  destruct (update_order_status _ _ _ d1) as [e | d2] eqn:E2;
    [discriminate |].
  intros E3.
  destruct (update_order_status_rows _ _ _ _ _ E2)
    as (Hp2 & Hi2 & Ht2 & _ & Hc2 & Hci2).
  destruct (insert_status_history_rows _ _ _ _ _ _ E3)
    as (Hp3 & _ & Hi3 & Ht3 & Hc3 & Hci3).
  unfold insert_transaction in E1.
  destruct (existsb _ (transactions d)); [discriminate |].
  simpl enum_value in E1. cbv iota in E1. injection E1 as <-.
  rewrite Ht3, Ht2, Hp3, Hp2, Hi3, Hi2, Hc3, Hc2, Hci3, Hci2. simpl.
  eexists. split; [| split; [| split; [reflexivity |]]];
    [reflexivity | reflexivity | repeat split].
Qed.

Lemma at_most_one_after_insert d d' t :
  at_most_one_transaction d ->
  select_transactions_of_order (t_order_id t) d = [] ->
  transactions d' = (transactions d ++ [t])%list ->
  at_most_one_transaction d'.
Proof.
  intros H Hnone Ht order_id.
  unfold select_transactions_of_order in *. rewrite Ht, filter_app.
  rewrite length_app. simpl.
  destruct (t_order_id t =? order_id) eqn:E; simpl.
  - apply Z.eqb_eq in E. subst order_id. rewrite Hnone. simpl. lia.
  - specialize (H order_id). unfold select_transactions_of_order in H. lia.
Qed.

(** On an idle connection whose rows give every order at most one
    transaction, [processPayment] leaves rows that still do.  When the
    order already has a transaction, nothing is written, the response
    reports a failure, that transaction is the order's only one
    afterwards, and whenever the store answers and the order is the
    caller's the response is status 400 "Payment already processed for
    this order". *)
Lemma processPayment_paid_order req c :
  idle c ->
  at_most_one_transaction (durable c) ->
  at_most_one_transaction
    (durable (snd (TransactionController.processPayment req c)))
  /\ (forall t ts,
        select_transactions_of_order (TransactionController.orderId req)
          (durable c) = t :: ts ->
        durable (snd (TransactionController.processPayment req c))
        = durable c
        /\ is_success (fst (TransactionController.processPayment req c))
           = false
        /\ select_transactions_of_order (TransactionController.orderId req)
             (durable (snd (TransactionController.processPayment req c)))
           = [t]
        /\ (fuse c = None ->
            select_orders_of_user (TransactionController.orderId req)
              (TransactionController.userId req) (durable c) <> [] ->
            fst (TransactionController.processPayment req c)
            = Json 400 (Message
                "Payment already processed for this order"))).
Proof.
  intros Hidle Hone.
  destruct (processPayment_spec req c Hidle) as (_ & _ & _ & [HA | HB]).
  - destruct HA as (_ & (order0 & rest & _ & Hpay) & Hnone & _).
    destruct (payment_rows _ _ _ _ _ _ Hpay) as (t & Ho & _ & Ht & _).
    split.
    + apply (at_most_one_after_insert (durable c) _ t Hone);
        [rewrite Ho; exact Hnone | exact Ht].
    + intros t0 ts Hsome. rewrite Hnone in Hsome. discriminate.
  - destruct HB as (Hf & Hd). rewrite Hd. split; [exact Hone |].
    intros t ts Hsome. split; [reflexivity |]. split; [exact Hf |].
    split.
    + pose proof (Hone (TransactionController.orderId req)) as Hlen.
      rewrite Hsome in *. destruct ts; [reflexivity | simpl in Hlen; lia].
    + intros Hfuse Horder.
      apply (handler_wp _ (fun r _ =>
        r = Json 400 (Message "Payment already processed for this order"))).
      apply wp_bind, wp_beginTransaction_ok; [exact Hfuse |].
      unfold then_wp.
      apply wp_bind, wp_query_ok; [exact Hfuse |].
      unfold then_wp at 1. simpl view. rewrite Hidle.
      destruct (select_orders_of_user _ _ (durable c)) as [| order0 rest];
        [contradiction |].
      apply wp_bind, wp_query_ok; [exact Hfuse |].
      unfold then_wp. simpl view. rewrite Hidle, Hsome.
      apply wp_respond. reflexivity.
Qed.

(** ** [addToCart]: the stock checks *)


(** * Generated ids stay fresh *)

Lemma Forall_snoc {A} (P : A -> Prop) l x :
  Forall P l -> P x -> Forall P (l ++ [x]).
Proof.
  intros Hl Hx. apply Forall_app.
  split; [exact Hl | repeat constructor; exact Hx].
Qed.

Lemma Forall_map_same {A} (P : A -> Prop) (g : A -> A) l :
  (forall x, P x -> P (g x)) -> Forall P l -> Forall P (map g l).
Proof.
  intros Hg Hl. induction Hl as [| x l Hx _ IH]; simpl; constructor; auto.
Qed.

Lemma Forall_filter {A} (P : A -> Prop) (f : A -> bool) l :
  Forall P l -> Forall P (filter f l).
Proof.
  intros Hl. induction Hl as [| x l Hx _ IH]; simpl; [constructor |].
  destruct (f x); [constructor |]; assumption.
Qed.

Lemma fresh_ids_le a b d : counters_le a b -> fresh_ids a d -> fresh_ids b d.
Proof.
  unfold counters_le, fresh_ids.
  intros (H1 & H2 & H3 & H4) (Ho & Hi & Ht & Hh & Hc & Hci).
  repeat split;
    [ revert Ho | revert Hi | revert Ht | revert Hh | revert Hc | revert Hci ];
    apply Forall_impl; intros x; lia.
Qed.

(** Splits [fresh_ids] of the rows a statement leaves into its six parts
    and closes those the statement did not touch. *)
Ltac fresh_rows H :=
  let Ho := fresh "Ho" in let Hi := fresh "Hi" in let Ht := fresh "Ht" in
  let Hh := fresh "Hh" in let Hc := fresh "Hc" in let Hci := fresh "Hci" in
  destruct H as (Ho & Hi & Ht & Hh & Hc & Hci);
  unfold fresh_ids; simpl; repeat split; try assumption.

Lemma fresh_update_stock n delta id d :
  fresh_ids n d -> fresh_ids n (update_stock delta id d).
Proof. intros H. fresh_rows H. Qed.

Lemma fresh_restock n l : forall d,
  fresh_ids n d -> fresh_ids n (restock l d).
Proof.
  unfold restock. induction l as [| item l IH]; intros d H; simpl;
    [exact H |].
  apply IH, fresh_update_stock, H.
Qed.

Lemma fresh_insert_order n id user number total s d d' :
  insert_order id user number total s d = inr d' ->
  id < next_order_id n -> fresh_ids n d -> fresh_ids n d'.
Proof.
  unfold insert_order. destruct (existsb _ _); [discriminate |].
  intros E Hid H. injection E as <-. fresh_rows H.
  apply Forall_snoc; [assumption | exact Hid].
Qed.

Lemma fresh_insert_order_item n order_id product_id quantity price d :
  order_id < next_order_id n -> fresh_ids n d ->
  fresh_ids n (insert_order_item order_id product_id quantity price d).
Proof.
  intros Hid H. fresh_rows H. apply Forall_snoc; [assumption | exact Hid].
Qed.

Lemma fresh_decrease_stock n strict quantity id d d' :
  decrease_stock strict quantity id d = inr d' ->
  fresh_ids n d -> fresh_ids n d'.
Proof.
  unfold decrease_stock.
  destruct (literal quantity) as [e | x]; [discriminate |].
  destruct (take_stock strict x id (products d)) as [e | ps];
    [discriminate |].
  intros E H. injection E as <-. fresh_rows H.
Qed.

Lemma fresh_place_items n strict orderId l : forall d d',
  place_items strict orderId l d = inr d' ->
  orderId < next_order_id n -> fresh_ids n d -> fresh_ids n d'.
Proof.
  induction l as [| item l IH]; intros d d'; cbn [place_items].
  - intros E _ H. injection E as <-. exact H.
  - destruct (place_item strict orderId d item) as [e | d1] eqn:E1;
      [discriminate |].
    intros E Hid H. apply (IH _ _ E Hid).
    unfold place_item in E1.
    destruct (order_item_values strict (OrderController.quantity item)
                (OrderController.price item)) as [e | [q p]];
      [discriminate |].
    apply (fresh_decrease_stock _ _ _ _ _ _ E1).
    apply fresh_insert_order_item; assumption.
Qed.

Lemma fresh_insert_transaction n strict id order_id txn amount method
    status details d d' :
  insert_transaction strict id order_id txn amount method status details d
  = inr d' ->
  order_id < next_order_id n -> id < next_transaction_id n ->
  fresh_ids n d -> fresh_ids n d'.
Proof.
  unfold insert_transaction. destruct (existsb _ _); [discriminate |].
  destruct (enum_value _ _ _ _); [discriminate |].
  intros E Ho' Ht' H. injection E as <-. fresh_rows H.
  apply Forall_snoc; [assumption | simpl; split; assumption].
Qed.

Lemma fresh_update_transaction_status n strict status id d d' :
  update_transaction_status strict status id d = inr d' ->
  fresh_ids n d -> fresh_ids n d'.
Proof.
  unfold update_transaction_status.
  destruct (select_transactions id d); [intros E; injection E as <-; auto |].
  destruct (enum_value _ _ _ _); [discriminate |].
  intros E H. injection E as <-. fresh_rows H.
  apply Forall_map_same; [| assumption].
  intros x Hx. destruct (t_id x =? id); exact Hx.
Qed.

Lemma fresh_update_order_status n strict status id d d' :
  update_order_status strict status id d = inr d' ->
  fresh_ids n d -> fresh_ids n d'.
Proof.
  unfold update_order_status.
  destruct (select_orders id d); [intros E; injection E as <-; auto |].
  assert (Hmap : forall v, fresh_ids n d ->
    fresh_ids n
      (with_orders
         (map (fun o => if o_id o =? id then set_o_status v o else o)
            (orders d)) d)).
  { intros v H. fresh_rows H. apply Forall_map_same; [| assumption].
    intros x Hx. destruct (o_id x =? id); exact Hx. }
  destruct status as [s |].
  - destruct (enum_value _ _ _ _); [discriminate |].
    intros E H. injection E as <-. apply Hmap, H.
  - intros E H. injection E as <-. apply Hmap, H.
Qed.

Lemma fresh_insert_status_history n strict id status notes d d' :
  insert_status_history strict id status notes d = inr d' ->
  id < next_order_id n -> fresh_ids n d -> fresh_ids n d'.
Proof.
  unfold insert_status_history. destruct status as [s |]; [| discriminate].
  destruct (enum_value _ _ _ _); [discriminate |].
  intros E Hid H. injection E as <-. fresh_rows H.
  apply Forall_snoc; [assumption | exact Hid].
Qed.

Lemma fresh_delete_cart_items n cart_id d :
  fresh_ids n d -> fresh_ids n (delete_cart_items cart_id d).
Proof. intros H. fresh_rows H. apply Forall_filter. assumption. Qed.

Lemma fresh_clear_cart n user d :
  fresh_ids n d -> fresh_ids n (clear_cart user d).
Proof.
  intros H. unfold clear_cart. destruct (select_carts user d); [exact H |].
  apply fresh_delete_cart_items, H.
Qed.

Lemma fresh_insert_cart n id user d :
  id < next_cart_id n -> fresh_ids n d -> fresh_ids n (insert_cart id user d).
Proof.
  intros Hid H. fresh_rows H. apply Forall_snoc; [assumption | exact Hid].
Qed.

Lemma fresh_insert_cart_item n id cart_id product_id quantity d :
  cart_id < next_cart_id n -> id < next_cart_item_id n -> fresh_ids n d ->
  fresh_ids n (insert_cart_item id cart_id product_id quantity d).
Proof.
  intros Hc' Hi' H. fresh_rows H.
  apply Forall_snoc; [assumption | simpl; split; assumption].
Qed.

Lemma fresh_update_cart_item_quantity n quantity id d :
  fresh_ids n d -> fresh_ids n (update_cart_item_quantity quantity id d).
Proof.
  intros H. fresh_rows H. apply Forall_map_same; [| assumption].
  intros x Hx. destruct (ci_id x =? id); exact Hx.
Qed.

(** An order that a [SELECT] finds carries an id generated before. *)
Lemma fresh_selected_order n id d :
  fresh_ids n d -> select_orders id d <> [] -> id < next_order_id n.
Proof.
  intros (Ho & _) Hsel. unfold select_orders in Hsel.
  destruct (filter _ (orders d)) as [| o os] eqn:E; [contradiction |].
  assert (Hin : In o (filter (fun o => o_id o =? id) (orders d)))
    by (rewrite E; left; reflexivity).
  apply filter_In in Hin. destruct Hin as (Hin & Heq).
  apply Z.eqb_eq in Heq. rewrite Forall_forall in Ho.
  specialize (Ho o Hin). lia.
Qed.

Lemma fresh_selected_transaction n id d t rest :
  fresh_ids n d -> select_transactions id d = t :: rest ->
  t_order_id t < next_order_id n.
Proof.
  intros (_ & _ & Ht & _) Hsel.
  assert (Hin : In t (select_transactions id d))
    by (rewrite Hsel; left; reflexivity).
  apply filter_In in Hin. destruct Hin as (Hin & _).
  rewrite Forall_forall in Ht. apply (Ht t Hin).
Qed.

(** * The rows stay consistent *)

Lemma at_most_one_same d d' :
  map t_order_id (transactions d') = map t_order_id (transactions d) ->
  at_most_one_transaction d -> at_most_one_transaction d'.
Proof.
  intros Hsame H order_id. specialize (H order_id).
  unfold select_transactions_of_order in *.
  assert (Hlen : forall l,
    List.length (filter (fun t => t_order_id t =? order_id) l)
    = List.length (filter (fun x => x =? order_id) (map t_order_id l))).
  { induction l as [| t l IH]; simpl; [reflexivity |].
    destruct (t_order_id t =? order_id); simpl; rewrite IH; reflexivity. }
  rewrite Hlen, Hsame, <- Hlen. exact H.
Qed.

Lemma update_transaction_status_rows strict status id d d' :
  update_transaction_status strict status id d = inr d' ->
  map t_order_id (transactions d') = map t_order_id (transactions d)
  /\ products d' = products d
  /\ orders d' = orders d
  /\ order_items d' = order_items d
  /\ order_status_history d' = order_status_history d.
Proof.
  unfold update_transaction_status.
  destruct (select_transactions id d);
    [intros E; injection E as <-; repeat split |].
  destruct (enum_value _ _ _ _); [discriminate |].
  intros E. injection E as <-. simpl. repeat split.
  rewrite map_map. apply map_ext. intros x.
  destruct (t_id x =? id); reflexivity.
Qed.

Lemma consistent_unchanged c x :
  consistent c ->
  view x = durable x ->
  durable x = durable c ->
  counters_le (counters c) (counters x) ->
  consistent x.
Proof.
  intros (_ & Hf & Ha) Hv Hd Hn. unfold consistent, idle, fresh.
  rewrite Hd in *. split; [exact Hv |]. split; [| exact Ha].
  apply (fresh_ids_le _ _ _ Hn Hf).
Qed.

Lemma consistent_with_fuse f c : consistent c -> consistent (with_fuse f c).
Proof. exact (fun H => H). Qed.

Lemma transition_keeps n strict id status notes d d' :
  transition strict id status notes d = inr d' ->
  select_orders id d <> [] -> fresh_ids n d ->
  fresh_ids n d' /\ transactions d' = transactions d.
Proof.
  unfold transition. intros E Hsel H.
  destruct (update_order_status strict status id d) as [e | d1] eqn:E1;
    [discriminate |].
  destruct (insert_status_history strict id status _ d1) as [e | d2] eqn:E2;
    [discriminate |].
  pose proof (fresh_selected_order _ _ _ H Hsel) as Hid.
  pose proof (fresh_update_order_status _ _ _ _ _ _ E1 H) as H1.
  pose proof (fresh_insert_status_history _ _ _ _ _ _ _ E2 Hid H1) as H2.
  destruct (update_order_status_rows _ _ _ _ _ E1) as (_ & _ & Ht1 & _).
  destruct (insert_status_history_rows _ _ _ _ _ _ E2)
    as (_ & _ & _ & Ht2 & _).
  injection E as <-.
  destruct (OrderController.is_cancelled status).
  - split; [apply fresh_restock, H2 |].
    destruct (restock_rest (select_order_items id d2) d2)
      as (_ & _ & Ht3 & _).
    rewrite Ht3, Ht2, Ht1. reflexivity.
  - split; [exact H2 |]. rewrite Ht2, Ht1. reflexivity.
Qed.

Lemma partial_transition_keeps n strict transactional id status notes d d' :
  partial_transition strict transactional id status notes d d' ->
  fresh_ids n d ->
  fresh_ids n d' /\ transactions d' = transactions d.
Proof.
  intros [-> | (_ & Hsel & d1 & E1 & Hrest)] H; [auto |].
  pose proof (fresh_selected_order _ _ _ H Hsel) as Hid.
  pose proof (fresh_update_order_status _ _ _ _ _ _ E1 H) as H1.
  destruct (update_order_status_rows _ _ _ _ _ E1) as (_ & _ & Ht1 & _).
  destruct Hrest as [-> | (d2 & E2 & returned & pending & _ & ->)];
    [auto |].
  pose proof (fresh_insert_status_history _ _ _ _ _ _ _ E2 Hid H1) as H2.
  destruct (insert_status_history_rows _ _ _ _ _ _ E2)
    as (_ & _ & _ & Ht2 & _).
  split; [apply fresh_restock, H2 |].
  destruct (restock_rest returned d2) as (_ & _ & Ht3 & _).
  rewrite Ht3, Ht2, Ht1. reflexivity.
Qed.

Lemma createOrder_consistent req c :
  consistent c -> consistent (snd (OrderController.createOrder req c)).
Proof.
  intros Hc. pose proof Hc as (Hidle & Hf & Ha).
  destruct (createOrder_spec req c Hidle) as (_ & Hv & Hn & [HA | HB]).
  - destruct HA as (_ & _ & _ & _ & Hco & _ & Hcount).
    split; [exact Hv |]. unfold fresh. rewrite Hcount. split.
    + unfold fresh in Hf.
      assert (Hf' : fresh_ids
        (set_next_transaction_id (next_transaction_id (counters c) + 1)
           (set_next_order_id (next_order_id (counters c) + 1) (counters c)))
        (durable c)).
      { apply (fresh_ids_le (counters c)); [| exact Hf].
        unfold counters_le. simpl. lia. }
      unfold checkout in Hco. cbv zeta in Hco.
      destruct (amount_value _ "total_amount" _) as [e | total];
        [discriminate |].
      destruct (insert_order _ _ _ _ _ (durable c)) as [e | d1] eqn:E1;
        [discriminate |].
      destruct (place_items _ _ _ d1) as [e | d2] eqn:E2; [discriminate |].
      destruct (amount_value _ "amount" _) as [e | amount];
        [discriminate |].
      destruct (insert_transaction _ _ _ _ _ _ _ _ _) as [e | d3] eqn:E3;
        [discriminate |].
      destruct (insert_status_history _ _ _ _ d3) as [e | d4] eqn:E4;
        [discriminate |].
      injection Hco as <-.
      apply fresh_clear_cart.
      apply (fresh_insert_status_history _ _ _ _ _ _ _ E4); [simpl; lia |].
      apply (fresh_insert_transaction _ _ _ _ _ _ _ _ _ _ _ E3);
        [simpl; lia | simpl; lia |].
      apply (fresh_place_items _ _ _ _ _ _ E2); [simpl; lia |].
      apply (fresh_insert_order _ _ _ _ _ _ _ _ E1); [simpl; lia |].
      exact Hf'.
    + destruct (checkout_rows _ _ _ _ _ _ Hco)
        as (total & rows & _ & _ & _ & _ & Ht & _).
      eapply at_most_one_after_insert; [exact Ha | | exact Ht].
      simpl. apply fresh_select_transactions_of_order, Hf.
  - destruct HB as (_ & Hd).
    apply (consistent_unchanged c); assumption.
Qed.

Lemma updateOrderStatus_consistent id status notes c :
  consistent c ->
  consistent (snd (OrderController.updateOrderStatus id status notes c)).
Proof.
  intros Hc. pose proof Hc as (Hidle & Hf & Ha).
  destruct (updateOrderStatus_spec id status notes c Hidle)
    as (_ & Hn & Hv & Hcase).
  assert (Hkeep :
    fresh_ids (counters c)
      (durable (snd (OrderController.updateOrderStatus id status notes c)))
    /\ transactions
         (durable (snd (OrderController.updateOrderStatus id status notes c)))
       = transactions (durable c)).
  { destruct Hcase as [(_ & Hsel & Ht & _) | (_ & Hp)].
    - apply (transition_keeps _ _ _ _ _ _ _ Ht Hsel Hf).
    - apply (partial_transition_keeps _ _ _ _ _ _ _ _ Hp Hf). }
  destruct Hkeep as (Hf' & Ht').
  split; [exact Hv |]. unfold fresh. rewrite Hn. split; [exact Hf' |].
  apply (at_most_one_same (durable c)); [rewrite Ht'; reflexivity | exact Ha].
Qed.

Lemma fresh_selected_order_of_user n id user d :
  fresh_ids n d -> select_orders_of_user id user d <> [] ->
  id < next_order_id n.
Proof.
  intros (Ho & _) Hsel. unfold select_orders_of_user in Hsel.
  destruct (filter _ (orders d)) as [| o os] eqn:E; [contradiction |].
  assert (Hin : In o (filter (fun o => (o_id o =? id)
                                       && (o_user_id o =? user)) (orders d)))
    by (rewrite E; left; reflexivity).
  apply filter_In in Hin. destruct Hin as (Hin & Heq).
  apply andb_prop in Heq. destruct Heq as (Heq & _).
  apply Z.eqb_eq in Heq. rewrite Forall_forall in Ho.
  specialize (Ho o Hin). lia.
Qed.

Lemma processPayment_consistent req c :
  consistent c ->
  consistent (snd (TransactionController.processPayment req c)).
Proof.
  intros Hc. pose proof Hc as (Hidle & Hf & Ha).
  destruct (processPayment_spec req c Hidle) as (_ & Hv & Hn & [HA | HB]).
  - destruct HA as (_ & (order0 & rest & Hsel & Hpay) & Hnone & _ & Hcount).
    split; [exact Hv |]. unfold fresh. rewrite Hcount. split.
    + unfold fresh in Hf.
      assert (Hid : TransactionController.orderId req
                    < next_order_id (counters c)).
      { apply (fresh_selected_order_of_user _ _
                 (TransactionController.userId req) (durable c) Hf).
        rewrite Hsel. discriminate. }
      assert (Hf' : fresh_ids
        (set_next_transaction_id (next_transaction_id (counters c) + 1)
           (counters c)) (durable c)).
      { apply (fresh_ids_le (counters c)); [| exact Hf].
        unfold counters_le. simpl. lia. }
      unfold payment in Hpay.
      destruct (insert_transaction _ _ _ _ _ _ _ _ (durable c))
        as [e | d1] eqn:E1; [discriminate |].
      destruct (update_order_status _ _ _ d1) as [e | d2] eqn:E2;
        [discriminate |].
      apply (fresh_insert_status_history _ _ _ _ _ _ _ Hpay);
        [simpl; exact Hid |].
      apply (fresh_update_order_status _ _ _ _ _ _ E2).
      apply (fresh_insert_transaction _ _ _ _ _ _ _ _ _ _ _ E1);
        [simpl; exact Hid | simpl; lia | exact Hf'].
    + destruct (payment_rows _ _ _ _ _ _ Hpay) as (t & Ho & _ & Ht & _).
      apply (at_most_one_after_insert (durable c) _ t Ha);
        [rewrite Ho; exact Hnone | exact Ht].
  - destruct HB as (_ & Hd).
    apply (consistent_unchanged c); assumption.
Qed.

Lemma processRefund_consistent id amount reason c :
  consistent c ->
  consistent (snd (TransactionController.processRefund id amount reason c)).
Proof.
  intros Hc. pose proof Hc as (Hidle & Hf & Ha).
  destruct (processRefund_spec id amount reason c Hidle)
    as (_ & Hv & Hn & [HA | HB]).
  - destruct HA as (_ & (t0 & rest & Hsel & _ & Href) & _).
    split; [exact Hv |]. unfold fresh. rewrite Hn.
    unfold fresh in Hf.
    pose proof (fresh_selected_transaction _ _ _ _ _ Hf Hsel) as Hid.
    unfold refund in Href.
    destruct (update_transaction_status _ _ _ (durable c))
      as [e | d1] eqn:E1; [discriminate |].
    destruct (update_order_status _ _ _ d1) as [e | d2] eqn:E2;
      [discriminate |].
    destruct (insert_status_history _ _ _ _ d2) as [e | d3] eqn:E3;
      [discriminate |].
    injection Href as <-.
    split.
    + apply fresh_restock.
      apply (fresh_insert_status_history _ _ _ _ _ _ _ E3 Hid).
      apply (fresh_update_order_status _ _ _ _ _ _ E2).
      apply (fresh_update_transaction_status _ _ _ _ _ _ E1 Hf).
    + destruct (update_transaction_status_rows _ _ _ _ _ E1) as (Ht1 & _).
      destruct (update_order_status_rows _ _ _ _ _ E2) as (_ & _ & Ht2 & _).
      destruct (insert_status_history_rows _ _ _ _ _ _ E3)
        as (_ & _ & _ & Ht3 & _).
      destruct (restock_rest (select_order_items (t_order_id t0) d3) d3)
        as (_ & _ & Ht4 & _).
      apply (at_most_one_same (durable c)); [| exact Ha].
      rewrite Ht4, Ht3, Ht2. exact Ht1.
  - destruct HB as (_ & Hd).
    apply (consistent_unchanged c); try assumption.
    rewrite Hn. unfold counters_le. lia.
Qed.

(** ** The cart handlers *)

Lemma wp_call h (Q : outcome response -> conn -> Prop) c :
  Q (Ret (fst (h c))) (snd (h c)) -> wp (call h) Q c.
Proof. unfold wp, call. destruct (h c) as [r c']. exact (fun H => H). Qed.

(** The rows a transaction commits are consistent when they carry only
    fresh ids and the transactions table was not touched. *)
Lemma consistent_committed c x :
  consistent c ->
  view x = durable x ->
  fresh_ids (counters x) (durable x) ->
  transactions (durable x) = transactions (durable c) ->
  consistent x.
Proof.
  intros (_ & _ & Ha) Hv Hf Ht. split; [exact Hv |]. split; [exact Hf |].
  apply (at_most_one_same (durable c)); [rewrite Ht; reflexivity | exact Ha].
Qed.

Lemma getCart_consistent userId c :
  consistent c -> consistent (snd (CartController.getCart userId c)).
Proof.
  intros Hc. pose proof Hc as (Hidle & Hf & Ha). unfold idle in Hidle.
  assert (Hsame : forall x,
    view x = durable x -> durable x = durable c ->
    counters_le (counters c) (counters x) -> consistent x).
  { intros x. apply (consistent_unchanged c x Hc). }
  apply (handler_wp _ (fun _ c' => consistent c')).
  apply wp_bind, wp_beginTransaction.
  { simpl. apply Hsame; simpl; rewrite ?Hidle;
      solve [reflexivity | unfold counters_le; lia]. }
  intros f0. unfold then_wp.
  apply wp_bind, wp_query.
  { simpl. apply Hsame; simpl; rewrite ?Hidle;
      solve [reflexivity | unfold counters_le; lia]. }
  intros f1. unfold then_wp at 1. simpl view.
  apply wp_bind.
  destruct (select_carts userId (view c)) as [| cart0 rest].
  - apply wp_bind, wp_insert.
    { simpl. apply Hsame; simpl; rewrite ?Hidle;
        solve [reflexivity | unfold counters_le; lia]. }
    intros f2. cbv zeta. cbv beta iota. unfold then_wp at 1.
    apply wp_ret. unfold then_wp at 1. simpl view. simpl counters.
    apply wp_bind, wp_query.
    { simpl. apply Hsame; simpl; rewrite ?Hidle;
        solve [reflexivity | unfold counters_le; simpl; lia]. }
    intros f3. unfold then_wp at 1.
    apply wp_bind, wp_commit.
    { simpl. apply Hsame; simpl; rewrite ?Hidle;
        solve [reflexivity | unfold counters_le; simpl; lia]. }
    intros f4. unfold then_wp. apply wp_ret. simpl.
    apply (consistent_committed c _ Hc); simpl; [reflexivity | | ].
    + rewrite Hidle. apply fresh_insert_cart; [simpl; lia |].
      apply (fresh_ids_le (counters c)); [| exact Hf].
      unfold counters_le. simpl. lia.
    + rewrite Hidle. reflexivity.
  - apply wp_ret. unfold then_wp at 1.
    apply wp_bind, wp_query.
    { simpl. apply Hsame; simpl; rewrite ?Hidle;
        solve [reflexivity | unfold counters_le; lia]. }
    intros f3. unfold then_wp at 1.
    apply wp_bind, wp_commit.
    { simpl. apply Hsame; simpl; rewrite ?Hidle;
        solve [reflexivity | unfold counters_le; lia]. }
    intros f4. unfold then_wp. apply wp_ret. simpl.
    apply Hsame; simpl; rewrite ?Hidle;
      solve [reflexivity | unfold counters_le; lia].
Qed.

Lemma fresh_no_cart_items n product_id d id user :
  fresh_ids n d ->
  select_cart_items (next_cart_id n) product_id (insert_cart id user d) = [].
Proof.
  intros (_ & _ & _ & _ & _ & Hci). unfold select_cart_items. simpl.
  apply (filter_none _ _ _ Hci). intros i (Hi & _).
  apply andb_false_iff. left. apply Z.eqb_neq. lia.
Qed.

Lemma fresh_selected_cart n user d cart0 rest :
  fresh_ids n d -> select_carts user d = cart0 :: rest ->
  c_id cart0 < next_cart_id n.
Proof.
  intros (_ & _ & _ & _ & Hc & _) Hsel.
  assert (Hin : In cart0 (select_carts user d))
    by (rewrite Hsel; left; reflexivity).
  apply filter_In in Hin. destruct Hin as (Hin & _).
  rewrite Forall_forall in Hc. apply (Hc cart0 Hin).
Qed.

Lemma addToCart_consistent req c :
  consistent c -> consistent (snd (CartController.addToCart req c)).
Proof.
  intros Hc. pose proof Hc as (Hidle & Hf & Ha). unfold idle in Hidle.
  unfold fresh in Hf.
  assert (Hsame : forall x,
    view x = durable x -> durable x = durable c ->
    counters_le (counters c) (counters x) -> consistent x).
  { intros x. apply (consistent_unchanged c x Hc). }
  apply (handler_wp _ (fun _ c' => consistent c')).
  apply wp_bind, wp_beginTransaction.
  { simpl. apply Hsame; simpl; rewrite ?Hidle;
      solve [reflexivity | unfold counters_le; lia]. }
  intros f0. unfold then_wp. cbv zeta.
  destruct ((CartController.productId req =? 0)
            || (CartController.requested req <? 1)).
  { apply wp_respond. simpl. apply Hsame; simpl; rewrite ?Hidle;
      solve [reflexivity | unfold counters_le; lia]. }
  apply wp_bind, wp_query.
  { simpl. apply Hsame; simpl; rewrite ?Hidle;
      solve [reflexivity | unfold counters_le; lia]. }
  intros f1. unfold then_wp at 1. simpl view.
  destruct (select_products _ (view c)) as [| product rest].
  { apply wp_respond. simpl. apply Hsame; simpl; rewrite ?Hidle;
      solve [reflexivity | unfold counters_le; lia]. }
  destruct (p_stock product <? CartController.requested req).
  { apply wp_respond. simpl. apply Hsame; simpl; rewrite ?Hidle;
      solve [reflexivity | unfold counters_le; lia]. }
  apply wp_bind, wp_query.
  { simpl. apply Hsame; simpl; rewrite ?Hidle;
      solve [reflexivity | unfold counters_le; lia]. }
  intros f2. unfold then_wp at 1. simpl view.
  match goal with
  | |- wp (bind _ ?K) ?Q _ =>
      assert (Htail : forall x cart,
        in_tx x = true -> durable x = durable c ->
        counters_le (counters c) (counters x) ->
        fresh_ids (counters x) (view x) ->
        transactions (view x) = transactions (durable c) ->
        c_id cart < next_cart_id (counters x) ->
        (view x = durable c
         \/ select_cart_items (c_id cart) (CartController.productId req)
              (view x) = []) ->
        then_wp K Q (Val cart) x)
  end.
  { intros x cart Htx Hd Hn Hfx Htr Hcart Hview. unfold then_wp.
    assert (Hback : forall y,
      view y = durable y -> durable y = durable x ->
      counters_le (counters x) (counters y) -> consistent y).
    { intros y Hvy Hdy Hny. apply Hsame; [exact Hvy | congruence |].
      unfold counters_le in *. lia. }
    assert (Hdone : forall y f,
      view y = durable y -> fresh_ids (counters y) (durable y) ->
      transactions (durable y) = transactions (durable c) ->
      then_wp (fun _ : unit => call (CartController.getCart
                                       (CartController.userId req)))
        (handled (fun _ c' => consistent c')) (Val tt) (with_fuse f y)).
    { intros y f Hvy Hfy Hty. unfold then_wp. apply wp_call. simpl.
      apply getCart_consistent, consistent_with_fuse.
      apply (consistent_committed c y Hc); assumption. }
    apply wp_bind, wp_query.
    { simpl. apply Hback; simpl; rewrite ?Htx;
        solve [reflexivity | unfold counters_le; simpl; lia]. }
    intros f3. unfold then_wp at 1.
    apply wp_bind.
    destruct (select_cart_items _ _ (view x))
      as [| existing0 others] eqn:Ee.
    - apply wp_bind, wp_insert.
      { simpl. apply Hback; simpl; rewrite ?Htx;
          solve [reflexivity | unfold counters_le; simpl; lia]. }
      intros f4. cbv zeta. cbv beta iota. unfold then_wp at 1.
      apply wp_ret. unfold then_wp at 1.
      apply wp_bind, wp_commit.
      { simpl. apply Hback; simpl; rewrite ?Htx;
          solve [reflexivity | unfold counters_le; simpl; lia]. }
      intros f5.
      change (committed (with_fuse ?f ?y)) with (with_fuse f (committed y)).
      apply Hdone; simpl; [reflexivity | | exact Htr].
      apply fresh_insert_cart_item; [simpl; exact Hcart | simpl; lia |].
      apply (fresh_ids_le (counters x)); [| exact Hfx].
      unfold counters_le. simpl. lia.
    - destruct Hview as [Hview | Hnone]; [| discriminate].
      destruct (p_stock product
                <? ci_quantity existing0 + CartController.requested req).
      + apply wp_respond. simpl. apply Hsame; simpl; [| exact Hd | exact Hn].
        rewrite Hview, Hd. reflexivity.
      + apply wp_execute.
        { simpl. apply Hback; simpl; rewrite ?Htx;
            solve [reflexivity | unfold counters_le; simpl; lia]. }
        intros f4. cbv beta iota. unfold then_wp at 1.
        apply wp_bind, wp_commit.
        { simpl. apply Hback; simpl; rewrite ?Htx;
            solve [reflexivity | unfold counters_le; simpl; lia]. }
        intros f5.
      change (committed (with_fuse ?f ?y)) with (with_fuse f (committed y)).
      apply Hdone; simpl; [reflexivity | | exact Htr].
        apply fresh_update_cart_item_quantity. exact Hfx. }
  apply wp_bind.
  destruct (select_carts (CartController.userId req) (view c))
    as [| cart0 others] eqn:Ecart.
  - apply wp_bind, wp_insert.
    { simpl. apply Hsame; simpl; rewrite ?Hidle;
        solve [reflexivity | unfold counters_le; lia]. }
    intros f3. cbv zeta. cbv beta iota. unfold then_wp at 1.
    apply wp_ret. apply Htail; simpl.
    + reflexivity.
    + exact Hidle.
    + unfold counters_le. simpl. lia.
    + rewrite Hidle. apply fresh_insert_cart; [simpl; lia |].
      apply (fresh_ids_le (counters c)); [| exact Hf].
      unfold counters_le. simpl. lia.
    + rewrite Hidle. reflexivity.
    + lia.
    + right. rewrite Hidle. apply fresh_no_cart_items. exact Hf.
  - apply wp_ret. rewrite <- (with_fuse_twice f2 f2).
    apply Htail; simpl.
    + reflexivity.
    + exact Hidle.
    + unfold counters_le. lia.
    + rewrite Hidle. exact Hf.
    + rewrite Hidle. reflexivity.
    + rewrite Hidle in Ecart. apply (fresh_selected_cart _ _ _ _ _ Hf Ecart).
    + left. exact Hidle.
Qed.

(** ** Every state the connection reaches is consistent *)

Lemma serve_consistent q c : consistent c -> consistent (snd (serve q c)).
Proof.
  destruct q; simpl.
  - apply createOrder_consistent.
  - apply updateOrderStatus_consistent.
  - apply processPayment_consistent.
  - apply processRefund_consistent.
  - apply getCart_consistent.
  - apply addToCart_consistent.
Qed.

Lemma reachable_consistent c0 c :
  consistent c0 -> reachable c0 c -> consistent c.
Proof.
  intros H0 Hr. induction Hr as [| c q f _ IH]; [exact H0 |].
  apply consistent_with_fuse, serve_consistent, IH.
Qed.

Lemma opening_consistent strict_mode catalogue :
  consistent (opening strict_mode catalogue).
Proof.
  split; [reflexivity |]. split.
  - unfold fresh, fresh_ids. simpl. repeat split; constructor.
  - intros order_id. simpl. lia.
Qed.

(** * Order status and status history *)

Lemma latest_after_append id e d d' :
  order_status_history d' = (order_status_history d ++ [e])%list ->
  select_latest_status id d'
  = if h_order_id e =? id then [h_status e] else select_latest_status id d.
Proof.
  intros H. unfold select_latest_status. rewrite H, filter_app. simpl.
  destruct (h_order_id e =? id).
  - rewrite rev_app_distr. reflexivity.
  - rewrite app_nil_r. reflexivity.
Qed.

Lemma insert_status_history_entry strict id s notes d d' :
  insert_status_history strict id (Some s) notes d = inr d' ->
  exists v,
    enum_value strict "status" order_status_enum s = inr v
    /\ order_status_history d'
       = (order_status_history d
          ++ [{| h_order_id := id; h_status := v; h_notes := notes |}])%list
    /\ orders d' = orders d.
Proof.
  unfold insert_status_history.
  destruct (enum_value strict "status" order_status_enum s) as [e | v];
    [discriminate |].
  intros H. injection H as <-. exists v. repeat split.
Qed.

Lemma update_order_status_orders strict s id d d' v :
  update_order_status strict (Some s) id d = inr d' ->
  enum_value strict "status" order_status_enum s = inr v ->
  orders d'
  = map (fun o => if o_id o =? id then set_o_status (Some v) o else o)
      (orders d)
  /\ order_status_history d' = order_status_history d.
Proof.
  unfold update_order_status, select_orders. intros H Hv.
  destruct (filter _ (orders d)) as [| o os] eqn:E.
  - injection H as <-. split; [| reflexivity].
    rewrite <- (map_id (orders d)) at 1. apply map_ext_in. intros x Hx.
    destruct (o_id x =? id) eqn:Ex; [| reflexivity].
    assert (Hin : In x (filter (fun o => o_id o =? id) (orders d)))
      by (apply filter_In; auto).
    rewrite E in Hin. destruct Hin.
  - rewrite Hv in H. injection H as <-. split; reflexivity.
Qed.

(** Setting the status of order [id] and logging the same status keeps
    the two in agreement. *)
Lemma status_agrees_set_and_log id v notes d d' :
  orders d'
  = map (fun o => if o_id o =? id then set_o_status (Some v) o else o)
      (orders d) ->
  order_status_history d'
  = (order_status_history d
     ++ [{| h_order_id := id; h_status := v; h_notes := notes |}])%list ->
  status_agrees d -> status_agrees d'.
Proof.
  intros Ho Hh H o' Hin. rewrite Ho in Hin. apply in_map_iff in Hin.
  destruct Hin as (o & <- & Hin). specialize (H o Hin).
  destruct H as (s & Hs & Hl).
  rewrite (latest_after_append _ _ _ _ Hh). simpl.
  destruct (o_id o =? id) eqn:E; simpl.
  - apply Z.eqb_eq in E. rewrite E, Z.eqb_refl. exists v. auto.
  - rewrite Z.eqb_sym, E. exists s. auto.
Qed.

Lemma transition_status_agrees strict id status notes d d' :
  transition strict id status notes d = inr d' ->
  status_agrees d -> status_agrees d'.
Proof.
  unfold transition.
  destruct (update_order_status strict status id d) as [e | d1] eqn:E1;
    [discriminate |].
  destruct (insert_status_history strict id status _ d1) as [e | d2] eqn:E2;
    [discriminate |].
  intros E H. injection E as <-.
  destruct status as [s |]; [| discriminate].
  destruct (insert_status_history_entry _ _ _ _ _ _ E2) as (v & Hv & Hh & Ho).
  destruct (update_order_status_orders _ _ _ _ _ _ E1 Hv) as (Ho1 & Hh1).
  assert (H2 : status_agrees d2).
  { eapply (status_agrees_set_and_log id v _ d); [| | exact H].
    - rewrite Ho. exact Ho1.
    - rewrite Hh, Hh1. reflexivity. }
  destruct (OrderController.is_cancelled (Some s)); [| exact H2].
  destruct (restock_rest (select_order_items id d2) d2)
    as (Ho3 & _ & _ & Hh3 & _).
  intros o Hin. rewrite Ho3 in Hin. destruct (H2 o Hin) as (s0 & Hs & Hl).
  exists s0. split; [exact Hs |].
  unfold select_latest_status in *. rewrite Hh3. exact Hl.
Qed.

Lemma payment_status_agrees strict req total txnRow d d' :
  payment strict req total txnRow d = inr d' ->
  status_agrees d -> status_agrees d'.
Proof.
  unfold payment.
  destruct (insert_transaction _ _ _ _ _ _ _ _ d) as [e | d1] eqn:E1;
    [discriminate |].
  destruct (update_order_status _ _ _ d1) as [e | d2] eqn:E2;
    [discriminate |].
  intros E3 H.
  destruct (insert_status_history_entry _ _ _ _ _ _ E3) as (v & Hv & Hh & Ho).
  destruct (update_order_status_orders _ _ _ _ _ _ E2 Hv) as (Ho2 & Hh2).
  unfold insert_transaction in E1.
  destruct (existsb _ (transactions d)); [discriminate |].
  destruct (enum_value _ _ transaction_status_enum _); [discriminate |].
  injection E1 as <-. simpl in Ho2, Hh2.
  eapply (status_agrees_set_and_log (TransactionController.orderId req) v _ d);
    [| | exact H].
  - rewrite Ho. exact Ho2.
  - rewrite Hh, Hh2. reflexivity.
Qed.

Lemma refund_status_agrees strict id order_id amount reason d d' :
  refund strict id order_id amount reason d = inr d' ->
  status_agrees d -> status_agrees d'.
Proof.
  unfold refund.
  destruct (update_transaction_status _ _ _ d) as [e | d1] eqn:E1;
    [discriminate |].
  destruct (update_order_status _ _ _ d1) as [e | d2] eqn:E2;
    [discriminate |].
  destruct (insert_status_history _ _ _ _ d2) as [e | d3] eqn:E3;
    [discriminate |].
  intros E H. injection E as <-.
  destruct (insert_status_history_entry _ _ _ _ _ _ E3) as (v & Hv & Hh & Ho).
  destruct (update_order_status_orders _ _ _ _ _ _ E2 Hv) as (Ho2 & Hh2).
  destruct (update_transaction_status_rows _ _ _ _ _ E1)
    as (_ & _ & Ho1 & _ & Hh1).
  assert (H3 : status_agrees d3).
  { eapply (status_agrees_set_and_log order_id v _ d); [| | exact H].
    - rewrite Ho, Ho2, Ho1. reflexivity.
    - rewrite Hh, Hh2, Hh1. reflexivity. }
  destruct (restock_rest (select_order_items order_id d3) d3)
    as (Ho4 & _ & _ & Hh4 & _).
  intros o Hin. rewrite Ho4 in Hin. destruct (H3 o Hin) as (s0 & Hs & Hl).
  exists s0. split; [exact Hs |].
  unfold select_latest_status in *. rewrite Hh4. exact Hl.
Qed.

Lemma checkout_status_agrees n strict req d d' :
  checkout strict req (next_order_id n) (next_transaction_id n) d = inr d' ->
  fresh_ids n d -> status_agrees d -> status_agrees d'.
Proof.
  intros Hc Hf H.
  destruct (checkout_rows _ _ _ _ _ _ Hc)
    as (total & rows & _ & _ & Ho & _ & _ & Hh & _).
  intros o Hin. rewrite Ho in Hin. apply in_app_or in Hin.
  rewrite (latest_after_append _ _ _ _ Hh). simpl.
  destruct Hin as [Hin | [<- | []]].
  - destruct Hf as (Hof & _). rewrite Forall_forall in Hof.
    specialize (Hof o Hin).
    replace (next_order_id n =? o_id o) with false
      by (symmetry; apply Z.eqb_neq; lia).
    apply (H o Hin).
  - simpl. rewrite Z.eqb_refl. exists "pending". auto.
Qed.

(** The three workflows that run inside a transaction keep each order's
    status and its history in agreement, whatever the outcome;
    [updateOrderStatus] keeps them so whenever it reports success. *)
Lemma serve_status_agrees q c :
  consistent c ->
  status_agrees (durable c) ->
  match q with
  | UpdateOrderStatus _ _ _ => is_success (fst (serve q c)) = true
  | GetCart _ | AddToCart _ => False
  | _ => True
  end ->
  status_agrees (durable (snd (serve q c))).
Proof.
  intros Hc H Hq. pose proof Hc as (Hidle & Hf & _).
  destruct q as [req | id status notes | req | id amount reason | u | req];
    simpl in *; try contradiction.
  - destruct (createOrder_spec req c Hidle) as (_ & _ & _ & [HA | HB]).
    + destruct HA as (_ & _ & _ & _ & Hco & _).
      apply (checkout_status_agrees _ _ _ _ _ Hco Hf H).
    + destruct HB as (_ & ->). exact H.
  - destruct (updateOrderStatus_spec id status notes c Hidle)
      as (_ & _ & _ & [HA | HB]).
    + destruct HA as (_ & _ & Ht & _).
      apply (transition_status_agrees _ _ _ _ _ _ Ht H).
    + destruct HB as (Hfail & _). rewrite Hq in Hfail. discriminate.
  - destruct (processPayment_spec req c Hidle) as (_ & _ & _ & [HA | HB]).
    + destruct HA as (_ & (order0 & rest & _ & Hpay) & _).
      apply (payment_status_agrees _ _ _ _ _ _ Hpay H).
    + destruct HB as (_ & ->). exact H.
  - destruct (processRefund_spec id amount reason c Hidle)
      as (_ & _ & _ & [HA | HB]).
    + destruct HA as (_ & (t0 & rest & _ & _ & Href) & _).
      apply (refund_status_agrees _ _ _ _ _ _ _ Href H).
    + destruct HB as (_ & ->). exact H.
Qed.

(** ** A refund never stores the status "refunded" on an order *)

Lemma enum_value_refunded strict v :
  enum_value strict "status" order_status_enum "refunded" = inr v ->
  strict = false /\ v = "".
Proof.
  unfold enum_value. simpl. destruct strict; [discriminate |].
  intros H. injection H as <-. auto.
Qed.

(** Whatever the SQL mode, [processRefund] leaves no order with the
    status "refunded" unless one had it before: in strict mode the order
    update is refused and the refund rolled back, without it the status
    stored is the empty string. *)
Lemma processRefund_no_refunded_order id amount reason c :
  idle c ->
  (forall o, In o (orders (durable c)) -> o_status o <> Some "refunded") ->
  forall o,
    In o (orders
            (durable
               (snd (TransactionController.processRefund id amount reason
                       c)))) ->
    o_status o <> Some "refunded".
Proof.
  intros Hidle H.
  destruct (processRefund_spec id amount reason c Hidle)
    as (_ & _ & _ & [HA | HB]).
  2:{ destruct HB as (_ & ->). exact H. }
  destruct HA as (_ & (t0 & rest & _ & _ & Href) & _).
  unfold refund in Href.
  destruct (update_transaction_status _ _ _ (durable c))
    as [e | d1] eqn:E1; [discriminate |].
  destruct (update_order_status _ _ _ d1) as [e | d2] eqn:E2;
    [discriminate |].
  destruct (insert_status_history _ _ _ _ d2) as [e | d3] eqn:E3;
    [discriminate |].
  injection Href as <-.
  destruct (insert_status_history_entry _ _ _ _ _ _ E3) as (v & Hv & _ & Ho3).
  destruct (update_order_status_orders _ _ _ _ _ _ E2 Hv) as (Ho2 & _).
  destruct (update_transaction_status_rows _ _ _ _ _ E1) as (_ & _ & Ho1 & _).
  destruct (restock_rest (select_order_items (t_order_id t0) d3) d3)
    as (Ho4 & _).
  destruct (enum_value_refunded _ _ Hv) as (_ & ->).
  intros o Hin. rewrite Ho4, Ho3, Ho2, Ho1 in Hin.
  apply in_map_iff in Hin. destruct Hin as (o0 & <- & Hin).
  destruct (o_id o0 =? t_order_id t0); [discriminate | apply H, Hin].
Qed.

(** In strict SQL mode no refund of a transaction whose order exists
    goes through. *)
Lemma processRefund_strict_fails id amount reason c :
  idle c ->
  strict c = true ->
  (forall t rest,
     select_transactions id (durable c) = t :: rest ->
     select_orders (t_order_id t) (durable c) <> []) ->
  is_success (fst (TransactionController.processRefund id amount reason c))
  = false
  /\ durable (snd (TransactionController.processRefund id amount reason c))
     = durable c.
Proof.
  intros Hidle Hstrict Hfk.
  destruct (processRefund_spec id amount reason c Hidle)
    as (_ & _ & _ & [HA | HB]); [| exact HB].
  destruct HA as (_ & (t0 & rest & Hsel & _ & Href) & _).
  exfalso. specialize (Hfk t0 rest Hsel).
  unfold refund in Href. rewrite Hstrict in Href.
  destruct (update_transaction_status _ _ _ (durable c))
    as [e | d1] eqn:E1; [discriminate |].
  destruct (update_transaction_status_rows _ _ _ _ _ E1) as (_ & _ & Ho1 & _).
  unfold update_order_status, select_orders in Href.
  rewrite Ho1 in Href. unfold select_orders in Hfk.
  destruct (filter _ (orders (durable c))); [contradiction |].
  simpl in Href. discriminate.
Qed.

(** * The claims

    Each claim of the specification, by its number, as a theorem over the
    handlers; those with hypotheses are followed by an instance on the
    sample shop. *)

(** The sample shop carries only ids generated before. *)
Lemma sample_fresh strict_mode calls :
  fresh (Sample.connection strict_mode calls).
Proof.
  unfold fresh, fresh_ids. simpl.
  repeat split; repeat constructor; simpl; lia.
Defined.

(** The sample shop is consistent. *)
Lemma sample_consistent strict_mode calls :
  consistent (Sample.connection strict_mode calls).
Proof.
  split; [reflexivity |]. split; [apply sample_fresh |].
  intros order_id. simpl. lia.
Defined.

(** C1 fails on the code.  [updateOrderStatus] never opens a transaction,
    so on a connection in autocommit mode each of its statements is
    committed as it runs, and the rollback of its [catch] block undoes
    nothing.  Cancelling the sample order while the store fails on the
    sixth call (the stock update of the second order item) ends in an
    error, yet the order is left cancelled, the history entry is left
    appended and the first product's stock is left returned, while the
    second product's stock is not.  With no storage failure at all, a
    request that carries no status ends in an error after the order's
    status has been set to NULL. *)
Theorem updateOrderStatus_partial_commit :
  (let c := Sample.after_checkout true (Some 5%nat) in
   let r := fst (OrderController.updateOrderStatus 1 (Some "cancelled")
                   None c) in
   let c' := snd (OrderController.updateOrderStatus 1 (Some "cancelled")
                    None c) in
   in_tx c = false
   /\ r = NextError StoreFault
   /\ map o_status (select_orders 1 (durable c)) = [Some "pending"]
   /\ map o_status (select_orders 1 (durable c')) = [Some "cancelled"]
   /\ select_latest_status 1 (durable c) = ["pending"]
   /\ select_latest_status 1 (durable c') = ["cancelled"]
   /\ stock_of 1 (durable c) = [3]
   /\ stock_of 1 (durable c') = [5]
   /\ stock_of 2 (durable c) = [0]
   /\ stock_of 2 (durable c') = [0])
  /\ (let c := Sample.after_checkout true None in
      let r := fst (OrderController.updateOrderStatus 1 None None c) in
      let c' := snd (OrderController.updateOrderStatus 1 None None c) in
      in_tx c = false
      /\ r = NextError (ER_BAD_NULL "status")
      /\ map o_status (select_orders 1 (durable c)) = [Some "pending"]
      /\ map o_status (select_orders 1 (durable c')) = [None]).
Proof. vm_compute. repeat split. Qed.

(** C2 fails on the code.  [createOrder] subtracts the ordered quantity
    without comparing it with the stock: a checkout of seven dark bars
    from a stock of five succeeds and leaves a stock of minus two. *)
Theorem createOrder_negative_stock :
  let c := Sample.connection true None in
  let req := Sample.order_of [Sample.line 1 7 1000] in
  stock_of 1 (durable c) = [5]
  /\ fst (OrderController.createOrder req c)
     = Json 201 (OrderCreated 1 "ORD-1700000000000-4242"
                   "TXN-1700000000001-1717")
  /\ stock_of 1 (durable (snd (OrderController.createOrder req c))) = [-2].
Proof. vm_compute. repeat split. Qed.

(** C3. On an idle connection, a checkout with a line whose product id
    does not exist leaves the rows of every table as they were (no order,
    order item, transaction or status history row, no stock change, the
    cart items still there) and reports a failure; made by an
    authenticated caller while the store answers, the failure is status
    400 naming the first such line. *)
Theorem createOrder_missing_product req c item :
  idle c ->
  In item (OrderController.items req) ->
  select_products (OrderController.id item) (durable c) = [] ->
  durable (snd (OrderController.createOrder req c)) = durable c
  /\ view (snd (OrderController.createOrder req c)) = durable c
  /\ is_success (fst (OrderController.createOrder req c)) = false
  /\ (fuse c = None ->
      OrderController.userId req <> 0 ->
      exists missing,
        In missing (OrderController.items req)
        /\ select_products (OrderController.id missing) (durable c) = []
        /\ fst (OrderController.createOrder req c)
           = Json 400 (Message
               ("Product with ID "
                ++ string_of_Z (OrderController.id missing)
                ++ " not found")%string)).
Proof.
  intros Hidle Hin Hsel.
  destruct (createOrder_spec req c Hidle) as (_ & Hv & _ & [HA | HB]).
  - destruct HA as (_ & _ & _ & Hall & _).
    unfold all_products_exist in Hall. rewrite Forall_forall in Hall.
    elim (Hall item Hin Hsel).
  - destruct HB as (Hf & Hd). rewrite Hv, Hd.
    split; [reflexivity |]. split; [reflexivity |]. split; [exact Hf |].
    intros Hfuse Hu.
    destruct (createOrder_refuses_missing req c item Hfuse Hidle Hu Hin Hsel)
      as (missing & H1 & H2 & H3 & _).
    exists missing. auto.
Qed.

(** C3 on the sample shop: a checkout of a dark bar and of product 9, which
    does not exist. *)
Lemma createOrder_missing_product_witness :
  let req := Sample.order_of [Sample.line 1 1 1000; Sample.line 9 1 100] in
  let c := Sample.connection true None in
  durable (snd (OrderController.createOrder req c)) = durable c
  /\ view (snd (OrderController.createOrder req c)) = durable c
  /\ fst (OrderController.createOrder req c)
     = Json 400 (Message "Product with ID 9 not found").
Proof.
  intros req c.
  destruct (createOrder_missing_product req c (Sample.line 9 1 100))
    as (Hd & Hv & _ & Hr).
  - reflexivity.
  - simpl. right. left. reflexivity.
  - reflexivity.
  - split; [exact Hd |]. split; [exact Hv |].
    destruct Hr as (missing & Hin & Hsel & Hresp);
      [reflexivity | discriminate |].
    destruct Hin as [<- | [<- | []]];
      [vm_compute in Hsel; discriminate | exact Hresp].
Defined.

(** C4 fails on the code.  [createOrder] takes the quantity and the
    price of a line as the request gives them: the total is their sum of
    products in JS numbers, while the columns [quantity], an [INT], and
    [price], a [DECIMAL(10,2)], round what they are given.  A checkout
    of half a dark bar at 10.00 is answered 201 and leaves an order with
    a total of 5.00 whose only item is one bar at 10.00; a checkout of a
    thousand bars at 0.004 is answered 201 and leaves an order with a
    total of 4.00 whose only item is a thousand bars at 0.00.  Amounts
    are in minor units. *)
Theorem createOrder_total_not_items_sum :
  (let c := Sample.connection true None in
   let req :=
     Sample.order_of
       [{| OrderController.id := 1;
           OrderController.quantity := Js.decimal 5 1;
           OrderController.price := Js.of_Z 10 |}] in
   let c' := snd (OrderController.createOrder req c) in
   fst (OrderController.createOrder req c)
   = Json 201 (OrderCreated 1 "ORD-1700000000000-4242"
                 "TXN-1700000000001-1717")
   /\ map o_total_amount (select_orders 1 (durable c')) = [500]
   /\ select_order_items 1 (durable c')
      = [{| oi_order_id := 1; oi_product_id := 1; oi_quantity := 1;
            oi_price := 1000 |}]
   /\ order_items_total (select_order_items 1 (durable c')) = 1000)
  /\ (let c := Sample.connection true None in
      let req :=
        Sample.order_of
          [{| OrderController.id := 1;
              OrderController.quantity := Js.of_Z 1000;
              OrderController.price := Js.decimal 4 3 |}] in
      let c' := snd (OrderController.createOrder req c) in
      fst (OrderController.createOrder req c)
      = Json 201 (OrderCreated 1 "ORD-1700000000000-4242"
                    "TXN-1700000000001-1717")
      /\ map o_total_amount (select_orders 1 (durable c')) = [400]
      /\ select_order_items 1 (durable c')
         = [{| oi_order_id := 1; oi_product_id := 1; oi_quantity := 1000;
               oi_price := 0 |}]
      /\ order_items_total (select_order_items 1 (durable c')) = 0).
Proof. vm_compute. repeat split. Qed.

(** C5. On an idle connection, [processRefund] on a transaction whose
    status is already "refunded" writes nothing: the rows of every table
    are as they were and the response reports a failure, which is status
    400 "This transaction has already been refunded" whenever the store
    answers. *)
Theorem processRefund_already_refunded id amount reason c t rest :
  idle c ->
  select_transactions id (durable c) = t :: rest ->
  t_status t = "refunded" ->
  durable (snd (TransactionController.processRefund id amount reason c))
  = durable c
  /\ view (snd (TransactionController.processRefund id amount reason c))
     = durable c
  /\ is_success (fst (TransactionController.processRefund id amount reason c))
     = false
  /\ (fuse c = None ->
      fst (TransactionController.processRefund id amount reason c)
      = Json 400 (Message "This transaction has already been refunded")).
Proof.
  intros Hidle Ht Hs.
  destruct (processRefund_spec id amount reason c Hidle)
    as (_ & Hv & _ & [HA | HB]).
  - destruct HA as (_ & (t0 & rest0 & Ht0 & Hs0 & _) & _).
    rewrite Ht in Ht0. injection Ht0 as <- _. contradiction.
  - destruct HB as (Hf & Hd). rewrite Hv, Hd.
    split; [reflexivity |]. split; [reflexivity |]. split; [exact Hf |].
    intros Hfuse.
    apply (handler_wp _ (fun r _ =>
      r = Json 400 (Message "This transaction has already been refunded"))).
    apply wp_bind, wp_beginTransaction_ok; [exact Hfuse |].
    unfold then_wp.
    apply wp_bind, wp_query_ok; [exact Hfuse |].
    unfold then_wp. simpl view. rewrite Hidle, Ht, Hs. simpl.
    apply wp_respond. reflexivity.
Qed.

(** C5 on the sample shop: a second refund of the transaction refunded on a
    server that is not in strict SQL mode. *)
Lemma processRefund_already_refunded_witness :
  let c := Sample.after_refund None in
  map t_status (select_transactions 1 (durable c)) = ["refunded"]
  /\ durable (snd (TransactionController.processRefund 1 None None c))
     = durable c
  /\ view (snd (TransactionController.processRefund 1 None None c))
     = durable c
  /\ fst (TransactionController.processRefund 1 None None c)
     = Json 400 (Message "This transaction has already been refunded").
Proof.
  intros c. split; [vm_compute; reflexivity |].
  destruct (processRefund_already_refunded 1 None None c
              {| t_id := 1; t_order_id := 1;
                 t_transaction_id := "TXN-1700000000001-1717";
                 t_amount := 2250; t_payment_method := "card";
                 t_status := "refunded";
                 t_payment_details := MethodOnly "card" |} [])
    as (Hd & Hv & _ & Hr).
  - vm_compute. reflexivity.
  - vm_compute. reflexivity.
  - reflexivity.
  - split; [exact Hd |]. split; [exact Hv |]. apply Hr. reflexivity.
Defined.

(** C6. In every state the connection reaches from a consistent one, no
    order is referenced by more than one transaction row.  From such a
    state, [processPayment] on an order that already has a transaction
    writes nothing and reports a failure, so that transaction is still
    the order's only one afterwards; whenever the store answers and the
    order is the caller's, the response is status 400 "Payment already
    processed for this order". *)
Theorem at_most_one_transaction_per_order c0 c req :
  consistent c0 ->
  reachable c0 c ->
  at_most_one_transaction (durable c)
  /\ (forall t ts,
        select_transactions_of_order (TransactionController.orderId req)
          (durable c) = t :: ts ->
        durable (snd (TransactionController.processPayment req c))
        = durable c
        /\ is_success (fst (TransactionController.processPayment req c))
           = false
        /\ select_transactions_of_order (TransactionController.orderId req)
             (durable (snd (TransactionController.processPayment req c)))
           = [t]
        /\ (fuse c = None ->
            select_orders_of_user (TransactionController.orderId req)
              (TransactionController.userId req) (durable c) <> [] ->
            fst (TransactionController.processPayment req c)
            = Json 400 (Message
                "Payment already processed for this order"))).
Proof.
  intros H0 Hr.
  destruct (reachable_consistent c0 c H0 Hr) as (Hidle & _ & Hone).
  split; [exact Hone |].
  apply (processPayment_paid_order req c Hidle Hone).
Qed.

(** C6 on the sample shop: a payment for the order the checkout has paid
    already. *)
Lemma at_most_one_transaction_per_order_witness :
  let req :=
    {| TransactionController.userId := 7;
       TransactionController.orderId := 1;
       TransactionController.paymentMethod := "card";
       TransactionController.paymentDetails := None;
       TransactionController.transaction_stamp :=
         {| OrderController.now := 1700000000002;
            OrderController.suffix := 9000 |} |} in
  let c :=
    with_fuse None
      (snd (serve (CreateOrder Sample.basket)
              (Sample.connection true None))) in
  let paid :=
    {| t_id := 1; t_order_id := 1;
       t_transaction_id := "TXN-1700000000001-1717"; t_amount := 2250;
       t_payment_method := "card"; t_status := "completed";
       t_payment_details := MethodOnly "card" |} in
  at_most_one_transaction (durable c)
  /\ durable (snd (TransactionController.processPayment req c)) = durable c
  /\ select_transactions_of_order (TransactionController.orderId req)
       (durable (snd (TransactionController.processPayment req c)))
     = [paid]
  /\ fst (TransactionController.processPayment req c)
     = Json 400 (Message "Payment already processed for this order").
Proof.
  intros req c paid.
  destruct (at_most_one_transaction_per_order
              (Sample.connection true None) c req) as (Hone & Hpaid).
  - apply sample_consistent.
  - exact (reach_serve (Sample.connection true None)
             (Sample.connection true None) (CreateOrder Sample.basket) None
             (reach_start (Sample.connection true None))).
  - split; [exact Hone |].
    destruct (Hpaid paid []) as (Hd & _ & Hsel & Hr).
    + vm_compute. reflexivity.
    + split; [exact Hd |]. split; [exact Hsel |].
      apply Hr; [reflexivity | vm_compute; discriminate].
Defined.

(** C7 fails on the code.  ["refunded"] is not a value of the [status]
    ENUM of [orders] and [order_status_history].  In strict SQL mode the
    refund of the sample order's completed transaction is therefore
    rolled back as a whole and answered with an error; without strict
    mode the refund goes through, but the order's status and the history
    entry are stored as the empty string. *)
Theorem processRefund_order_not_refunded :
  (let c := Sample.after_checkout true None in
   let r := fst (TransactionController.processRefund 1 None None c) in
   let c' := snd (TransactionController.processRefund 1 None None c) in
   map t_status (select_transactions 1 (durable c)) = ["completed"]
   /\ r = NextError (ER_TRUNCATED "status")
   /\ durable c' = durable c)
  /\ (let c := Sample.after_checkout false None in
      let r := fst (TransactionController.processRefund 1 None None c) in
      let c' := snd (TransactionController.processRefund 1 None None c) in
      map t_status (select_transactions 1 (durable c)) = ["completed"]
      /\ r = Json 200 (Message "Refund processed successfully")
      /\ map t_status (select_transactions 1 (durable c')) = ["refunded"]
      /\ map o_status (select_orders 1 (durable c')) = [Some ""]
      /\ select_latest_status 1 (durable c') = [""]
      /\ stock_of 1 (durable c') = [5]
      /\ stock_of 2 (durable c') = [1]).
Proof. vm_compute. repeat split. Qed.

(** C8 fails on the code, through the defect of C4.  The stock update
    of [createOrder] subtracts the number the line carries and the [INT]
    column [stock] rounds the difference, while the order item stores the
    number rounded; the cancellation adds what the order item stores.
    With five dark bars in stock, a checkout of half a bar is answered
    201 and leaves the stock at five, five less a half rounded, and an
    order item of one bar; the cancellation, answered 200, leaves a
    stock of six. *)
Theorem checkout_then_cancel_adds_stock :
  let c := Sample.connection true None in
  let req :=
    Sample.order_of
      [{| OrderController.id := 1;
          OrderController.quantity := Js.decimal 5 1;
          OrderController.price := Js.of_Z 10 |}] in
  let c1 := with_fuse None (snd (OrderController.createOrder req c)) in
  let c2 :=
    snd (OrderController.updateOrderStatus 1 (Some "cancelled") None c1) in
  stock_of 1 (durable c) = [5]
  /\ fst (OrderController.createOrder req c)
     = Json 201 (OrderCreated 1 "ORD-1700000000000-4242"
                   "TXN-1700000000001-1717")
  /\ stock_of 1 (durable c1) = [5]
  /\ map oi_quantity (select_order_items 1 (durable c1)) = [1]
  /\ fst (OrderController.updateOrderStatus 1 (Some "cancelled") None c1)
     = Json 200 (Message "Order status updated successfully")
  /\ stock_of 1 (durable c2) = [6].
Proof. vm_compute. repeat split. Qed.

(** C9 fails on the code, through the defect of C1.  On a connection in
    autocommit mode, a status update whose history insert does not go
    through leaves the order's status changed and the history as it was:
    so it is when the store fails on the third call, and so it is, with
    no storage failure at all, when the request carries no status (the
    order's status becomes NULL, which the history refuses). *)
Theorem updateOrderStatus_status_diverges :
  (let c := Sample.after_checkout true (Some 2%nat) in
   let r := fst (OrderController.updateOrderStatus 1 (Some "shipped")
                   None c) in
   let c' := snd (OrderController.updateOrderStatus 1 (Some "shipped")
                    None c) in
   map o_status (select_orders 1 (durable c)) = [Some "pending"]
   /\ select_latest_status 1 (durable c) = ["pending"]
   /\ r = NextError StoreFault
   /\ map o_status (select_orders 1 (durable c')) = [Some "shipped"]
   /\ select_latest_status 1 (durable c') = ["pending"])
  /\ (let c := Sample.after_checkout true None in
      let r := fst (OrderController.updateOrderStatus 1 None None c) in
      let c' := snd (OrderController.updateOrderStatus 1 None None c) in
      r = NextError (ER_BAD_NULL "status")
      /\ map o_status (select_orders 1 (durable c')) = [None]
      /\ select_latest_status 1 (durable c') = ["pending"]).
Proof. vm_compute. repeat split. Qed.



(** * Further properties of the handlers *)

(** ** Handlers run while the store answers *)

Ltac no_fault := simpl; assumption.

Ltac run_begin :=
  apply wp_bind, wp_beginTransaction_ok; [no_fault |]; unfold then_wp at 1.
Ltac run_commit :=
  apply wp_bind, wp_commit_ok; [no_fault |]; unfold then_wp at 1.
Ltac run_query :=
  apply wp_bind, wp_query_ok; [no_fault |]; unfold then_wp at 1;
  simpl view.
Ltac run_execute :=
  apply wp_bind, wp_execute_ok; [no_fault |];
  simpl view; simpl strict.
Ltac run_insert :=
  apply wp_bind, wp_insert_ok; [no_fault |];
  cbv zeta; simpl counters; simpl view; simpl strict.


Lemma wp_return_stock_ok l : forall c Q,
  fuse c = None ->
  store (view c) c = c ->
  Q (Val tt) (store (restock l (view c)) c) ->
  wp (OrderController.return_stock l) Q c.
Proof.
  induction l as [| item l IH]; intros c Q Hf Hc Hv.
  - apply wp_ret. simpl in Hv. rewrite Hc in Hv. exact Hv.
  - simpl. apply wp_bind, wp_execute_ok; [exact Hf |].
    unfold then_wp. apply IH.
    + exact Hf.
    + simpl. unfold store. simpl. destruct (in_tx c); reflexivity.
    + unfold store in *. simpl in *. destruct (in_tx c); exact Hv.
Qed.


Lemma existsb_none {A} (f : A -> bool) l :
  (forall x, In x l -> f x = false) -> existsb f l = false.
Proof.
  induction l as [| x l IH]; simpl; intros H; [reflexivity |].
  rewrite (H x (or_introl eq_refl)), IH; [reflexivity |].
  intros y Hy. apply H. right. exact Hy.
Qed.



(** ** Checkout *)

(** The rows of the order a checkout answered 201 has created: [total]
    is the value the [DECIMAL(10,2)] columns take for the total of the
    request, [rows] are the order items stored for its lines. *)
Lemma createOrder_new_order req c orderId orderNumber transactionId :
  idle c ->
  fresh c ->
  fst (OrderController.createOrder req c)
  = Json 201 (OrderCreated orderId orderNumber transactionId) ->
  exists total rows,
    amount_value (strict c) "total_amount"
      (OrderController.totalAmount_of (OrderController.items req))
    = inr total
    /\ stored_lines (strict c) orderId (OrderController.items req) rows
    /\ select_orders orderId
         (durable (snd (OrderController.createOrder req c)))
       = [{| o_id := orderId; o_user_id := OrderController.userId req;
             o_order_number := orderNumber;
             o_total_amount := total;
             o_status := Some "pending";
             o_shipping := OrderController.shippingInfo req |}]
    /\ select_order_items orderId
         (durable (snd (OrderController.createOrder req c)))
       = rows
    /\ select_transactions_of_order orderId
         (durable (snd (OrderController.createOrder req c)))
       = [{| t_id := next_transaction_id (counters c);
             t_order_id := orderId;
             t_transaction_id := transactionId;
             t_amount := total;
             t_payment_method := OrderController.paymentMethod req;
             t_status := "completed";
             t_payment_details :=
               MethodOnly (OrderController.paymentMethod req) |}]
    /\ select_status_history orderId
         (durable (snd (OrderController.createOrder req c)))
       = [{| h_order_id := orderId; h_status := "pending";
             h_notes := "Order created and payment received" |}].
Proof.
  intros Hidle Hfresh Hr.
  destruct (createOrder_spec req c Hidle) as (_ & _ & _ & [HA | HB]).
  2:{ destruct HB as (Hfail & _). rewrite Hr in Hfail. discriminate. }
  destruct HA as (Hr' & _ & _ & _ & Hc & _).
  rewrite Hr in Hr'. injection Hr' as -> -> ->.
  destruct (checkout_rows _ _ _ _ _ _ Hc)
    as (total & rows & Htotal & Hrows & Ho & Hi & Ht & Hh & _).
  destruct Hfresh as (Fo & Fi & Ft & Fh & _).
  exists total, rows. split; [exact Htotal |]. split; [exact Hrows |].
  split; [| split; [| split]].
  - unfold select_orders. rewrite Ho, filter_app.
    rewrite (filter_none _ _ _ Fo).
    2:{ intros o Hlt. apply Z.eqb_neq. lia. }
    simpl. rewrite Z.eqb_refl. reflexivity.
  - unfold select_order_items. rewrite Hi, filter_app.
    rewrite (filter_none _ _ _ Fi).
    2:{ intros i Hlt. apply Z.eqb_neq. lia. }
    apply (select_order_items_placed _ _ _ _ Hrows).
  - unfold select_transactions_of_order. rewrite Ht, filter_app.
    rewrite (filter_none _ _ _ Ft).
    2:{ intros t [Hlt _]. apply Z.eqb_neq. lia. }
    simpl. rewrite Z.eqb_refl. reflexivity.
  - unfold select_status_history. rewrite Hh, filter_app.
    rewrite (filter_none _ _ _ Fh).
    2:{ intros h Hlt. apply Z.eqb_neq. lia. }
    simpl. rewrite Z.eqb_refl. reflexivity.
Qed.

(** X2. Every checkout answered 201 has recorded its payment: the new
    order has exactly one transaction, "completed", under the transaction
    id of the response, and its amount is the order's total amount: the
    value the [DECIMAL(10,2)] columns take for the total the handler
    computes.  The order's status is "pending" and its history is the
    one entry "pending". *)
Theorem createOrder_records_payment
    req c orderId orderNumber transactionId :
  idle c ->
  fresh c ->
  fst (OrderController.createOrder req c)
  = Json 201 (OrderCreated orderId orderNumber transactionId) ->
  let d' := durable (snd (OrderController.createOrder req c)) in
  exists total,
    amount_value (strict c) "total_amount"
      (OrderController.totalAmount_of (OrderController.items req))
    = inr total
    /\ map t_amount (select_transactions_of_order orderId d') = [total]
    /\ map t_status (select_transactions_of_order orderId d')
       = ["completed"]
    /\ map t_transaction_id (select_transactions_of_order orderId d')
       = [transactionId]
    /\ map o_total_amount (select_orders orderId d') = [total]
    /\ map o_status (select_orders orderId d') = [Some "pending"]
    /\ map h_status (select_status_history orderId d') = ["pending"].
Proof.
  intros Hidle Hfresh Hr d'.
  destruct (createOrder_new_order _ _ _ _ _ Hidle Hfresh Hr)
    as (total & rows & Htotal & _ & Ho & _ & Ht & Hh).
  exists total. split; [exact Htotal |].
  unfold d'. rewrite Ho, Ht, Hh. repeat split.
Qed.

(** X2 on the sample shop: the basket, two dark bars at 10.00 and a box
    of truffles at 2.50, paid with 22.50. *)
Lemma createOrder_records_payment_witness :
  let req := Sample.basket in
  let c := Sample.connection true None in
  let d' := durable (snd (OrderController.createOrder req c)) in
  exists total,
    amount_value (strict c) "total_amount"
      (OrderController.totalAmount_of (OrderController.items req))
    = inr total
    /\ map t_amount (select_transactions_of_order 1 d') = [total]
    /\ map t_status (select_transactions_of_order 1 d') = ["completed"]
    /\ map t_transaction_id (select_transactions_of_order 1 d')
       = ["TXN-1700000000001-1717"]
    /\ map o_total_amount (select_orders 1 d') = [total]
    /\ map o_status (select_orders 1 d') = [Some "pending"]
    /\ map h_status (select_status_history 1 d') = ["pending"].
Proof.
  intros req c.
  apply (createOrder_records_payment req c 1 "ORD-1700000000000-4242"
           "TXN-1700000000001-1717").
  - reflexivity.
  - apply sample_fresh.
  - vm_compute. reflexivity.
Defined.

(** X3. A checkout answered 201 has emptied the caller's cart, whatever
    the lines of the request were: the cart items of the caller's cart are
    deleted, the items of every other cart and the carts themselves are
    as they were. *)
Theorem createOrder_clears_cart req c orderId orderNumber transactionId :
  idle c ->
  fst (OrderController.createOrder req c)
  = Json 201 (OrderCreated orderId orderNumber transactionId) ->
  carts (durable (snd (OrderController.createOrder req c)))
  = carts (durable c)
  /\ (select_carts (OrderController.userId req) (durable c) = [] ->
      cart_items (durable (snd (OrderController.createOrder req c)))
      = cart_items (durable c))
  /\ (forall cart0 rest,
        select_carts (OrderController.userId req) (durable c)
        = cart0 :: rest ->
        cart_items (durable (snd (OrderController.createOrder req c)))
        = filter (fun i => negb (ci_cart_id i =? c_id cart0))
            (cart_items (durable c))).
Proof.
  intros Hidle Hr.
  destruct (createOrder_created _ _ _ _ _ Hidle Hr) as (_ & Hc & _).
  destruct (checkout_rows _ _ _ _ _ _ Hc)
    as (total & rows & _ & _ & _ & _ & _ & _ & Hk & Hi).
  split; [exact Hk |]. unfold clear_cart in Hi. split.
  - intros Hnone. rewrite Hnone in Hi. exact Hi.
  - intros cart0 rest Hsome. rewrite Hsome in Hi. exact Hi.
Qed.

(** X3 on the sample shop: the basket of user 7, whose cart held two dark
    bars. *)
Lemma createOrder_clears_cart_witness :
  let req := Sample.basket in
  let c := Sample.connection true None in
  carts (durable (snd (OrderController.createOrder req c)))
  = carts (durable c)
  /\ (select_carts (OrderController.userId req) (durable c) = [] ->
      cart_items (durable (snd (OrderController.createOrder req c)))
      = cart_items (durable c))
  /\ (forall cart0 rest,
        select_carts (OrderController.userId req) (durable c)
        = cart0 :: rest ->
        cart_items (durable (snd (OrderController.createOrder req c)))
        = filter (fun i => negb (ci_cart_id i =? c_id cart0))
            (cart_items (durable c))).
Proof.
  intros req c.
  apply (createOrder_clears_cart req c 1 "ORD-1700000000000-4242"
           "TXN-1700000000001-1717").
  - reflexivity.
  - vm_compute. reflexivity.
Defined.



(** X5. [createOrder], [processPayment] and [processRefund] are atomic:
    on an idle connection, whenever one of them does not report success,
    under any storage failure, the rows of every table are as they were
    and the connection is left with no uncommitted write. *)
Theorem checkout_payment_refund_atomic c :
  idle c ->
  (forall req,
     is_success (fst (OrderController.createOrder req c)) = false ->
     durable (snd (OrderController.createOrder req c)) = durable c
     /\ view (snd (OrderController.createOrder req c)) = durable c)
  /\ (forall req,
        is_success (fst (TransactionController.processPayment req c))
        = false ->
        durable (snd (TransactionController.processPayment req c))
        = durable c
        /\ view (snd (TransactionController.processPayment req c))
           = durable c)
  /\ (forall id amount reason,
        is_success
          (fst (TransactionController.processRefund id amount reason c))
        = false ->
        durable (snd (TransactionController.processRefund id amount reason
                        c))
        = durable c
        /\ view (snd (TransactionController.processRefund id amount reason
                        c))
           = durable c).
Proof.
  intros Hidle. split; [| split].
  - intros req Hfail.
    destruct (createOrder_spec req c Hidle) as (_ & Hv & _ & [HA | HB]).
    + destruct HA as (Hr & _). rewrite Hr in Hfail. discriminate.
    + destruct HB as (_ & Hd). rewrite Hv. auto.
  - intros req Hfail.
    destruct (processPayment_spec req c Hidle) as (_ & Hv & _ & [HA | HB]).
    + destruct HA as (Hr & _). rewrite Hr in Hfail. discriminate.
    + destruct HB as (_ & Hd). rewrite Hv. auto.
  - intros id amount reason Hfail.
    destruct (processRefund_spec id amount reason c Hidle)
      as (_ & Hv & _ & [HA | HB]).
    + destruct HA as (Hr & _). rewrite Hr in Hfail. discriminate.
    + destruct HB as (_ & Hd). rewrite Hv. auto.
Qed.

(** X5 on the sample shop, with the store failing on the fifth call. *)
Lemma checkout_payment_refund_atomic_witness :
  let c := Sample.connection true (Some 4%nat) in
  (forall req,
     is_success (fst (OrderController.createOrder req c)) = false ->
     durable (snd (OrderController.createOrder req c)) = durable c
     /\ view (snd (OrderController.createOrder req c)) = durable c)
  /\ (forall req,
        is_success (fst (TransactionController.processPayment req c))
        = false ->
        durable (snd (TransactionController.processPayment req c))
        = durable c
        /\ view (snd (TransactionController.processPayment req c))
           = durable c)
  /\ (forall id amount reason,
        is_success
          (fst (TransactionController.processRefund id amount reason c))
        = false ->
        durable (snd (TransactionController.processRefund id amount reason
                        c))
        = durable c
        /\ view (snd (TransactionController.processRefund id amount reason
                        c))
           = durable c).
Proof.
  intros c. apply (checkout_payment_refund_atomic c). reflexivity.
Defined.

(** ** Status updates *)

(** The response of a status update while the store answers. *)
Lemma updateOrderStatus_runs id status notes c :
  fuse c = None ->
  idle c ->
  fst (OrderController.updateOrderStatus id status notes c)
  = match select_orders id (durable c) with
    | [] => Json 404 (Message "Order not found")
    | _ :: _ =>
        match transition (strict c) id status notes (durable c) with
        | inl e => NextError e
        | inr _ => Json 200 (Message "Order status updated successfully")
        end
    end.
Proof.
  unfold idle. intros Hf Hidle. rewrite <- Hidle.
  apply (handler_wp _ (fun r _ => r = _)).
  run_query.
  destruct (select_orders id (view c)) as [| o os];
    [apply wp_respond; reflexivity |].
  unfold transition.
  run_execute.
  destruct (update_order_status _ _ _ _) as [e | d1]; [reflexivity |].
  unfold then_wp at 1.
  run_execute.
  destruct (insert_status_history _ _ _ _ _) as [e | d2]; [reflexivity |].
  unfold then_wp at 1. apply wp_bind.
  destruct (OrderController.is_cancelled status).
  - run_query. apply wp_return_stock_ok.
    + no_fault.
    + simpl. unfold store. simpl. destruct (in_tx c); reflexivity.
    + unfold then_wp at 1. run_commit. apply wp_ret. reflexivity.
  - apply wp_ret. unfold then_wp at 1. run_commit. apply wp_ret.
    reflexivity.
Qed.

(** X6. A status update for an id that names no order writes nothing,
    under any storage failure, and is answered 404 "Order not found"
    whenever the store answers. *)
Theorem updateOrderStatus_missing_order id status notes c :
  idle c ->
  select_orders id (durable c) = [] ->
  durable (snd (OrderController.updateOrderStatus id status notes c))
  = durable c
  /\ is_success (fst (OrderController.updateOrderStatus id status notes c))
     = false
  /\ (fuse c = None ->
      fst (OrderController.updateOrderStatus id status notes c)
      = Json 404 (Message "Order not found")).
Proof.
  intros Hidle Hnone.
  destruct (updateOrderStatus_spec id status notes c Hidle)
    as (_ & _ & _ & [HA | HB]).
  { destruct HA as (_ & Hsome & _). contradiction. }
  destruct HB as (Hfail & [Hsame | (_ & Hsome & _)]); [| contradiction].
  split; [exact Hsame |]. split; [exact Hfail |].
  intros Hf. rewrite (updateOrderStatus_runs _ _ _ _ Hf Hidle), Hnone.
  reflexivity.
Qed.

(** X6 on the sample shop, which has no order yet. *)
Lemma updateOrderStatus_missing_order_witness :
  let c := Sample.connection true None in
  durable (snd (OrderController.updateOrderStatus 1 (Some "shipped") None c))
  = durable c
  /\ is_success
       (fst (OrderController.updateOrderStatus 1 (Some "shipped") None c))
     = false
  /\ (fuse c = None ->
      fst (OrderController.updateOrderStatus 1 (Some "shipped") None c)
      = Json 404 (Message "Order not found")).
Proof.
  intros c.
  apply (updateOrderStatus_missing_order 1 (Some "shipped") None c);
    reflexivity.
Defined.










(** ** Payments *)

(** The response of a payment while the store answers. *)
Lemma processPayment_runs req c :
  fuse c = None ->
  idle c ->
  fst (TransactionController.processPayment req c)
  = match select_orders_of_user (TransactionController.orderId req)
            (TransactionController.userId req) (durable c) with
    | [] => Json 404 (Message "Order not found")
    | order0 :: _ =>
        match select_transactions_of_order
                (TransactionController.orderId req) (durable c) with
        | _ :: _ =>
            Json 400 (Message "Payment already processed for this order")
        | [] =>
            match payment (strict c) req (o_total_amount order0)
                    (next_transaction_id (counters c)) (durable c) with
            | inl e => NextError e
            | inr _ =>
                Json 201 (PaymentProcessed "Payment processed successfully"
                  (OrderController.transactionId_of
                     (TransactionController.transaction_stamp req)))
            end
        end
    end.
Proof.
  unfold idle. intros Hf Hidle. rewrite <- Hidle.
  apply (handler_wp _ (fun r _ => r = _)).
  run_begin. run_query.
  destruct (select_orders_of_user _ _ (view c)) as [| order0 rest];
    [apply wp_respond; reflexivity |].
  run_query.
  destruct (select_transactions_of_order _ (view c)) as [| t0 ts];
    [| apply wp_respond; reflexivity].
  unfold payment. run_insert.
  destruct (insert_transaction _ _ _ _ _ _ _ _ _) as [e | d1];
    [reflexivity |].
  unfold then_wp at 1. run_execute.
  destruct (update_order_status _ _ _ _) as [e | d2]; [reflexivity |].
  unfold then_wp at 1. run_execute.
  destruct (insert_status_history _ _ _ _ _) as [e | d3]; [reflexivity |].
  unfold then_wp at 1. run_commit. apply wp_ret. reflexivity.
Qed.

(** X10. [processPayment] for an order id that is not an order of the
    caller, be it another customer's order or no order at all, writes
    nothing under any storage failure and is answered 404 "Order not
    found" whenever the store answers. *)
Theorem processPayment_foreign_order req c :
  idle c ->
  select_orders_of_user (TransactionController.orderId req)
    (TransactionController.userId req) (durable c) = [] ->
  durable (snd (TransactionController.processPayment req c)) = durable c
  /\ is_success (fst (TransactionController.processPayment req c)) = false
  /\ (fuse c = None ->
      fst (TransactionController.processPayment req c)
      = Json 404 (Message "Order not found")).
Proof.
  intros Hidle Hnone.
  destruct (processPayment_spec req c Hidle) as (_ & _ & _ & [HA | HB]).
  { destruct HA as (_ & (order0 & rest & Hsel & _) & _).
    rewrite Hnone in Hsel. discriminate. }
  destruct HB as (Hfail & Hsame).
  split; [exact Hsame |]. split; [exact Hfail |].
  intros Hf. rewrite (processPayment_runs _ _ Hf Hidle), Hnone.
  reflexivity.
Qed.

(** X10 on the shop with the unpaid order of user 7: user 8 pays for
    it. *)
Lemma processPayment_foreign_order_witness :
  let req :=
    {| TransactionController.userId := 8;
       TransactionController.orderId := 1;
       TransactionController.paymentMethod := "card";
       TransactionController.paymentDetails := None;
       TransactionController.transaction_stamp :=
         {| OrderController.now := 1700000000002;
            OrderController.suffix := 2323 |} |} in
  let c := Imported.connection true None in
  durable (snd (TransactionController.processPayment req c)) = durable c
  /\ is_success (fst (TransactionController.processPayment req c)) = false
  /\ (fuse c = None ->
      fst (TransactionController.processPayment req c)
      = Json 404 (Message "Order not found")).
Proof.
  intros req c. apply (processPayment_foreign_order req c); reflexivity.
Defined.

(** ** Refunds *)

(** The response of a refund while the store answers. *)
Lemma processRefund_runs id amount reason c :
  fuse c = None ->
  idle c ->
  fst (TransactionController.processRefund id amount reason c)
  = match select_transactions id (durable c) with
    | [] => Json 404 (Message "Transaction not found")
    | transaction0 :: _ =>
        if (t_status transaction0 =? "refunded")%string
        then Json 400 (Message "This transaction has already been refunded")
        else
          match refund (strict c) id (t_order_id transaction0) amount
                  reason (durable c) with
          | inl e => NextError e
          | inr _ => Json 200 (Message "Refund processed successfully")
          end
    end.
Proof.
  unfold idle. intros Hf Hidle. rewrite <- Hidle.
  apply (handler_wp _ (fun r _ => r = _)).
  run_begin. run_query.
  destruct (select_transactions id (view c)) as [| t0 rest];
    [apply wp_respond; reflexivity |].
  destruct (t_status t0 =? "refunded")%string;
    [apply wp_respond; reflexivity |].
  unfold refund, refund_note. run_execute.
  destruct (update_transaction_status _ _ _ _) as [e | d1]; [reflexivity |].
  unfold then_wp at 1. run_execute.
  destruct (update_order_status _ _ _ _) as [e | d2]; [reflexivity |].
  unfold then_wp at 1. run_execute.
  destruct (insert_status_history _ _ _ _ _) as [e | d3]; [reflexivity |].
  unfold then_wp at 1. run_query.
  apply wp_bind, wp_return_stock_ok; [no_fault | reflexivity |].
  unfold then_wp at 1. run_commit. apply wp_ret. reflexivity.
Qed.

(** X12. [processRefund] for an id that names no transaction writes
    nothing under any storage failure and is answered 404 "Transaction
    not found" whenever the store answers. *)
Theorem processRefund_missing_transaction id amount reason c :
  idle c ->
  select_transactions id (durable c) = [] ->
  durable (snd (TransactionController.processRefund id amount reason c))
  = durable c
  /\ is_success
       (fst (TransactionController.processRefund id amount reason c))
     = false
  /\ (fuse c = None ->
      fst (TransactionController.processRefund id amount reason c)
      = Json 404 (Message "Transaction not found")).
Proof.
  intros Hidle Hnone.
  destruct (processRefund_spec id amount reason c Hidle)
    as (_ & _ & _ & [HA | HB]).
  { destruct HA as (_ & (t0 & rest & Hsel & _) & _).
    rewrite Hnone in Hsel. discriminate. }
  destruct HB as (Hfail & Hsame).
  split; [exact Hsame |]. split; [exact Hfail |].
  intros Hf. rewrite (processRefund_runs _ _ _ _ Hf Hidle), Hnone.
  reflexivity.
Qed.

(** X12 on the sample shop after the checkout: there is no transaction
    5. *)
Lemma processRefund_missing_transaction_witness :
  let c := Sample.after_checkout true None in
  durable (snd (TransactionController.processRefund 5 None None c))
  = durable c
  /\ is_success (fst (TransactionController.processRefund 5 None None c))
     = false
  /\ (fuse c = None ->
      fst (TransactionController.processRefund 5 None None c)
      = Json 404 (Message "Transaction not found")).
Proof.
  intros c. apply (processRefund_missing_transaction 5 None None c).
  - vm_compute. reflexivity.
  - vm_compute. reflexivity.
Defined.





(** ** The cart handlers on an idle connection *)

Lemma getCart_post_failed userId c r c' :
  is_success r = false ->
  strict c' = strict c ->
  view c' = durable c' ->
  durable c' = durable c ->
  counters_le (counters c) (counters c') ->
  getCart_post userId c r c'.
Proof. unfold getCart_post. intuition. Qed.

Lemma getCart_spec userId c :
  idle c ->
  getCart_post userId c (fst (CartController.getCart userId c))
    (snd (CartController.getCart userId c)).
Proof.
  unfold idle. intros Hidle.
  apply (handler_wp _ (getCart_post userId c)).
  apply wp_bind, wp_beginTransaction.
  { failed getCart_post_failed Hidle. }
  intros f0. unfold then_wp.
  apply wp_bind, wp_query.
  { failed getCart_post_failed Hidle. }
  intros f1. unfold then_wp at 1. simpl view.
  apply wp_bind.
  destruct (select_carts userId (view c)) as [| cart0 rest] eqn:Ecart.
  - apply wp_bind, wp_insert.
    { failed getCart_post_failed Hidle. }
    intros f2. cbv zeta. cbv beta iota. unfold then_wp at 1.
    apply wp_ret. unfold then_wp at 1. simpl view. simpl counters.
    apply wp_bind, wp_query.
    { failed getCart_post_failed Hidle. }
    intros f3. unfold then_wp at 1.
    apply wp_bind, wp_commit.
    { failed getCart_post_failed Hidle. }
    intros f4. unfold then_wp. apply wp_ret. simpl.
    unfold getCart_post. simpl.
    split; [reflexivity |]. split; [reflexivity |].
    split; [unfold counters_le; simpl; lia |].
    left. unfold cart_body, cart_of, with_cart. rewrite <- Hidle, Ecart.
    repeat split.
  - apply wp_ret. unfold then_wp at 1.
    apply wp_bind, wp_query.
    { failed getCart_post_failed Hidle. }
    intros f3. unfold then_wp at 1.
    apply wp_bind, wp_commit.
    { failed getCart_post_failed Hidle. }
    intros f4. unfold then_wp. apply wp_ret. simpl.
    unfold getCart_post. simpl.
    split; [reflexivity |]. split; [reflexivity |].
    split; [unfold counters_le; simpl; lia |].
    left. unfold cart_body, cart_of, with_cart. rewrite <- Hidle, Ecart.
    repeat split.
Qed.

Lemma cart_of_existing user n m d :
  select_carts user d <> [] -> cart_of user n d = cart_of user m d.
Proof.
  unfold cart_of. destruct (select_carts user d); [contradiction |].
  reflexivity.
Qed.

Lemma with_cart_existing user n d :
  select_carts user d <> [] -> with_cart user n d = d.
Proof.
  unfold with_cart. destruct (select_carts user d); [contradiction |].
  reflexivity.
Qed.

(** [getCart] as the last step of another cart handler, for a user who
    has a cart: it writes nothing, and sends the cart unless the store
    fails. *)
Lemma getCart_existing userId n y :
  idle y ->
  select_carts userId (durable y) <> [] ->
  strict (snd (CartController.getCart userId y)) = strict y
  /\ view (snd (CartController.getCart userId y))
     = durable (snd (CartController.getCart userId y))
  /\ counters_le (counters y)
       (counters (snd (CartController.getCart userId y)))
  /\ durable (snd (CartController.getCart userId y)) = durable y
  /\ (fst (CartController.getCart userId y)
      = Json 200 (cart_body (cart_of userId n (durable y)) (durable y))
      \/ is_success (fst (CartController.getCart userId y)) = false).
Proof.
  intros Hidle Hcart.
  destruct (getCart_spec userId y Hidle) as (Hs & Hv & Hn & [HA | HB]).
  - destruct HA as (Hr & Hd & _).
    rewrite (with_cart_existing _ _ _ Hcart) in Hd.
    split; [exact Hs |]. split; [exact Hv |]. split; [exact Hn |].
    split; [exact Hd |].
    left. rewrite Hr, Hd.
    rewrite (cart_of_existing _ _ n _ Hcart). reflexivity.
  - destruct HB as (Hfail & Hd).
    split; [exact Hs |]. split; [exact Hv |]. split; [exact Hn |].
    split; [exact Hd |].
    right. exact Hfail.
Qed.

Lemma select_cart_items_of_user_cart id user d :
  select_cart_items_of_user id user d <> [] -> select_carts user d <> [].
Proof.
  unfold select_cart_items_of_user, select_carts. intros H Hnone.
  apply H. clear H.
  induction (filter (fun i => ci_id i =? id) (cart_items d))
    as [| i l IH]; simpl; [reflexivity |].
  rewrite IH, app_nil_r.
  assert (Hk : filter (fun k => (c_id k =? ci_cart_id i)
                                && (c_user_id k =? user)) (carts d) = []).
  { clear IH. induction (carts d) as [| k ks IHk]; simpl in *;
      [reflexivity |].
    destruct (c_user_id k =? user); [discriminate |].
    rewrite andb_false_r. apply IHk, Hnone. }
  rewrite Hk. reflexivity.
Qed.

Lemma select_cart_item_stock_cart id user d :
  select_cart_item_stock id user d <> [] ->
  select_cart_items_of_user id user d <> [].
Proof.
  unfold select_cart_item_stock. intros H Hnone. apply H.
  rewrite Hnone. reflexivity.
Qed.

Lemma clearCart_post_failed userId c r c' :
  is_success r = false ->
  strict c' = strict c ->
  view c' = durable c' ->
  durable c' = durable c ->
  counters c' = counters c ->
  clearCart_post userId c r c'.
Proof. unfold clearCart_post. intuition. Qed.

Lemma clearCart_spec userId c :
  idle c ->
  clearCart_post userId c (fst (CartController.clearCart userId c))
    (snd (CartController.clearCart userId c)).
Proof.
  unfold idle. intros Hidle.
  apply (handler_wp _ (clearCart_post userId c)).
  apply wp_bind, wp_beginTransaction.
  { failed clearCart_post_failed Hidle. }
  intros f0. unfold then_wp.
  apply wp_bind, wp_query.
  { failed clearCart_post_failed Hidle. }
  intros f1. unfold then_wp at 1. simpl view.
  destruct (select_carts userId (view c)) as [| cart0 rest] eqn:Ecart.
  - apply wp_respond. simpl. unfold clearCart_post. simpl.
    rewrite <- Hidle, Ecart. repeat split. right. left. repeat split.
  - cbv zeta. apply wp_bind, wp_execute.
    { failed clearCart_post_failed Hidle. }
    intros f2. cbv beta iota. unfold then_wp at 1.
    apply wp_bind, wp_commit.
    { failed clearCart_post_failed Hidle. }
    intros f3. unfold then_wp. apply wp_ret. simpl.
    unfold clearCart_post, clear_cart. simpl. rewrite <- Hidle, Ecart.
    repeat split. left. repeat split. discriminate.
Qed.

Lemma removeFromCart_post_failed userId itemId c r c' :
  is_success r = false ->
  strict c' = strict c ->
  view c' = durable c' ->
  durable c' = durable c ->
  counters_le (counters c) (counters c') ->
  removeFromCart_post userId itemId c r c'.
Proof. unfold removeFromCart_post. intuition. Qed.

Lemma removeFromCart_spec userId itemId c :
  idle c ->
  removeFromCart_post userId itemId c
    (fst (CartController.removeFromCart userId itemId c))
    (snd (CartController.removeFromCart userId itemId c)).
Proof.
  unfold idle. intros Hidle.
  apply (handler_wp _ (removeFromCart_post userId itemId c)).
  apply wp_bind, wp_beginTransaction.
  { failed removeFromCart_post_failed Hidle. }
  intros f0. unfold then_wp.
  apply wp_bind, wp_query.
  { failed removeFromCart_post_failed Hidle. }
  intros f1. unfold then_wp at 1. simpl view.
  destruct (select_cart_items_of_user itemId userId (view c))
    as [| item0 rest] eqn:Eitem.
  { apply wp_respond. failed removeFromCart_post_failed Hidle. }
  apply wp_bind, wp_execute.
  { failed removeFromCart_post_failed Hidle. }
  intros f2. cbv beta iota. unfold then_wp at 1.
  apply wp_bind, wp_commit.
  { failed removeFromCart_post_failed Hidle. }
  intros f3. unfold then_wp. apply wp_call.
  match goal with
  | |- context [CartController.getCart userId ?y] => set (y0 := y)
  end.
  assert (Hcart : select_carts userId (view c) <> []).
  { apply (select_cart_items_of_user_cart itemId). rewrite Eitem.
    discriminate. }
  destruct (getCart_existing userId (next_cart_id (counters c)) y0)
    as (Hs & Hv & Hn & Hd & Hr).
  { reflexivity. }
  { exact Hcart. }
  simpl. unfold removeFromCart_post.
  rewrite Hs, Hv, Hd. simpl.
  split; [reflexivity |]. split; [reflexivity |]. split; [exact Hn |].
  left. rewrite <- Hidle, Eitem. split; [discriminate |].
  split; [reflexivity |].
  destruct Hr as [Hr | Hr]; [left | right; exact Hr].
  rewrite Hr. reflexivity.
Qed.

Lemma updateCartItem_post_failed userId itemId quantity c r c' :
  is_success r = false ->
  strict c' = strict c ->
  view c' = durable c' ->
  durable c' = durable c ->
  counters_le (counters c) (counters c') ->
  updateCartItem_post userId itemId quantity c r c'.
Proof. unfold updateCartItem_post. intuition. Qed.

Lemma updateCartItem_spec userId itemId quantity c :
  idle c ->
  updateCartItem_post userId itemId quantity c
    (fst (CartController.updateCartItem userId itemId quantity c))
    (snd (CartController.updateCartItem userId itemId quantity c)).
Proof.
  unfold idle. intros Hidle.
  apply (handler_wp _ (updateCartItem_post userId itemId quantity c)).
  apply wp_bind, wp_beginTransaction.
  { failed updateCartItem_post_failed Hidle. }
  intros f0. unfold then_wp.
  destruct quantity as [q |].
  2:{ apply wp_respond. failed updateCartItem_post_failed Hidle. }
  destruct (q <? 0) eqn:Eneg.
  { apply wp_respond. failed updateCartItem_post_failed Hidle. }
  apply wp_bind, wp_query.
  { failed updateCartItem_post_failed Hidle. }
  intros f1. unfold then_wp at 1. simpl view.
  destruct (select_cart_item_stock itemId userId (view c))
    as [| cartItem rest] eqn:Eitem.
  { apply wp_respond. failed updateCartItem_post_failed Hidle. }
  assert (Hcart : select_carts userId (view c) <> []).
  { apply (select_cart_items_of_user_cart itemId).
    apply select_cart_item_stock_cart. rewrite Eitem. discriminate. }
  assert (Htail : forall f x,
    strict x = strict c -> in_tx x = true -> durable x = durable c ->
    counters x = counters c ->
    view x = change_item itemId q (view c) ->
    (q <> 0 -> q <= p_stock (snd cartItem)) ->
    then_wp (fun _ : unit =>
               commit ;; call (CartController.getCart userId))
      (handled (updateCartItem_post userId itemId (Some q) c)) (Val tt)
      (with_fuse f x)).
  { intros f x Hs Ht Hd Hn Hv Hq. unfold then_wp.
    apply wp_bind, wp_commit.
    { simpl; apply updateCartItem_post_failed; simpl; rewrite ?Hs, ?Hd, ?Hn;
        solve [reflexivity | unfold counters_le; simpl; lia]. }
    intros f3. unfold then_wp. apply wp_call.
    match goal with
    | |- context [CartController.getCart userId ?y] => set (y0 := y)
    end.
    assert (Hcart' : select_carts userId (durable y0) <> []).
    { unfold y0. simpl. rewrite Hv. unfold change_item.
      destruct (q =? 0); exact Hcart. }
    destruct (getCart_existing userId (next_cart_id (counters c)) y0)
      as (Hs' & Hv' & Hn' & Hd' & Hr).
    { reflexivity. }
    { exact Hcart'. }
    simpl. unfold updateCartItem_post.
    rewrite Hs', Hv', Hd'. simpl. rewrite Hs, Hv.
    split; [reflexivity |]. split; [reflexivity |].
    split; [simpl in Hn'; rewrite Hn in Hn'; exact Hn' |].
    left. exists q, cartItem, rest. rewrite <- Hidle.
    split; [reflexivity |]. split; [apply Z.ltb_ge; exact Eneg |].
    split; [exact Eitem |]. split; [exact Hq |].
    split; [reflexivity |].
    destruct Hr as [Hr | Hr]; [left | right; exact Hr].
    rewrite Hr. simpl durable. rewrite Hv. unfold change_item.
    destruct (q =? 0); reflexivity. }
  apply wp_bind.
  destruct (q =? 0) eqn:Ezero.
  - apply wp_execute.
    { failed updateCartItem_post_failed Hidle. }
    intros f2. cbv beta iota. simpl view.
    change (store ?d (with_fuse ?f ?x)) with (with_fuse f (store d x)).
    apply Htail; simpl; try reflexivity.
    + exact Hidle.
    + unfold change_item. rewrite Ezero. reflexivity.
    + apply Z.eqb_eq in Ezero. intros Hq. contradiction.
  - destruct (p_stock (snd cartItem) <? q) eqn:Estock.
    { apply wp_respond. failed updateCartItem_post_failed Hidle. }
    apply wp_execute.
    { failed updateCartItem_post_failed Hidle. }
    intros f2. cbv beta iota. simpl view.
    change (store ?d (with_fuse ?f ?x)) with (with_fuse f (store d x)).
    apply Htail; simpl; try reflexivity.
    + exact Hidle.
    + unfold change_item. rewrite Ezero. reflexivity.
    + intros _. apply Z.ltb_ge. exact Estock.
Qed.

Lemma select_carts_inserted user next d :
  select_carts user d = [] ->
  select_carts user (insert_cart next user d)
  = [{| c_id := next; c_user_id := user |}].
Proof.
  unfold select_carts. simpl. intros H.
  rewrite filter_app, H. simpl. rewrite Z.eqb_refl. reflexivity.
Qed.

Lemma add_item_carts req n m d :
  carts (add_item req n m d)
  = carts (with_cart (CartController.userId req) n d).
Proof.
  unfold add_item. cbv zeta.
  destruct (select_cart_items _ _ _); reflexivity.
Qed.

Lemma with_cart_has_cart user n d :
  select_carts user (with_cart user n d) <> [].
Proof.
  unfold with_cart. destruct (select_carts user d) eqn:E.
  - rewrite (select_carts_inserted _ _ _ E). discriminate.
  - rewrite E. discriminate.
Qed.

Lemma cart_of_with_cart user n d :
  cart_of user n (with_cart user n d) = cart_of user n d.
Proof.
  unfold cart_of, with_cart. destruct (select_carts user d) eqn:E.
  - rewrite (select_carts_inserted _ _ _ E). reflexivity.
  - rewrite E. reflexivity.
Qed.

Lemma add_item_has_cart req n m d :
  select_carts (CartController.userId req) (add_item req n m d) <> [].
Proof.
  unfold select_carts. rewrite add_item_carts.
  apply with_cart_has_cart.
Qed.

Lemma cart_of_add_item req n m d :
  cart_of (CartController.userId req) n (add_item req n m d)
  = cart_of (CartController.userId req) n d.
Proof.
  rewrite <- (cart_of_with_cart _ n d).
  unfold cart_of, select_carts. rewrite add_item_carts. reflexivity.
Qed.

Lemma addToCart_post_failed req c r c' :
  is_success r = false ->
  strict c' = strict c ->
  view c' = durable c' ->
  durable c' = durable c ->
  counters_le (counters c) (counters c') ->
  addToCart_post req c r c'.
Proof. unfold addToCart_post. intuition. Qed.

Lemma addToCart_spec req c :
  idle c ->
  fresh c ->
  addToCart_post req c (fst (CartController.addToCart req c))
    (snd (CartController.addToCart req c)).
Proof.
  unfold idle, fresh. intros Hidle Hfresh. rewrite <- Hidle in Hfresh.
  apply (handler_wp _ (addToCart_post req c)).
  apply wp_bind, wp_beginTransaction.
  { failed addToCart_post_failed Hidle. }
  intros f0. unfold then_wp. cbv zeta.
  destruct ((CartController.productId req =? 0)
            || (CartController.requested req <? 1)) eqn:Evalid.
  { apply wp_respond. failed addToCart_post_failed Hidle. }
  apply orb_false_iff in Evalid. destruct Evalid as (Epid & Eq).
  apply Z.eqb_neq in Epid. apply Z.ltb_ge in Eq.
  apply wp_bind, wp_query.
  { failed addToCart_post_failed Hidle. }
  intros f1. unfold then_wp at 1. simpl view.
  destruct (select_products _ (view c)) as [| product rest] eqn:Eprod.
  { apply wp_respond. failed addToCart_post_failed Hidle. }
  destruct (p_stock product <? CartController.requested req) eqn:Estock.
  { apply wp_respond. failed addToCart_post_failed Hidle. }
  apply Z.ltb_ge in Estock.
  apply wp_bind, wp_query.
  { failed addToCart_post_failed Hidle. }
  intros f2. unfold then_wp at 1. simpl view.
  assert (Htail : forall f x,
    strict x = strict c -> in_tx x = true -> durable x = durable c ->
    counters_le (counters c) (counters x) ->
    view x = add_item req (next_cart_id (counters c))
               (next_cart_item_id (counters c)) (view c) ->
    in_cart req (view c) + CartController.requested req
    <= p_stock product ->
    then_wp (fun _ : unit =>
               commit ;;
               call (CartController.getCart (CartController.userId req)))
      (handled (addToCart_post req c)) (Val tt) (with_fuse f x)).
  { intros f x Hs Ht Hd Hn Hv Hq. unfold then_wp.
    apply wp_bind, wp_commit.
    { simpl; apply addToCart_post_failed; simpl; rewrite ?Hs, ?Hd;
        solve [reflexivity | exact Hn]. }
    intros f3. unfold then_wp. apply wp_call.
    match goal with
    | |- context [CartController.getCart _ ?y] => set (y0 := y)
    end.
    assert (Hcart' :
      select_carts (CartController.userId req) (durable y0) <> []).
    { unfold y0. simpl. rewrite Hv. apply add_item_has_cart. }
    destruct (getCart_existing (CartController.userId req)
                (next_cart_id (counters c)) y0)
      as (Hs' & Hv' & Hn' & Hd' & Hr).
    { reflexivity. }
    { exact Hcart'. }
    simpl. unfold addToCart_post.
    rewrite Hs', Hv', Hd'. simpl. rewrite Hs, Hv.
    split; [reflexivity |]. split; [reflexivity |].
    split. { simpl in Hn'. unfold counters_le in *. lia. }
    left. rewrite <- Hidle.
    split; [exact Epid |]. split; [exact Eq |].
    split. { exists product, rest. auto. }
    split; [reflexivity |].
    destruct Hr as [Hr | Hr]; [left | right; exact Hr].
    rewrite Hr. simpl durable. rewrite Hv, cart_of_add_item.
    reflexivity. }
  apply wp_bind.
  destruct (select_carts (CartController.userId req) (view c))
    as [| cart0 others] eqn:Ecart.
  - apply wp_bind, wp_insert.
    { failed addToCart_post_failed Hidle. }
    intros f3. cbv zeta. cbv beta iota. unfold then_wp at 1.
    apply wp_ret. unfold then_wp at 1. simpl c_id.
    apply wp_bind, wp_query.
    { failed addToCart_post_failed Hidle. }
    intros f4. unfold then_wp at 1. simpl view.
    rewrite (fresh_no_cart_items _ _ _ _ _ Hfresh).
    apply wp_bind, wp_bind, wp_insert.
    { failed addToCart_post_failed Hidle. }
    intros f5. cbv zeta. cbv beta iota. unfold then_wp at 1.
    apply wp_ret. simpl view. simpl counters.
    change (store ?d (with_counters ?n (with_fuse ?f ?x)))
      with (with_fuse f (store d (with_counters n x))).
    apply Htail; simpl; try reflexivity.
    + exact Hidle.
    + unfold counters_le. simpl. lia.
    + unfold add_item, cart_of, with_cart. rewrite Ecart. simpl c_id.
      rewrite (fresh_no_cart_items _ _ _ _ _ Hfresh). reflexivity.
    + unfold in_cart. rewrite Ecart. lia.
  - apply wp_ret. unfold then_wp at 1.
    apply wp_bind, wp_query.
    { failed addToCart_post_failed Hidle. }
    intros f4. unfold then_wp at 1. simpl view.
    destruct (select_cart_items (c_id cart0) (CartController.productId req)
                (view c)) as [| existing0 more] eqn:Eitem.
    + apply wp_bind, wp_bind, wp_insert.
      { failed addToCart_post_failed Hidle. }
      intros f5. cbv zeta. cbv beta iota. unfold then_wp at 1.
      apply wp_ret. simpl view. simpl counters.
      change (store ?d (with_counters ?n (with_fuse ?f ?x)))
        with (with_fuse f (store d (with_counters n x))).
      apply Htail; simpl; try reflexivity.
      * exact Hidle.
      * unfold counters_le. simpl. lia.
      * unfold add_item, cart_of, with_cart. rewrite Ecart, Eitem.
        reflexivity.
      * unfold in_cart. rewrite Ecart, Eitem. lia.
    + destruct (p_stock product
                <? ci_quantity existing0 + CartController.requested req)
        eqn:Emore.
      { apply wp_bind, wp_respond. failed addToCart_post_failed Hidle. }
      apply Z.ltb_ge in Emore.
      apply wp_bind, wp_execute.
      { failed addToCart_post_failed Hidle. }
      intros f5. cbv beta iota. simpl view.
      change (store ?d (with_fuse ?f ?x)) with (with_fuse f (store d x)).
      apply Htail; simpl; try reflexivity.
      * exact Hidle.
      * apply counters_le_refl.
      * unfold add_item, cart_of, with_cart. rewrite Ecart, Eitem.
        reflexivity.
      * unfold in_cart. rewrite Ecart, Eitem. exact Emore.
Qed.

(** The response of [getCart] while the store answers. *)
Lemma getCart_runs userId c :
  fuse c = None ->
  idle c ->
  fst (CartController.getCart userId c)
  = Json 200
      (cart_body (cart_of userId (next_cart_id (counters c)) (durable c))
         (with_cart userId (next_cart_id (counters c)) (durable c))).
Proof.
  unfold idle. intros Hf Hidle. rewrite <- Hidle.
  apply (handler_wp _ (fun r _ => r = _)).
  run_begin. run_query. apply wp_bind.
  unfold cart_body, cart_of, with_cart.
  destruct (select_carts userId (view c)) as [| cart0 rest].
  - run_insert. unfold then_wp at 1. apply wp_ret. unfold then_wp at 1.
    run_query. run_commit. apply wp_ret. reflexivity.
  - apply wp_ret. unfold then_wp at 1.
    run_query. run_commit. apply wp_ret. reflexivity.
Qed.

Lemma fresh_no_cart_lines n id user d :
  fresh_ids n d ->
  select_cart_lines (next_cart_id n) (insert_cart id user d) = [].
Proof.
  intros (_ & _ & _ & _ & _ & Hci). unfold select_cart_lines. simpl.
  rewrite (filter_none _ _ _ Hci); [reflexivity |].
  intros i (Hi & _). apply Z.eqb_neq. lia.
Qed.

(** ** The cart *)

(** X14. While the store answers, [getCart] for a user who has no cart
    creates the cart and sends it empty, with total 0 and item count 0.
    Called again it creates nothing more, whatever storage failures
    occur, and sends the same empty cart when the store answers. *)
Theorem getCart_first_visit userId c :
  fuse c = None ->
  idle c ->
  fresh c ->
  select_carts userId (durable c) = [] ->
  fst (CartController.getCart userId c)
  = Json 200 (CartData (next_cart_id (counters c)) userId [] 0 0)
  /\ durable (snd (CartController.getCart userId c))
     = insert_cart (next_cart_id (counters c)) userId (durable c)
  /\ (forall f,
        durable
          (snd (CartController.getCart userId
                  (with_fuse f (snd (CartController.getCart userId c)))))
        = durable (snd (CartController.getCart userId c)))
  /\ fst (CartController.getCart userId
            (with_fuse None (snd (CartController.getCart userId c))))
     = Json 200 (CartData (next_cart_id (counters c)) userId [] 0 0).
Proof.
  intros Hf Hidle Hfresh Hnone.
  pose proof (getCart_runs userId c Hf Hidle) as Hrun.
  unfold cart_body, cart_of, with_cart in Hrun. rewrite Hnone in Hrun.
  simpl c_id in Hrun. simpl c_user_id in Hrun.
  rewrite (fresh_no_cart_lines _ _ _ _ Hfresh) in Hrun.
  split; [exact Hrun |].
  destruct (getCart_spec userId c Hidle) as (_ & Hv & _ & [HA | HB]).
  2:{ destruct HB as (Hfail & _). rewrite Hrun in Hfail. discriminate. }
  destruct HA as (_ & Hd & _).
  unfold with_cart in Hd. rewrite Hnone in Hd.
  split; [exact Hd |].
  assert (Hcart : select_carts userId
                    (durable (snd (CartController.getCart userId c)))
                  <> []).
  { rewrite Hd, (select_carts_inserted _ _ _ Hnone). discriminate. }
  split.
  - intros f.
    destruct (getCart_existing userId 0
                (with_fuse f (snd (CartController.getCart userId c))))
      as (_ & _ & _ & Hd' & _); [exact Hv | exact Hcart |].
    exact Hd'.
  - rewrite getCart_runs; [| reflexivity | exact Hv].
    simpl durable. unfold cart_body.
    rewrite (with_cart_existing _ _ _ Hcart).
    unfold cart_of. rewrite Hd, (select_carts_inserted _ _ _ Hnone).
    simpl c_id. simpl c_user_id.
    rewrite (fresh_no_cart_lines _ _ _ _ Hfresh). reflexivity.
Qed.

(** X14 on the sample shop: user 8, who has no cart. *)
Lemma getCart_first_visit_witness :
  let c := Sample.connection true None in
  fst (CartController.getCart 8 c)
  = Json 200 (CartData (next_cart_id (counters c)) 8 [] 0 0)
  /\ durable (snd (CartController.getCart 8 c))
     = insert_cart (next_cart_id (counters c)) 8 (durable c)
  /\ (forall f,
        durable
          (snd (CartController.getCart 8
                  (with_fuse f (snd (CartController.getCart 8 c)))))
        = durable (snd (CartController.getCart 8 c)))
  /\ fst (CartController.getCart 8
            (with_fuse None (snd (CartController.getCart 8 c))))
     = Json 200 (CartData (next_cart_id (counters c)) 8 [] 0 0).
Proof.
  intros c. apply (getCart_first_visit 8 c).
  - reflexivity.
  - reflexivity.
  - apply sample_fresh.
  - reflexivity.
Defined.

Lemma select_cart_items_updated cart_id product_id quantity e0 more l :
  filter (fun i => (ci_cart_id i =? cart_id)
                   && (ci_product_id i =? product_id)) l = e0 :: more ->
  exists more',
    filter (fun i => (ci_cart_id i =? cart_id)
                     && (ci_product_id i =? product_id))
      (map (fun i => if ci_id i =? ci_id e0
                     then set_ci_quantity quantity i else i) l)
    = set_ci_quantity quantity e0 :: more'.
Proof.
  induction l as [| x xs IH]; simpl; [discriminate |].
  destruct ((ci_cart_id x =? cart_id) && (ci_product_id x =? product_id))
    eqn:E.
  - intros H. injection H as -> _. rewrite Z.eqb_refl. simpl.
    rewrite E. eexists. reflexivity.
  - intros H. destruct (IH H) as [more' Hm].
    destruct (ci_id x =? ci_id e0); simpl; rewrite E; eexists; exact Hm.
Qed.

Lemma in_cart_add_item req n m d :
  fresh_ids n d ->
  in_cart req (add_item req (next_cart_id n) m d)
  = in_cart req d + CartController.requested req.
Proof.
  intros Hfresh. unfold in_cart, add_item, cart_of, with_cart.
  destruct (select_carts (CartController.userId req) d)
    as [| cart0 others] eqn:Ecart.
  - simpl c_id. rewrite (fresh_no_cart_items _ _ _ _ _ Hfresh).
    unfold select_carts, select_cart_items in *. simpl.
    rewrite filter_app, Ecart. simpl. rewrite Z.eqb_refl. simpl.
    destruct Hfresh as (_ & _ & _ & _ & _ & Hci).
    rewrite filter_app, (filter_none _ _ _ Hci).
    2:{ intros i (Hi & _). apply andb_false_iff. left.
        apply Z.eqb_neq. lia. }
    simpl. rewrite !Z.eqb_refl. reflexivity.
  - destruct (select_cart_items (c_id cart0) (CartController.productId req)
                d) as [| e0 more] eqn:Eitem.
    + unfold select_carts, select_cart_items in *. simpl.
      rewrite Ecart, filter_app, Eitem. simpl. rewrite !Z.eqb_refl.
      reflexivity.
    + unfold select_carts, select_cart_items in *. simpl. rewrite Ecart.
      destruct (select_cart_items_updated _ _
                  (ci_quantity e0 + CartController.requested req) _ _ _
                  Eitem) as [more' Hm].
      rewrite Hm. reflexivity.
Qed.

(** X15. For a request whose quantity is an integer or absent: when
    [addToCart] sends the cart (status 200), the quantity of the product
    in the caller's cart has grown by exactly the requested quantity,
    which is at least 1, and does not exceed the product's stock; an
    absent quantity counts as 1. *)
Theorem addToCart_adds_within_stock req c :
  idle c ->
  fresh c ->
  is_success (fst (CartController.addToCart req c)) = true ->
  1 <= CartController.requested req
  /\ in_cart req (durable (snd (CartController.addToCart req c)))
     = in_cart req (durable c) + CartController.requested req
  /\ exists product rest,
       select_products (CartController.productId req) (durable c)
       = product :: rest
       /\ in_cart req (durable (snd (CartController.addToCart req c)))
          <= p_stock product.
Proof.
  intros Hidle Hfresh Hok.
  destruct (addToCart_spec req c Hidle Hfresh) as (_ & _ & _ & [HA | HB]).
  2:{ destruct HB as (Hfail & _). rewrite Hok in Hfail. discriminate. }
  destruct HA as (_ & Hq & (product & rest & Hsel & _ & Hstock) & Hd & _).
  split; [exact Hq |]. rewrite Hd.
  rewrite (in_cart_add_item _ _ _ _ Hfresh).
  split; [reflexivity |].
  exists product, rest. auto.
Qed.

(** X15 on the sample shop: user 7, whose cart holds two dark bars, adds
    three more while five are in stock. *)
Lemma addToCart_adds_within_stock_witness :
  let req :=
    {| CartController.userId := 7; CartController.productId := 1;
       CartController.quantity := Some 3 |} in
  let c := Sample.connection true None in
  1 <= CartController.requested req
  /\ in_cart req (durable (snd (CartController.addToCart req c)))
     = in_cart req (durable c) + CartController.requested req
  /\ exists product rest,
       select_products (CartController.productId req) (durable c)
       = product :: rest
       /\ in_cart req (durable (snd (CartController.addToCart req c)))
          <= p_stock product.
Proof.
  intros req c. apply (addToCart_adds_within_stock req c).
  - reflexivity.
  - apply sample_fresh.
  - vm_compute. reflexivity.
Defined.

(** X16. For a request whose quantity is an integer or absent: when
    [updateCartItem] sends the cart (status 200), the request named a
    quantity of at least 0 and the item is one of the caller's cart.  For
    the quantity 0 the rows with the item's id are deleted from the cart
    items; for any other quantity, which then does not exceed the
    product's stock, their quantity is set to it.  No other table is
    written. *)
Theorem updateCartItem_sets_quantity userId itemId quantity c :
  idle c ->
  is_success (fst (CartController.updateCartItem userId itemId quantity c))
  = true ->
  exists q cartItem rest,
    quantity = Some q
    /\ 0 <= q
    /\ select_cart_item_stock itemId userId (durable c) = cartItem :: rest
    /\ (q <> 0 -> q <= p_stock (snd cartItem))
    /\ cart_items
         (durable (snd (CartController.updateCartItem userId itemId
                          quantity c)))
       = (if q =? 0
          then filter (fun i => negb (ci_id i =? itemId))
                 (cart_items (durable c))
          else map (fun i => if ci_id i =? itemId
                             then set_ci_quantity q i else i)
                 (cart_items (durable c)))
    /\ with_cart_items (cart_items (durable c))
         (durable (snd (CartController.updateCartItem userId itemId
                          quantity c)))
       = durable c.
Proof.
  intros Hidle Hok.
  destruct (updateCartItem_spec userId itemId quantity c Hidle)
    as (_ & _ & _ & [HA | HB]).
  2:{ destruct HB as (Hfail & _). rewrite Hok in Hfail. discriminate. }
  destruct HA as (q & cartItem & rest & Hq & Hpos & Hsel & Hstock & Hd & _).
  exists q, cartItem, rest. rewrite Hd. unfold change_item.
  repeat (split; [assumption |]).
  destruct (q =? 0); split; try reflexivity; destruct (durable c);
    reflexivity.
Qed.

(** X16 on the sample shop: user 7 sets the two dark bars of the cart to
    five. *)
Lemma updateCartItem_sets_quantity_witness :
  let c := Sample.connection true None in
  exists q cartItem rest,
    Some 5 = Some q
    /\ 0 <= q
    /\ select_cart_item_stock 1 7 (durable c) = cartItem :: rest
    /\ (q <> 0 -> q <= p_stock (snd cartItem))
    /\ cart_items
         (durable (snd (CartController.updateCartItem 7 1 (Some 5) c)))
       = (if q =? 0
          then filter (fun i => negb (ci_id i =? 1))
                 (cart_items (durable c))
          else map (fun i => if ci_id i =? 1
                             then set_ci_quantity q i else i)
                 (cart_items (durable c)))
    /\ with_cart_items (cart_items (durable c))
         (durable (snd (CartController.updateCartItem 7 1 (Some 5) c)))
       = durable c.
Proof.
  intros c. apply (updateCartItem_sets_quantity 7 1 (Some 5) c).
  - reflexivity.
  - vm_compute. reflexivity.
Defined.

(** The answer to a change of a cart item that is not in a cart of the
    caller, while the store answers. *)
Lemma cart_item_not_found userId itemId c :
  fuse c = None ->
  select_cart_items_of_user itemId userId (view c) = [] ->
  (forall q, 0 <= q ->
     fst (CartController.updateCartItem userId itemId (Some q) c)
     = Json 404 (Message "Cart item not found"))
  /\ fst (CartController.removeFromCart userId itemId c)
     = Json 404 (Message "Cart item not found").
Proof.
  intros Hf Hnone. split.
  - intros q Hq. apply (handler_wp _ (fun r _ => r = _)).
    run_begin. apply Z.ltb_ge in Hq. rewrite Hq.
    run_query. unfold select_cart_item_stock. rewrite Hnone.
    apply wp_respond. reflexivity.
  - apply (handler_wp _ (fun r _ => r = _)).
    run_begin. run_query. rewrite Hnone. apply wp_respond. reflexivity.
Qed.

(** X17. [updateCartItem] and [removeFromCart] touch only items of the
    caller's own cart: for an item id that is not an item of a cart of
    the caller, be it an item of another customer's cart or no item at
    all, both write nothing under any storage failure, and both are
    answered 404 "Cart item not found" whenever the store answers (for
    [updateCartItem], when the quantity is present and not negative). *)
Theorem cart_item_of_another_user userId itemId quantity c :
  idle c ->
  select_cart_items_of_user itemId userId (durable c) = [] ->
  (durable (snd (CartController.updateCartItem userId itemId quantity c))
   = durable c
   /\ is_success
        (fst (CartController.updateCartItem userId itemId quantity c))
      = false)
  /\ (durable (snd (CartController.removeFromCart userId itemId c))
      = durable c
      /\ is_success (fst (CartController.removeFromCart userId itemId c))
         = false)
  /\ (fuse c = None ->
      (forall q, 0 <= q ->
         fst (CartController.updateCartItem userId itemId (Some q) c)
         = Json 404 (Message "Cart item not found"))
      /\ fst (CartController.removeFromCart userId itemId c)
         = Json 404 (Message "Cart item not found")).
Proof.
  intros Hidle Hnone. split; [| split].
  - destruct (updateCartItem_spec userId itemId quantity c Hidle)
      as (_ & _ & _ & [HA | HB]).
    + destruct HA as (q & cartItem & rest & _ & _ & Hsel & _).
      exfalso. apply (select_cart_item_stock_cart itemId userId (durable c));
        [rewrite Hsel; discriminate | exact Hnone].
    + destruct HB as (Hfail & Hd). auto.
  - destruct (removeFromCart_spec userId itemId c Hidle)
      as (_ & _ & _ & [HA | HB]).
    + destruct HA as (Hsome & _). contradiction.
    + destruct HB as (Hfail & Hd). auto.
  - intros Hf. apply cart_item_not_found; [exact Hf |].
    unfold idle in Hidle. rewrite Hidle. exact Hnone.
Qed.

(** X17 on the sample shop: user 8 names item 1, which is in the cart of
    user 7. *)
Lemma cart_item_of_another_user_witness :
  let c := Sample.connection true None in
  (durable (snd (CartController.updateCartItem 8 1 (Some 1) c))
   = durable c
   /\ is_success (fst (CartController.updateCartItem 8 1 (Some 1) c))
      = false)
  /\ (durable (snd (CartController.removeFromCart 8 1 c)) = durable c
      /\ is_success (fst (CartController.removeFromCart 8 1 c)) = false)
  /\ (fuse c = None ->
      (forall q, 0 <= q ->
         fst (CartController.updateCartItem 8 1 (Some q) c)
         = Json 404 (Message "Cart item not found"))
      /\ fst (CartController.removeFromCart 8 1 c)
         = Json 404 (Message "Cart item not found")).
Proof.
  intros c. apply (cart_item_of_another_user 8 1 (Some 1) c); reflexivity.
Defined.

(** The response of [clearCart] while the store answers. *)
Lemma clearCart_runs userId c :
  fuse c = None ->
  idle c ->
  fst (CartController.clearCart userId c)
  = match select_carts userId (durable c) with
    | [] => Json 200 (Message "Cart is already empty")
    | _ :: _ => Json 200 (Message "Cart cleared successfully")
    end.
Proof.
  unfold idle. intros Hf Hidle. rewrite <- Hidle.
  apply (handler_wp _ (fun r _ => r = _)).
  run_begin. run_query.
  destruct (select_carts userId (view c)) as [| cart0 rest];
    [apply wp_respond; reflexivity |].
  cbv zeta. run_execute. unfold then_wp at 1. run_commit.
  apply wp_ret. reflexivity.
Qed.

(** X18. While the store answers, [clearCart] is answered 200 in every
    case: "Cart is already empty" when the caller has no cart, and then
    nothing is written, "Cart cleared successfully" otherwise, and then
    the items of the caller's cart are deleted.  The items of other carts
    and the rows of every other table are as they were; under a storage
    failure the rows are as they were or as after the clearing. *)
Theorem clearCart_clears_own_cart userId c :
  idle c ->
  (durable (snd (CartController.clearCart userId c)) = durable c
   \/ durable (snd (CartController.clearCart userId c))
      = clear_cart userId (durable c))
  /\ (fuse c = None ->
      durable (snd (CartController.clearCart userId c))
      = clear_cart userId (durable c)
      /\ (select_carts userId (durable c) = [] ->
          fst (CartController.clearCart userId c)
          = Json 200 (Message "Cart is already empty")
          /\ durable (snd (CartController.clearCart userId c)) = durable c)
      /\ (forall cart0 rest,
            select_carts userId (durable c) = cart0 :: rest ->
            fst (CartController.clearCart userId c)
            = Json 200 (Message "Cart cleared successfully")
            /\ durable (snd (CartController.clearCart userId c))
               = with_cart_items
                   (filter (fun i => negb (ci_cart_id i =? c_id cart0))
                      (cart_items (durable c))) (durable c))).
Proof.
  intros Hidle.
  destruct (clearCart_spec userId c Hidle)
    as (_ & _ & _ & [HA | [HB | HC]]).
  - destruct HA as (Hr & Hsome & Hd & _). split; [right; exact Hd |].
    intros Hf. split; [exact Hd |]. split; [contradiction |].
    intros cart0 rest Hsel. split; [exact Hr |].
    rewrite Hd. unfold clear_cart. rewrite Hsel. reflexivity.
  - destruct HB as (Hr & Hnone & Hd). split; [left; exact Hd |].
    intros Hf. unfold clear_cart. rewrite Hnone.
    split; [exact Hd |]. split; [auto |].
    intros cart0 rest Hsel. discriminate.
  - destruct HC as (Hfail & Hd). split; [left; exact Hd |].
    intros Hf. rewrite (clearCart_runs _ _ Hf Hidle) in Hfail.
    destruct (select_carts userId (durable c)); discriminate.
Qed.

(** X18 on the sample shop: user 7 clears the cart. *)
Lemma clearCart_clears_own_cart_witness :
  let c := Sample.connection true None in
  (durable (snd (CartController.clearCart 7 c)) = durable c
   \/ durable (snd (CartController.clearCart 7 c))
      = clear_cart 7 (durable c))
  /\ (fuse c = None ->
      durable (snd (CartController.clearCart 7 c))
      = clear_cart 7 (durable c)
      /\ (select_carts 7 (durable c) = [] ->
          fst (CartController.clearCart 7 c)
          = Json 200 (Message "Cart is already empty")
          /\ durable (snd (CartController.clearCart 7 c)) = durable c)
      /\ (forall cart0 rest,
            select_carts 7 (durable c) = cart0 :: rest ->
            fst (CartController.clearCart 7 c)
            = Json 200 (Message "Cart cleared successfully")
            /\ durable (snd (CartController.clearCart 7 c))
               = with_cart_items
                   (filter (fun i => negb (ci_cart_id i =? c_id cart0))
                      (cart_items (durable c))) (durable c))).
Proof.
  intros c. apply (clearCart_clears_own_cart 7 c). reflexivity.
Defined.

(** X19. Adding a product that the caller's cart does not hold yet and
    removing the item just created, both answered 200, leaves the cart
    items exactly as they were before the two calls: the item was
    inserted under the next generated id and only that row is deleted. *)
Theorem addToCart_then_removeFromCart req c f :
  idle c ->
  fresh c ->
  (forall cart0 rest,
     select_carts (CartController.userId req) (durable c) = cart0 :: rest ->
     select_cart_items (c_id cart0) (CartController.productId req)
       (durable c) = []) ->
  is_success (fst (CartController.addToCart req c)) = true ->
  let c1 := with_fuse f (snd (CartController.addToCart req c)) in
  is_success
    (fst (CartController.removeFromCart (CartController.userId req)
            (next_cart_item_id (counters c)) c1)) = true ->
  let c2 :=
    snd (CartController.removeFromCart (CartController.userId req)
           (next_cart_item_id (counters c)) c1) in
  cart_items (durable c1)
  = (cart_items (durable c) ++
     [{| ci_id := next_cart_item_id (counters c);
         ci_cart_id :=
           c_id (cart_of (CartController.userId req)
                   (next_cart_id (counters c)) (durable c));
         ci_product_id := CartController.productId req;
         ci_quantity := CartController.requested req |}])%list
  /\ cart_items (durable c2) = cart_items (durable c).
Proof.
  intros Hidle Hfresh Hnew Hok c1 Hok' c2.
  destruct (addToCart_spec req c Hidle Hfresh) as (_ & Hv & _ & [HA | HB]).
  2:{ destruct HB as (Hfail & _). rewrite Hok in Hfail. discriminate. }
  destruct HA as (_ & _ & _ & Hd & _).
  assert (Hitems :
    cart_items (durable c1)
    = (cart_items (durable c) ++
       [{| ci_id := next_cart_item_id (counters c);
           ci_cart_id :=
             c_id (cart_of (CartController.userId req)
                     (next_cart_id (counters c)) (durable c));
           ci_product_id := CartController.productId req;
           ci_quantity := CartController.requested req |}])%list).
  { unfold c1. simpl durable. rewrite Hd.
    unfold add_item, cart_of, with_cart.
    destruct (select_carts (CartController.userId req) (durable c))
      as [| cart0 others] eqn:Ecart.
    - simpl c_id. rewrite (fresh_no_cart_items _ _ _ _ _ Hfresh).
      reflexivity.
    - rewrite (Hnew cart0 others eq_refl). reflexivity. }
  split; [exact Hitems |].
  assert (Hidle1 : idle c1) by exact Hv.
  destruct (removeFromCart_spec (CartController.userId req)
              (next_cart_item_id (counters c)) c1 Hidle1)
    as (_ & _ & _ & [HA | HB]).
  2:{ destruct HB as (Hfail & _). unfold c2 in *.
      rewrite Hok' in Hfail. discriminate. }
  destruct HA as (_ & Hd2 & _). fold c2 in Hd2.
  rewrite Hd2. unfold delete_cart_item, with_cart_items.
  cbn [cart_items]. rewrite Hitems.
  rewrite filter_app. simpl. rewrite Z.eqb_refl. simpl.
  rewrite app_nil_r. apply filter_all.
  destruct Hfresh as (_ & _ & _ & _ & _ & Hci).
  rewrite Forall_forall in Hci. intros i Hin.
  destruct (Hci i Hin) as (_ & Hlt).
  apply negb_true_iff, Z.eqb_neq. lia.
Qed.

(** X19 on the sample shop: user 7 adds a box of truffles and removes it
    again. *)
Lemma addToCart_then_removeFromCart_witness :
  let req :=
    {| CartController.userId := 7; CartController.productId := 2;
       CartController.quantity := None |} in
  let c := Sample.connection true None in
  let c1 := with_fuse None (snd (CartController.addToCart req c)) in
  let c2 :=
    snd (CartController.removeFromCart (CartController.userId req)
           (next_cart_item_id (counters c)) c1) in
  cart_items (durable c1)
  = (cart_items (durable c) ++
     [{| ci_id := next_cart_item_id (counters c);
         ci_cart_id :=
           c_id (cart_of (CartController.userId req)
                   (next_cart_id (counters c)) (durable c));
         ci_product_id := CartController.productId req;
         ci_quantity := CartController.requested req |}])%list
  /\ cart_items (durable c2) = cart_items (durable c).
Proof.
  intros req c c1 c2.
  apply (addToCart_then_removeFromCart req c None).
  - reflexivity.
  - apply sample_fresh.
  - intros cart0 rest Hsel. vm_compute in Hsel. injection Hsel as <- _.
    reflexivity.
  - vm_compute. reflexivity.
  - vm_compute. reflexivity.
Defined.

(** ** The handlers that read orders *)

Lemma reads_ret {A} (a : A) : reads (ret a).
Proof. intros c. exists (fuse c). symmetry. apply with_fuse_same. Qed.

Lemma reads_respond {A} r : reads (@respond A r).
Proof. intros c. exists (fuse c). symmetry. apply with_fuse_same. Qed.

Lemma reads_query {A} (q : db -> A) : reads (query q).
Proof.
  intros c. unfold query, bind, tick.
  destruct (fuse c) as [[| n] |] eqn:E; simpl.
  - exists (fuse c). symmetry. apply with_fuse_same.
  - exists (Some n). reflexivity.
  - exists (fuse c). symmetry. apply with_fuse_same.
Qed.

Lemma reads_bind {A B} (m : M A) (k : A -> M B) :
  reads m -> (forall a, reads (k a)) -> reads (bind m k).
Proof.
  intros Hm Hk c. unfold bind. destruct (Hm c) as [f Hf].
  destruct (m c) as [[a | r | e] c']; simpl in *.
  - destruct (Hk a c') as [g Hg]. exists g. rewrite Hg, Hf. reflexivity.
  - exists f. exact Hf.
  - exists f. exact Hf.
Qed.

Lemma reads_for_each_of {A B} (l : list A) (f : A -> M B) :
  (forall x, reads (f x)) -> reads (for_each_of l f).
Proof.
  intros Hf. induction l as [| x l IH]; simpl.
  - apply reads_ret.
  - apply reads_bind; [apply Hf |]. intros y.
    apply reads_bind; [exact IH |]. intros ys. apply reads_ret.
Qed.

Lemma reads_reading {A} (body : M A) c :
  reads body -> exists f, snd (reading body c) = with_fuse f c.
Proof.
  intros H. destruct (H c) as [f Hf]. exists f. unfold reading.
  destruct (body c) as [[a | r | e] c']; exact Hf.
Qed.

Lemma query_ok {A} (q : db -> A) c :
  fuse c = None -> query q c = (Val (q (view c)), c).
Proof. intros Hf. unfold query, bind, tick. rewrite Hf. reflexivity. Qed.

Lemma for_each_of_ok {A B} (l : list A) (f : A -> M B) (g : A -> B) c :
  (forall x, f x c = (Val (g x), c)) ->
  for_each_of l f c = (Val (map g l), c).
Proof.
  intros Hf. induction l as [| x l IH]; simpl; [reflexivity |].
  unfold bind at 1. rewrite Hf. unfold bind at 1. rewrite IH.
  reflexivity.
Qed.

Lemma reading_data {A} (body : M A) (P : A -> Prop) c :
  wp body (fun o _ => match o with Val a => P a | _ => True end) c ->
  forall a, fst (reading body c) = Data a -> P a.
Proof.
  unfold wp, reading. destruct (body c) as [[a | r | e] c']; simpl;
    intros H x Hx; [| discriminate | discriminate].
  injection Hx as <-. exact H.
Qed.

Lemma wp_for_each_of {A B} (l : list A) (f : A -> M B)
    (P : A -> B -> Prop) :
  (forall x c,
     wp (f x) (fun o _ => match o with Val y => P x y | _ => True end) c) ->
  forall c,
    wp (for_each_of l f)
      (fun o _ => match o with Val ys => Forall2 P l ys | _ => True end) c.
Proof.
  intros Hf. induction l as [| x l IH]; intros c; simpl.
  - apply wp_ret. constructor.
  - apply wp_bind.
    apply (wp_mono _ _ _ _ (Hf x c)). intros [y | r | e] c1 Hy; simpl;
      trivial.
    apply wp_bind.
    apply (wp_mono _ _ _ _ (IH c1)). intros [ys | r | e] c2 Hys; simpl;
      trivial.
    apply wp_ret. constructor; assumption.
Qed.

(** The answer of [getOrderById] while the store answers. *)
Lemma getOrderById_runs userId id c :
  fuse c = None ->
  OrderController.getOrderById userId id c
  = (match select_orders_of_user id userId (view c) with
     | [] => Refused (Json 404 (Message "Order not found"))
     | order0 :: _ =>
         Data {| OrderController.d_order := order0;
                 OrderController.d_items := select_order_lines id (view c);
                 OrderController.d_statusHistory :=
                   select_status_history id (view c);
                 OrderController.d_transaction :=
                   hd_error (select_transactions_of_order id (view c)) |}
     end, c).
Proof.
  intros Hf. unfold OrderController.getOrderById, reading.
  unfold bind at 1. rewrite (query_ok _ _ Hf).
  destruct (select_orders_of_user id userId (view c)) as [| order0 rest];
    [reflexivity |].
  unfold bind at 1. rewrite (query_ok _ _ Hf).
  unfold bind at 1. rewrite (query_ok _ _ Hf).
  unfold bind at 1. rewrite (query_ok _ _ Hf).
  reflexivity.
Qed.

(** The answer of [getUserOrders] while the store answers. *)
Lemma getUserOrders_runs userId c :
  fuse c = None ->
  OrderController.getUserOrders userId c
  = (Data (map (summary_of (view c)) (select_orders_by_user userId (view c))),
     c).
Proof.
  intros Hf. unfold OrderController.getUserOrders, reading.
  unfold bind at 1. rewrite (query_ok _ _ Hf).
  rewrite (for_each_of_ok _ _ (summary_of (view c))); [reflexivity |].
  intros o. unfold bind at 1. rewrite (query_ok _ _ Hf).
  unfold bind at 1. rewrite (query_ok _ _ Hf).
  reflexivity.
Qed.

(** X20. [getOrderById] and [getUserOrders] never write: under any
    storage failure the session is left as it was found.  An order is
    shown to its owner only: the order of a [getOrderById] answer has the
    requested id and belongs to the caller, and while the store answers
    an id that is not an order of the caller is answered 404 "Order not
    found"; every order [getUserOrders] lists belongs to the caller. *)
Theorem order_readers_read_own_orders userId id c :
  (exists f, snd (OrderController.getOrderById userId id c) = with_fuse f c)
  /\ (exists f, snd (OrderController.getUserOrders userId c) = with_fuse f c)
  /\ (forall details,
        fst (OrderController.getOrderById userId id c) = Data details ->
        o_id (OrderController.d_order details) = id
        /\ o_user_id (OrderController.d_order details) = userId
        /\ In (OrderController.d_order details) (orders (view c)))
  /\ (forall summaries s,
        fst (OrderController.getUserOrders userId c) = Data summaries ->
        In s summaries ->
        o_user_id (OrderController.s_order s) = userId
        /\ In (OrderController.s_order s) (orders (view c)))
  /\ (fuse c = None ->
      select_orders_of_user id userId (view c) = [] ->
      fst (OrderController.getOrderById userId id c)
      = Refused (Json 404 (Message "Order not found"))).
Proof.
  split; [| split; [| split; [| split]]].
  - apply reads_reading.
    apply reads_bind; [apply reads_query |]. intros [| order0 rest].
    + apply reads_respond.
    + apply reads_bind; [apply reads_query |]. intros items.
      apply reads_bind; [apply reads_query |]. intros history.
      apply reads_bind; [apply reads_query |]. intros transaction.
      apply reads_ret.
  - apply reads_reading.
    apply reads_bind; [apply reads_query |]. intros orders.
    apply reads_for_each_of. intros o.
    apply reads_bind; [apply reads_query |]. intros items.
    apply reads_bind; [apply reads_query |]. intros status.
    apply reads_ret.
  - apply reading_data.
    apply wp_bind, wp_query; [exact I |]. intros f0. unfold then_wp at 1.
    destruct (select_orders_of_user id userId (view c))
      as [| order0 rest] eqn:E; [exact I |].
    apply wp_bind, wp_query; [exact I |]. intros f1. unfold then_wp at 1.
    apply wp_bind, wp_query; [exact I |]. intros f2. unfold then_wp at 1.
    apply wp_bind, wp_query; [exact I |]. intros f3. unfold then_wp at 1.
    apply wp_ret. simpl.
    assert (Hin : In order0 (select_orders_of_user id userId (view c)))
      by (rewrite E; left; reflexivity).
    apply filter_In in Hin. destruct Hin as (Hin & Hb).
    apply andb_true_iff in Hb. destruct Hb as (H1 & H2).
    apply Z.eqb_eq in H1, H2. auto.
  - intros summaries s Hdata Hin. revert summaries Hdata s Hin.
    apply (reading_data _
             (fun summaries => forall s, In s summaries ->
                o_user_id (OrderController.s_order s) = userId
                /\ In (OrderController.s_order s) (orders (view c)))).
    apply wp_bind, wp_query; [exact I |]. intros f0. unfold then_wp at 1.
    simpl view.
    apply (wp_mono _
             (fun o _ =>
                match o with
                | Val ys =>
                    Forall2 (fun x y => OrderController.s_order y = x)
                      (select_orders_by_user userId (view c)) ys
                | _ => True
                end)).
    + apply wp_for_each_of. intros o x.
      apply wp_bind, wp_query; [exact I |]. intros f1. unfold then_wp at 1.
      apply wp_bind, wp_query; [exact I |]. intros f2. unfold then_wp at 1.
      apply wp_ret. reflexivity.
    + intros [ys | r | e] _; trivial. intros Hall s Hin.
      assert (Hs : In (OrderController.s_order s)
                     (select_orders_by_user userId (view c))).
      { clear - Hall Hin. induction Hall as [| x y xs ys Hxy _ IH];
          [destruct Hin |].
        destruct Hin as [<- | Hin]; [left; symmetry; exact Hxy |].
        right. apply IH, Hin. }
      unfold select_orders_by_user in Hs.
      apply in_rev, filter_In in Hs. destruct Hs as (Hs & Hb).
      apply Z.eqb_eq in Hb. auto.
  - intros Hf Hnone. rewrite (getOrderById_runs _ _ _ Hf), Hnone.
    reflexivity.
Qed.

(** X21. The order a checkout answered 201 has created can be read back
    by its owner: while the store answers, [getOrderById] for the
    returned order id shows the order of the caller under that id with
    the status "pending" and, as total, the value the column took for
    the total of the request; the order item stored for each line of the
    request, in their order, each joined with its product; a history
    whose single entry is "pending"; and the "completed" transaction
    under the returned transaction id, for the same amount.  Any other
    caller is answered 404 "Order not found" for the same id. *)
Theorem createOrder_then_getOrderById
    req c orderId orderNumber transactionId other :
  idle c ->
  fresh c ->
  fst (OrderController.createOrder req c)
  = Json 201 (OrderCreated orderId orderNumber transactionId) ->
  let c1 := with_fuse None (snd (OrderController.createOrder req c)) in
  (exists total rows details t,
     amount_value (strict c) "total_amount"
       (OrderController.totalAmount_of (OrderController.items req))
     = inr total
     /\ stored_lines (strict c) orderId (OrderController.items req) rows
     /\ fst (OrderController.getOrderById (OrderController.userId req)
               orderId c1)
        = Data details
     /\ o_id (OrderController.d_order details) = orderId
     /\ o_user_id (OrderController.d_order details)
        = OrderController.userId req
     /\ o_total_amount (OrderController.d_order details) = total
     /\ o_status (OrderController.d_order details) = Some "pending"
     /\ OrderController.d_items details
        = flat_map (fun row =>
                      map (pair row)
                        (select_products (oi_product_id row) (durable c1)))
            rows
     /\ map h_status (OrderController.d_statusHistory details)
        = ["pending"]
     /\ OrderController.d_transaction details = Some t
     /\ t_order_id t = orderId
     /\ t_transaction_id t = transactionId
     /\ t_amount t = total
     /\ t_status t = "completed")
  /\ (other <> OrderController.userId req ->
      fst (OrderController.getOrderById other orderId c1)
      = Refused (Json 404 (Message "Order not found"))).
Proof.
  intros Hidle Hfresh Hr c1.
  destruct (createOrder_new_order _ _ _ _ _ Hidle Hfresh Hr)
    as (total & rows & Htotal & Hrows & Ho & Hi & Ht & Hh).
  destruct (createOrder_created _ _ _ _ _ Hidle Hr) as (_ & _ & Hidle1 & _).
  assert (Hv : view c1 = durable (snd (OrderController.createOrder req c)))
    by exact Hidle1.
  assert (Hsel : forall u,
    select_orders_of_user orderId u (view c1)
    = filter (fun o => o_user_id o =? u)
        (select_orders orderId (view c1))).
  { intros u. unfold select_orders_of_user, select_orders.
    induction (orders (view c1)) as [| x xs IH]; simpl; [reflexivity |].
    destruct (o_id x =? orderId); simpl; rewrite IH; reflexivity. }
  split.
  - exists total, rows. eexists. eexists.
    split; [exact Htotal |]. split; [exact Hrows |].
    split.
    { rewrite getOrderById_runs; [| reflexivity].
      cbn [fst]. rewrite Hsel, Hv, Ho. simpl filter. rewrite Z.eqb_refl.
      unfold select_order_lines. rewrite Hi, Ht, Hh.
      reflexivity. }
    simpl. repeat split.
  - intros Hother. rewrite getOrderById_runs; [| reflexivity].
    cbn [fst]. rewrite Hsel, Hv, Ho. simpl filter.
    assert (E : (OrderController.userId req =? other) = false)
      by (apply Z.eqb_neq; congruence).
    rewrite E. reflexivity.
Qed.

(** X21 on the sample shop: the basket of user 7, read back by user 7 and
    by user 8. *)
Lemma createOrder_then_getOrderById_witness :
  let req := Sample.basket in
  let c := Sample.connection true None in
  let c1 := with_fuse None (snd (OrderController.createOrder req c)) in
  (exists total rows details t,
     amount_value (strict c) "total_amount"
       (OrderController.totalAmount_of (OrderController.items req))
     = inr total
     /\ stored_lines (strict c) 1 (OrderController.items req) rows
     /\ fst (OrderController.getOrderById (OrderController.userId req) 1 c1)
        = Data details
     /\ o_id (OrderController.d_order details) = 1
     /\ o_user_id (OrderController.d_order details)
        = OrderController.userId req
     /\ o_total_amount (OrderController.d_order details) = total
     /\ o_status (OrderController.d_order details) = Some "pending"
     /\ OrderController.d_items details
        = flat_map (fun row =>
                      map (pair row)
                        (select_products (oi_product_id row) (durable c1)))
            rows
     /\ map h_status (OrderController.d_statusHistory details)
        = ["pending"]
     /\ OrderController.d_transaction details = Some t
     /\ t_order_id t = 1
     /\ t_transaction_id t = "TXN-1700000000001-1717"
     /\ t_amount t = total
     /\ t_status t = "completed")
  /\ (8 <> OrderController.userId req ->
      fst (OrderController.getOrderById 8 1 c1)
      = Refused (Json 404 (Message "Order not found"))).
Proof.
  intros req c c1.
  apply (createOrder_then_getOrderById req c 1 "ORD-1700000000000-4242"
           "TXN-1700000000001-1717" 8).
  - reflexivity.
  - apply sample_fresh.
  - vm_compute. reflexivity.
Defined.

(** * Every state the writing handlers reach *)

(** ** The connection stays consistent *)

Lemma fresh_delete_cart_item n id d :
  fresh_ids n d -> fresh_ids n (delete_cart_item id d).
Proof. intros H. fresh_rows H. apply Forall_filter. assumption. Qed.

Lemma fresh_change_item n id q d :
  fresh_ids n d -> fresh_ids n (change_item id q d).
Proof.
  intros H. unfold change_item. destruct (q =? 0).
  - apply fresh_delete_cart_item, H.
  - apply fresh_update_cart_item_quantity, H.
Qed.

Lemma consistent_cart_change c x :
  consistent c ->
  view x = durable x ->
  counters_le (counters c) (counters x) ->
  fresh_ids (counters c) (durable x) ->
  transactions (durable x) = transactions (durable c) ->
  consistent x.
Proof.
  intros Hc Hv Hn Hf Ht. apply (consistent_committed c x Hc Hv); [| exact Ht].
  apply (fresh_ids_le _ _ _ Hn Hf).
Qed.

Lemma updateCartItem_consistent userId itemId quantity c :
  consistent c ->
  consistent (snd (CartController.updateCartItem userId itemId quantity c)).
Proof.
  intros Hc. pose proof Hc as (Hidle & Hf & _).
  destruct (updateCartItem_spec userId itemId quantity c Hidle)
    as (_ & Hv & Hn & [HA | HB]).
  - destruct HA as (q & cartItem & rest & _ & _ & _ & _ & Hd & _).
    apply (consistent_cart_change c _ Hc Hv Hn); rewrite Hd.
    + apply fresh_change_item, Hf.
    + unfold change_item. destruct (q =? 0); reflexivity.
  - destruct HB as (_ & Hd). apply (consistent_unchanged c _ Hc Hv Hd Hn).
Qed.

Lemma removeFromCart_consistent userId itemId c :
  consistent c ->
  consistent (snd (CartController.removeFromCart userId itemId c)).
Proof.
  intros Hc. pose proof Hc as (Hidle & Hf & _).
  destruct (removeFromCart_spec userId itemId c Hidle)
    as (_ & Hv & Hn & [HA | HB]).
  - destruct HA as (_ & Hd & _).
    apply (consistent_cart_change c _ Hc Hv Hn); rewrite Hd.
    + apply fresh_delete_cart_item, Hf.
    + reflexivity.
  - destruct HB as (_ & Hd). apply (consistent_unchanged c _ Hc Hv Hd Hn).
Qed.

Lemma clearCart_consistent userId c :
  consistent c -> consistent (snd (CartController.clearCart userId c)).
Proof.
  intros Hc. pose proof Hc as (Hidle & Hf & _).
  destruct (clearCart_spec userId c Hidle)
    as (_ & Hv & Hn & [HA | [HB | HB]]).
  - destruct HA as (_ & _ & Hd & _).
    apply (consistent_cart_change c _ Hc Hv); rewrite ?Hn, ?Hd.
    + apply counters_le_refl.
    + apply fresh_clear_cart, Hf.
    + unfold clear_cart. destruct (select_carts userId (durable c));
        reflexivity.
  - destruct HB as (_ & _ & Hd).
    apply (consistent_unchanged c _ Hc Hv Hd). rewrite Hn.
    apply counters_le_refl.
  - destruct HB as (_ & Hd).
    apply (consistent_unchanged c _ Hc Hv Hd). rewrite Hn.
    apply counters_le_refl.
Qed.

Lemma perform_consistent o c :
  consistent c -> consistent (snd (perform o c)).
Proof.
  destruct o; simpl.
  - apply serve_consistent.
  - apply updateCartItem_consistent.
  - apply removeFromCart_consistent.
  - apply clearCart_consistent.
Qed.

Lemma reaches_consistent c0 c : consistent c0 -> reaches c0 c -> consistent c.
Proof.
  intros H0 Hr. induction Hr as [| c o f _ IH]; [exact H0 |].
  apply consistent_with_fuse, perform_consistent, IH.
Qed.

(** ** The carts stay well formed *)

Lemma filter_filter_length {A} (f p : A -> bool) l :
  (List.length (filter f (filter p l)) <= List.length (filter f l))%nat.
Proof.
  induction l as [| x l IH]; simpl; [lia |].
  destruct (p x); simpl; destruct (f x); simpl; lia.
Qed.

Lemma filter_map_length {A} (f : A -> bool) (g : A -> A) l :
  (forall x, f (g x) = f x) ->
  List.length (filter f (map g l)) = List.length (filter f l).
Proof.
  intros Hg. induction l as [| x l IH]; simpl; [reflexivity |].
  rewrite Hg. destruct (f x); simpl; rewrite IH; reflexivity.
Qed.

Lemma cart_rows_frame d d' :
  cart_frame d d' -> cart_rows_ok d -> cart_rows_ok d'.
Proof.
  intros (Hk & Hi) (H1 & H2).
  unfold cart_rows_ok, select_carts, select_cart_items in *.
  rewrite Hk, Hi. auto.
Qed.

Lemma cart_rows_filter p d d' :
  carts d' = carts d ->
  cart_items d' = filter p (cart_items d) ->
  cart_rows_ok d -> cart_rows_ok d'.
Proof.
  intros Hk Hi (H1 & H2).
  unfold cart_rows_ok, select_carts, select_cart_items in *.
  rewrite Hk, Hi. split; [exact H1 |].
  intros k pid. specialize (H2 k pid).
  pose proof (filter_filter_length
                (fun i => (ci_cart_id i =? k) && (ci_product_id i =? pid))
                p (cart_items d)).
  lia.
Qed.

Lemma cart_rows_with_cart user n d :
  cart_rows_ok d -> cart_rows_ok (with_cart user n d).
Proof.
  intros (H1 & H2). unfold with_cart.
  destruct (select_carts user d) eqn:E; [| split; assumption].
  split; [| exact H2].
  intros u. unfold select_carts in *. simpl. rewrite filter_app, length_app.
  simpl. destruct (user =? u) eqn:Eu; simpl.
  - apply Z.eqb_eq in Eu. subst u. rewrite E. simpl. lia.
  - specialize (H1 u). lia.
Qed.

Lemma cart_rows_insert_item id k pid q d :
  select_cart_items k pid d = [] ->
  cart_rows_ok d -> cart_rows_ok (insert_cart_item id k pid q d).
Proof.
  intros Hnone (H1 & H2). split; [exact H1 |].
  intros k' pid'. unfold select_cart_items in *. simpl.
  rewrite filter_app, length_app. simpl.
  destruct ((k =? k') && (pid =? pid')) eqn:E; simpl.
  - apply andb_true_iff in E. destruct E as (Ek & Ep).
    apply Z.eqb_eq in Ek, Ep. subst k' pid'. rewrite Hnone. simpl. lia.
  - specialize (H2 k' pid'). lia.
Qed.

Lemma cart_rows_update q id d :
  cart_rows_ok d -> cart_rows_ok (update_cart_item_quantity q id d).
Proof.
  intros (H1 & H2). split; [exact H1 |].
  intros k pid. unfold select_cart_items in *. simpl.
  rewrite filter_map_length; [apply H2 |].
  intros x. destruct (ci_id x =? id); reflexivity.
Qed.

Lemma cart_rows_add_item req n m d :
  cart_rows_ok d -> cart_rows_ok (add_item req n m d).
Proof.
  intros Hok. unfold add_item. cbv zeta.
  pose proof (cart_rows_with_cart (CartController.userId req) n d Hok)
    as Hok1.
  destruct (select_cart_items _ _ _) as [| e0 more] eqn:E.
  - apply cart_rows_insert_item; assumption.
  - apply cart_rows_update. exact Hok1.
Qed.

Lemma cart_rows_change_item id q d :
  cart_rows_ok d -> cart_rows_ok (change_item id q d).
Proof.
  intros Hok. unfold change_item. destruct (q =? 0) eqn:E.
  - apply (cart_rows_filter (fun i => negb (ci_id i =? id)) d);
      [reflexivity | reflexivity | exact Hok].
  - apply cart_rows_update. exact Hok.
Qed.

Lemma cart_rows_clear_cart user d :
  cart_rows_ok d -> cart_rows_ok (clear_cart user d).
Proof.
  intros Hok. unfold clear_cart.
  destruct (select_carts user d) as [| cart0 rest]; [exact Hok |].
  apply (cart_rows_filter (fun i => negb (ci_cart_id i =? c_id cart0)) d);
    [reflexivity | reflexivity | exact Hok].
Qed.

Lemma update_order_status_ledger strict status id d d' :
  update_order_status strict status id d = inr d' ->
  map (fun o => (o_id o, o_total_amount o)) (orders d')
  = map (fun o => (o_id o, o_total_amount o)) (orders d).
Proof.
  unfold update_order_status.
  destruct (select_orders id d); [intros H; injection H as <-; reflexivity |].
  assert (Hmap : forall v,
    map (fun o => (o_id o, o_total_amount o))
      (map (fun o => if o_id o =? id then set_o_status v o else o)
         (orders d))
    = map (fun o => (o_id o, o_total_amount o)) (orders d)).
  { intros v. rewrite map_map. apply map_ext. intros x.
    destruct (o_id x =? id); reflexivity. }
  destruct status as [s |].
  - destruct (enum_value strict "status" order_status_enum s);
      [discriminate |].
    intros H; injection H as <-. apply Hmap.
  - intros H; injection H as <-. apply Hmap.
Qed.

Lemma frames_refl d : ledger_frame d d /\ cart_frame d d.
Proof. repeat split. Qed.

Lemma partial_transition_frames strict transactional id status notes d d' :
  partial_transition strict transactional id status notes d d' ->
  ledger_frame d d' /\ cart_frame d d'.
Proof.
  intros [-> | (_ & _ & d1 & E1 & Hrest)]; [apply frames_refl |].
  pose proof (update_order_status_ledger _ _ _ _ _ E1) as Ho1.
  destruct (update_order_status_rows _ _ _ _ _ E1)
    as (_ & Hi1 & Ht1 & _ & Hk1 & Hci1).
  destruct Hrest as [-> | (d2 & E2 & returned & pending & _ & ->)].
  { unfold ledger_frame, cart_frame. rewrite Ho1, Hi1, Ht1, Hk1, Hci1.
    repeat split. }
  destruct (insert_status_history_rows _ _ _ _ _ _ E2)
    as (_ & Ho2 & Hi2 & Ht2 & Hk2 & Hci2).
  destruct (restock_rest returned d2) as (Ho3 & Hi3 & Ht3 & _ & Hk3 & Hci3).
  unfold ledger_frame, cart_frame.
  rewrite Ho3, Hi3, Ht3, Hk3, Hci3, Ho2, Hi2, Ht2, Hk2, Hci2, Ho1, Hi1, Ht1,
    Hk1, Hci1.
  repeat split.
Qed.

Lemma transition_frames strict id status notes d d' :
  transition strict id status notes d = inr d' ->
  ledger_frame d d' /\ cart_frame d d'.
Proof.
  unfold transition.
  destruct (update_order_status strict status id d) as [e | d1] eqn:E1;
    [discriminate |].
  destruct (insert_status_history strict id status _ d1) as [e | d2] eqn:E2;
    [discriminate |].
  intros H. injection H as <-.
  pose proof (update_order_status_ledger _ _ _ _ _ E1) as Ho1.
  destruct (update_order_status_rows _ _ _ _ _ E1)
    as (_ & Hi1 & Ht1 & _ & Hk1 & Hci1).
  destruct (insert_status_history_rows _ _ _ _ _ _ E2)
    as (_ & Ho2 & Hi2 & Ht2 & Hk2 & Hci2).
  unfold ledger_frame, cart_frame.
  destruct (OrderController.is_cancelled status).
  - destruct (restock_rest (select_order_items id d2) d2)
      as (Ho3 & Hi3 & Ht3 & _ & Hk3 & Hci3).
    rewrite Ho3, Hi3, Ht3, Hk3, Hci3, Ho2, Hi2, Ht2, Hk2, Hci2, Ho1, Hi1,
      Ht1, Hk1, Hci1.
    repeat split.
  - rewrite Ho2, Hi2, Ht2, Hk2, Hci2, Ho1, Hi1, Ht1, Hk1, Hci1.
    repeat split.
Qed.

Lemma update_transaction_status_frames strict status id d d' :
  update_transaction_status strict status id d = inr d' ->
  map (fun t => (t_order_id t, t_amount t)) (transactions d')
  = map (fun t => (t_order_id t, t_amount t)) (transactions d)
  /\ carts d' = carts d
  /\ cart_items d' = cart_items d.
Proof.
  unfold update_transaction_status.
  destruct (select_transactions id d);
    [intros E; injection E as <-; repeat split |].
  destruct (enum_value _ _ _ _); [discriminate |].
  intros E. injection E as <-. simpl. repeat split.
  rewrite map_map. apply map_ext. intros x.
  destruct (t_id x =? id); reflexivity.
Qed.

Lemma refund_frames strict id order_id amount reason d d' :
  refund strict id order_id amount reason d = inr d' ->
  ledger_frame d d' /\ cart_frame d d'.
Proof.
  unfold refund.
  destruct (update_transaction_status strict "refunded" id d)
    as [e | d1] eqn:E1; [discriminate |].
  destruct (update_order_status strict (Some "refunded") order_id d1)
    as [e | d2] eqn:E2; [discriminate |].
  destruct (insert_status_history strict order_id (Some "refunded") _ d2)
    as [e | d3] eqn:E3; [discriminate |].
  intros H. injection H as <-.
  destruct (update_transaction_status_frames _ _ _ _ _ E1)
    as (Ht1 & Hk1 & Hci1).
  destruct (update_transaction_status_rows _ _ _ _ _ E1)
    as (_ & _ & Ho1 & Hi1 & _).
  pose proof (update_order_status_ledger _ _ _ _ _ E2) as Ho2.
  destruct (update_order_status_rows _ _ _ _ _ E2)
    as (_ & Hi2 & Ht2 & _ & Hk2 & Hci2).
  destruct (insert_status_history_rows _ _ _ _ _ _ E3)
    as (_ & Ho3 & Hi3 & Ht3 & Hk3 & Hci3).
  destruct (restock_rest (select_order_items order_id d3) d3)
    as (Ho4 & Hi4 & Ht4 & _ & Hk4 & Hci4).
  unfold ledger_frame, cart_frame.
  rewrite Ho4, Hi4, Ht4, Hk4, Hci4, Ho3, Hi3, Ht3, Hk3, Hci3, Ho2, Hi2, Ht2,
    Hk2, Hci2, Ho1, Hi1, Ht1, Hk1, Hci1.
  repeat split.
Qed.

Lemma serve_cart_rows q c :
  consistent c ->
  cart_rows_ok (durable c) ->
  cart_rows_ok (durable (snd (serve q c))).
Proof.
  intros (Hidle & Hfresh & _) Hok. destruct q; simpl.
  - destruct (createOrder_spec req c Hidle) as (_ & _ & _ & [HA | HB]).
    + destruct HA as (_ & _ & _ & _ & Hc & _).
      destruct (checkout_rows _ _ _ _ _ _ Hc)
        as (total & rows & _ & _ & _ & _ & _ & _ & Hk & Hi).
      pose proof (cart_rows_clear_cart (OrderController.userId req) _ Hok)
        as Hok'.
      apply (cart_rows_frame (clear_cart (OrderController.userId req)
                                (durable c))); [| exact Hok'].
      split; [| exact Hi]. rewrite Hk. unfold clear_cart.
      destruct (select_carts _ (durable c)); reflexivity.
    + destruct HB as (_ & ->). exact Hok.
  - destruct (updateOrderStatus_spec id status notes c Hidle)
      as (_ & _ & _ & [HA | HB]).
    + destruct HA as (_ & _ & Ht & _).
      apply (cart_rows_frame (durable c)); [| exact Hok].
      apply (transition_frames _ _ _ _ _ _ Ht).
    + destruct HB as (_ & Hp).
      apply (cart_rows_frame (durable c)); [| exact Hok].
      apply (partial_transition_frames _ _ _ _ _ _ _ Hp).
  - destruct (processPayment_spec req c Hidle) as (_ & _ & _ & [HA | HB]).
    + destruct HA as (_ & (order0 & rest & _ & Hp) & _).
      destruct (payment_rows _ _ _ _ _ _ Hp)
        as (t & _ & _ & _ & _ & _ & Hk & Hi).
      apply (cart_rows_frame (durable c)); [split; assumption | exact Hok].
    + destruct HB as (_ & ->). exact Hok.
  - destruct (processRefund_spec id amount reason c Hidle)
      as (_ & _ & _ & [HA | HB]).
    + destruct HA as (_ & (t0 & rest & _ & _ & Hr) & _).
      apply (cart_rows_frame (durable c)); [| exact Hok].
      apply (refund_frames _ _ _ _ _ _ _ Hr).
    + destruct HB as (_ & ->). exact Hok.
  - destruct (getCart_spec userId c Hidle) as (_ & _ & _ & [HA | HB]).
    + destruct HA as (_ & -> & _). apply cart_rows_with_cart, Hok.
    + destruct HB as (_ & ->). exact Hok.
  - destruct (addToCart_spec req c Hidle Hfresh) as (_ & _ & _ & [HA | HB]).
    + destruct HA as (_ & _ & _ & -> & _).
      apply cart_rows_add_item. exact Hok.
    + destruct HB as (_ & ->). exact Hok.
Qed.

Lemma perform_cart_rows o c :
  consistent c ->
  cart_rows_ok (durable c) ->
  cart_rows_ok (durable (snd (perform o c))).
Proof.
  intros Hc Hok. pose proof Hc as (Hidle & _). destruct o; simpl.
  - apply serve_cart_rows; assumption.
  - destruct (updateCartItem_spec userId itemId quantity c Hidle)
      as (_ & _ & _ & [HA | HB]).
    + destruct HA as (q & cartItem & rest & _ & _ & _ & _ & -> & _).
      apply cart_rows_change_item. exact Hok.
    + destruct HB as (_ & ->). exact Hok.
  - destruct (removeFromCart_spec userId itemId c Hidle)
      as (_ & _ & _ & [HA | HB]).
    + destruct HA as (_ & -> & _).
      apply (cart_rows_filter (fun i => negb (ci_id i =? itemId))
               (durable c)); [reflexivity | reflexivity | exact Hok].
    + destruct HB as (_ & ->). exact Hok.
  - destruct (clearCart_spec userId c Hidle)
      as (_ & _ & _ & [HA | [HB | HB]]).
    + destruct HA as (_ & _ & -> & _). apply cart_rows_clear_cart, Hok.
    + destruct HB as (_ & _ & ->). exact Hok.
    + destruct HB as (_ & ->). exact Hok.
Qed.

(** X22. The carts stay well formed.  From a consistent connection whose
    rows give every user at most one cart and every cart at most one
    item for a product, every state reached by calling the writing
    handlers one after the other, under any storage failures, has such
    rows again: the handlers themselves keep what the [UNIQUE] keys of
    the schema ask for. *)
Theorem carts_stay_well_formed c0 c :
  consistent c0 ->
  cart_rows_ok (durable c0) ->
  reaches c0 c ->
  cart_rows_ok (durable c).
Proof.
  intros H0 Hok Hr. induction Hr as [| c o f Hr IH]; [exact Hok |].
  apply perform_cart_rows; [| exact IH].
  apply (reaches_consistent c0 c H0 Hr).
Qed.

(** X22 on the sample shop: user 8 adds a box of truffles. *)
Lemma carts_stay_well_formed_witness :
  let c0 := Sample.connection true None in
  let add :=
    Workflow (AddToCart {| CartController.userId := 8;
                           CartController.productId := 2;
                           CartController.quantity := None |}) in
  cart_rows_ok (durable (with_fuse None (snd (perform add c0)))).
Proof.
  intros c0 add.
  apply (carts_stay_well_formed c0 (with_fuse None (snd (perform add c0)))).
  - apply sample_consistent.
  - split.
    + intros user. apply (Nat.le_trans _ _ _ (filter_length_le _ _)).
      simpl. lia.
    + intros k pid. apply (Nat.le_trans _ _ _ (filter_length_le _ _)).
      simpl. lia.
  - apply reaches_step. apply reaches_start.
Defined.

(** ** The books stay balanced *)

Lemma filter_by_key {A K} (g : A -> K) (p : K -> bool) l :
  map g (filter (fun x => p (g x)) l) = filter p (map g l).
Proof.
  induction l as [| x l IH]; simpl; [reflexivity |].
  destruct (p (g x)); simpl; rewrite IH; reflexivity.
Qed.

Lemma ledger_frame_ok d d' : ledger_frame d d' -> ledger_ok d -> ledger_ok d'.
Proof.
  intros (Ho & Hi & Ht) (H1 & H3).
  assert (Hids : map o_id (orders d') = map o_id (orders d)).
  { transitivity (map fst (map (fun o => (o_id o, o_total_amount o))
                             (orders d'))).
    - rewrite map_map. reflexivity.
    - rewrite Ho, map_map. reflexivity. }
  assert (Hold : forall o', In o' (orders d') ->
    exists o, In o (orders d) /\ o_id o = o_id o'
              /\ o_total_amount o = o_total_amount o').
  { intros o' Hin.
    apply (in_map (fun o => (o_id o, o_total_amount o))) in Hin.
    rewrite Ho in Hin. apply in_map_iff in Hin.
    destruct Hin as (o & Heq & Hin). injection Heq as Hid Htot.
    exists o. auto. }
  split; [rewrite Hids; exact H1 |].
  - intros o' Hin. destruct (Hold o' Hin) as (o & Hin0 & Hid & Htot).
    destruct (H3 o Hin0) as (t & Hsel & Hamount).
    assert (Hmap :
      map (fun t => (t_order_id t, t_amount t))
        (select_transactions_of_order (o_id o') d')
      = [(t_order_id t, t_amount t)]).
    { unfold select_transactions_of_order in *.
      assert (Hkey : forall l,
        map (fun t => (t_order_id t, t_amount t))
          (filter (fun t => t_order_id t =? o_id o') l)
        = filter (fun p => fst p =? o_id o')
            (map (fun t => (t_order_id t, t_amount t)) l)).
      { intros l.
        exact (filter_by_key (fun t => (t_order_id t, t_amount t))
                 (fun p => fst p =? o_id o') l). }
      rewrite Hkey, Ht, <- Hkey, <- Hid, Hsel. reflexivity. }
    destruct (select_transactions_of_order (o_id o') d')
      as [| t' [| t'' more]]; try discriminate.
    injection Hmap as _ Ha. exists t'. split; [reflexivity |]. congruence.
Qed.

Lemma NoDup_snoc {A} (l : list A) x :
  NoDup l -> ~ In x l -> NoDup (l ++ [x]).
Proof.
  intros Hl Hx. induction Hl as [| y l Hy _ IH]; simpl.
  - constructor; [intros [] | constructor].
  - constructor.
    + intros Hin. apply in_app_or in Hin. destruct Hin as [Hin | [-> | []]].
      * contradiction.
      * apply Hx. left. reflexivity.
    + apply IH. intros Hin. apply Hx. right. exact Hin.
Qed.

Lemma checkout_ledger n strict req txnRow d d' :
  fresh_ids n d ->
  ledger_ok d ->
  checkout strict req (next_order_id n) txnRow d = inr d' ->
  ledger_ok d'.
Proof.
  intros Hfresh (H1 & H3) Hc.
  destruct (checkout_rows _ _ _ _ _ _ Hc)
    as (total & rows & _ & _ & Ho & _ & Ht & _).
  pose proof Hfresh as (Fo & Fi & Ft & _).
  rewrite Forall_forall in Fo.
  assert (Htx_old : forall o, In o (orders d) ->
    select_transactions_of_order (o_id o) d'
    = select_transactions_of_order (o_id o) d).
  { intros o Hin. unfold select_transactions_of_order.
    rewrite Ht, filter_app. simpl.
    assert (E : (next_order_id n =? o_id o) = false).
    { apply Z.eqb_neq. specialize (Fo o Hin). simpl in Fo. lia. }
    rewrite E. apply app_nil_r. }
  split.
  - rewrite Ho, map_app. simpl. apply NoDup_snoc; [exact H1 |].
    intros Hin. apply in_map_iff in Hin. destruct Hin as (o & Hid & Hin).
    specialize (Fo o Hin). simpl in Fo. lia.
  - intros o Hin. rewrite Ho in Hin. apply in_app_or in Hin.
    destruct Hin as [Hin | [<- | []]].
    + rewrite (Htx_old o Hin). apply (H3 o Hin).
    + simpl. unfold select_transactions_of_order. rewrite Ht, filter_app.
      fold (select_transactions_of_order (next_order_id n) d).
      rewrite (fresh_select_transactions_of_order _ _ Hfresh).
      simpl. rewrite Z.eqb_refl. eexists. split; reflexivity.
Qed.

(** With the books balanced, every order of a caller has its
    transaction, so no payment gets past [processPayment]'s check. *)
Lemma processPayment_balanced req c :
  idle c ->
  ledger_ok (durable c) ->
  is_success (fst (TransactionController.processPayment req c)) = false
  /\ durable (snd (TransactionController.processPayment req c)) = durable c.
Proof.
  intros Hidle (_ & H3).
  destruct (processPayment_spec req c Hidle) as (_ & _ & _ & [HA | HB]);
    [| exact HB].
  destruct HA as (_ & (order0 & rest & Hsel & _) & Hnone & _).
  exfalso.
  assert (Hin : In order0
                  (select_orders_of_user (TransactionController.orderId req)
                     (TransactionController.userId req) (durable c)))
    by (rewrite Hsel; left; reflexivity).
  apply filter_In in Hin. destruct Hin as (Hin & Hb).
  apply andb_true_iff in Hb. destruct Hb as (Hid & _).
  apply Z.eqb_eq in Hid.
  destruct (H3 order0 Hin) as (t & Ht & _).
  rewrite Hid, Hnone in Ht. discriminate.
Qed.

Lemma ledger_frame_same d d' :
  orders d' = orders d ->
  order_items d' = order_items d ->
  transactions d' = transactions d ->
  ledger_frame d d'.
Proof. intros Ho Hi Ht. unfold ledger_frame. rewrite Ho, Hi, Ht. auto. Qed.

Lemma serve_ledger q c :
  consistent c ->
  ledger_ok (durable c) ->
  ledger_ok (durable (snd (serve q c))).
Proof.
  intros (Hidle & Hfresh & _) Hok. destruct q; simpl.
  - destruct (createOrder_spec req c Hidle) as (_ & _ & _ & [HA | HB]).
    + destruct HA as (_ & _ & _ & _ & Hc & _).
      apply (checkout_ledger _ _ _ _ _ _ Hfresh Hok Hc).
    + destruct HB as (_ & ->). exact Hok.
  - destruct (updateOrderStatus_spec id status notes c Hidle)
      as (_ & _ & _ & [HA | HB]).
    + destruct HA as (_ & _ & Ht & _).
      apply (ledger_frame_ok (durable c)); [| exact Hok].
      apply (transition_frames _ _ _ _ _ _ Ht).
    + destruct HB as (_ & Hp).
      apply (ledger_frame_ok (durable c)); [| exact Hok].
      apply (partial_transition_frames _ _ _ _ _ _ _ Hp).
  - destruct (processPayment_balanced req c Hidle Hok) as (_ & ->).
    exact Hok.
  - destruct (processRefund_spec id amount reason c Hidle)
      as (_ & _ & _ & [HA | HB]).
    + destruct HA as (_ & (t0 & rest & _ & _ & Hr) & _).
      apply (ledger_frame_ok (durable c)); [| exact Hok].
      apply (refund_frames _ _ _ _ _ _ _ Hr).
    + destruct HB as (_ & ->). exact Hok.
  - destruct (getCart_spec userId c Hidle) as (_ & _ & _ & [HA | HB]).
    + destruct HA as (_ & -> & _).
      apply (ledger_frame_ok (durable c)); [| exact Hok].
      unfold with_cart. destruct (select_carts userId (durable c));
        apply ledger_frame_same; reflexivity.
    + destruct HB as (_ & ->). exact Hok.
  - destruct (addToCart_spec req c Hidle Hfresh) as (_ & _ & _ & [HA | HB]).
    + destruct HA as (_ & _ & _ & -> & _).
      apply (ledger_frame_ok (durable c)); [| exact Hok].
      unfold add_item, with_cart. cbv zeta.
      destruct (select_carts (CartController.userId req) (durable c));
        destruct (select_cart_items _ _ _);
        apply ledger_frame_same; reflexivity.
    + destruct HB as (_ & ->). exact Hok.
Qed.

Lemma perform_ledger o c :
  consistent c ->
  ledger_ok (durable c) ->
  ledger_ok (durable (snd (perform o c))).
Proof.
  intros Hc Hok. pose proof Hc as (Hidle & _). destruct o; simpl.
  - apply serve_ledger; assumption.
  - destruct (updateCartItem_spec userId itemId quantity c Hidle)
      as (_ & _ & _ & [HA | HB]).
    + destruct HA as (q & cartItem & rest & _ & _ & _ & _ & -> & _).
      apply (ledger_frame_ok (durable c)); [| exact Hok].
      unfold change_item. destruct (q =? 0);
        apply ledger_frame_same; reflexivity.
    + destruct HB as (_ & ->). exact Hok.
  - destruct (removeFromCart_spec userId itemId c Hidle)
      as (_ & _ & _ & [HA | HB]).
    + destruct HA as (_ & -> & _).
      apply (ledger_frame_ok (durable c)); [| exact Hok].
      apply ledger_frame_same; reflexivity.
    + destruct HB as (_ & ->). exact Hok.
  - destruct (clearCart_spec userId c Hidle)
      as (_ & _ & _ & [HA | [HB | HB]]).
    + destruct HA as (_ & _ & -> & _).
      apply (ledger_frame_ok (durable c)); [| exact Hok].
      unfold clear_cart. destruct (select_carts userId (durable c));
        apply ledger_frame_same; reflexivity.
    + destruct HB as (_ & _ & ->). exact Hok.
    + destruct HB as (_ & ->). exact Hok.
Qed.

Lemma reaches_ledger c0 c :
  consistent c0 -> ledger_ok (durable c0) -> reaches c0 c ->
  ledger_ok (durable c).
Proof.
  intros H0 Hok Hr. induction Hr as [| c o f Hr IH]; [exact Hok |].
  apply perform_ledger; [| exact IH].
  apply (reaches_consistent c0 c H0 Hr).
Qed.

Lemma opening_ledger strict_mode catalogue :
  ledger_ok (durable (opening strict_mode catalogue)).
Proof.
  split; [constructor |]. intros o [].
Qed.

(** X23. The books stay balanced.  In every state reached from a shop
    that opens with a catalogue and nothing else, by calling the writing
    handlers one after the other under any storage failures, no two
    orders share an id and every order is referenced by exactly one
    transaction, whose amount is the order's total amount. *)
Theorem books_stay_balanced strict_mode catalogue c :
  reaches (opening strict_mode catalogue) c ->
  NoDup (map o_id (orders (durable c)))
  /\ (forall o, In o (orders (durable c)) ->
        exists t,
          select_transactions_of_order (o_id o) (durable c) = [t]
          /\ t_amount t = o_total_amount o).
Proof.
  intros Hr.
  apply (reaches_ledger (opening strict_mode catalogue) c);
    [apply opening_consistent | apply opening_ledger | exact Hr].
Qed.

(** X23 on a shop that opens with the two products of the sample: the
    basket is checked out. *)
Lemma books_stay_balanced_witness :
  let c0 := opening true (products Sample.shop) in
  let c :=
    with_fuse None (snd (perform (Workflow (CreateOrder Sample.basket)) c0)) in
  NoDup (map o_id (orders (durable c)))
  /\ (forall o, In o (orders (durable c)) ->
        exists t,
          select_transactions_of_order (o_id o) (durable c) = [t]
          /\ t_amount t = o_total_amount o).
Proof.
  intros c0 c.
  apply (books_stay_balanced true (products Sample.shop) c).
  apply reaches_step. apply reaches_start.
Defined.

(** X24. [processPayment] never records a payment once the shop runs on
    these handlers alone: in every state reached from a shop that opens
    with a catalogue and nothing else, every order was paid by the
    checkout that created it, so the call writes nothing and reports a
    failure, which is 404 "Order not found" or 400 "Payment already
    processed for this order" whenever the store answers. *)
Theorem processPayment_never_pays strict_mode catalogue c req :
  reaches (opening strict_mode catalogue) c ->
  is_success (fst (TransactionController.processPayment req c)) = false
  /\ durable (snd (TransactionController.processPayment req c)) = durable c
  /\ (fuse c = None ->
      fst (TransactionController.processPayment req c)
      = Json 404 (Message "Order not found")
      \/ fst (TransactionController.processPayment req c)
         = Json 400 (Message "Payment already processed for this order")).
Proof.
  intros Hr.
  pose proof (reaches_consistent _ _
                (opening_consistent strict_mode catalogue) Hr)
    as (Hidle & _).
  pose proof (reaches_ledger _ _
                (opening_consistent strict_mode catalogue)
                (opening_ledger strict_mode catalogue) Hr) as Hok.
  destruct (processPayment_balanced req c Hidle Hok) as (Hfail & Hd).
  split; [exact Hfail |]. split; [exact Hd |].
  intros Hf. pose proof (processPayment_runs req c Hf Hidle) as Hrun.
  destruct (select_orders_of_user _ _ (durable c))
    as [| order0 rest] eqn:Eo; [left; exact Hrun |].
  destruct (select_transactions_of_order _ (durable c)) eqn:Et;
    [| right; exact Hrun].
  exfalso. destruct Hok as (_ & H3).
  assert (Hin : In order0
                  (select_orders_of_user (TransactionController.orderId req)
                     (TransactionController.userId req) (durable c)))
    by (rewrite Eo; left; reflexivity).
  apply filter_In in Hin. destruct Hin as (Hin & Hb).
  apply andb_true_iff in Hb. destruct Hb as (Hid & _).
  apply Z.eqb_eq in Hid.
  destruct (H3 order0 Hin) as (t & Ht & _).
  rewrite Hid, Et in Ht. discriminate.
Qed.

(** X24 on a shop that opens with the two products of the sample: after
    the checkout of the basket, user 7 pays for order 1. *)
Lemma processPayment_never_pays_witness :
  let c0 := opening true (products Sample.shop) in
  let c :=
    with_fuse None (snd (perform (Workflow (CreateOrder Sample.basket)) c0)) in
  let req :=
    {| TransactionController.userId := 7;
       TransactionController.orderId := 1;
       TransactionController.paymentMethod := "card";
       TransactionController.paymentDetails := None;
       TransactionController.transaction_stamp :=
         {| OrderController.now := 1700000000002;
            OrderController.suffix := 2323 |} |} in
  is_success (fst (TransactionController.processPayment req c)) = false
  /\ durable (snd (TransactionController.processPayment req c)) = durable c
  /\ (fuse c = None ->
      fst (TransactionController.processPayment req c)
      = Json 404 (Message "Order not found")
      \/ fst (TransactionController.processPayment req c)
         = Json 400 (Message "Payment already processed for this order")).
Proof.
  intros c0 c req.
  apply (processPayment_never_pays true (products Sample.shop) c req).
  apply reaches_step. apply reaches_start.
Defined.

(** ** A refunded order as its owner sees it *)

Lemma refund_orders strict id order_id amount reason d d' :
  refund strict id order_id amount reason d = inr d' ->
  orders d'
  = map (fun o => if o_id o =? order_id then set_o_status (Some "") o
                  else o) (orders d)
  /\ order_status_history d'
     = (order_status_history d ++
        [{| h_order_id := order_id; h_status := "";
            h_notes := refund_note amount reason |}])%list.
Proof.
  unfold refund.
  destruct (update_transaction_status strict "refunded" id d)
    as [e | d1] eqn:E1; [discriminate |].
  destruct (update_order_status strict (Some "refunded") order_id d1)
    as [e | d2] eqn:E2; [discriminate |].
  destruct (insert_status_history strict order_id (Some "refunded") _ d2)
    as [e | d3] eqn:E3; [discriminate |].
  intros H. injection H as <-.
  destruct (insert_status_history_entry _ _ _ _ _ _ E3)
    as (v & Hv & Hh3 & Ho3).
  destruct (update_order_status_orders _ _ _ _ _ _ E2 Hv) as (Ho2 & Hh2).
  destruct (update_transaction_status_rows _ _ _ _ _ E1)
    as (_ & _ & Ho1 & _ & Hh1).
  destruct (restock_rest (select_order_items order_id d3) d3)
    as (Ho4 & _ & _ & Hh4 & _).
  destruct (enum_value_refunded _ _ Hv) as (_ & ->).
  rewrite Ho4, Ho3, Ho2, Ho1, Hh4, Hh3, Hh2, Hh1. split; reflexivity.
Qed.

(** X25. After a refund answered 200, which only a server outside strict
    SQL mode gives, the order's owner is shown the order as "pending":
    while the store answers, [getUserOrders] lists the refunded order
    with the empty string as its status and "pending" as its current
    status, since the status "refunded" is not one the schema can
    store. *)
Theorem refunded_order_shown_pending id amount reason c t0 rest o :
  idle c ->
  fst (TransactionController.processRefund id amount reason c)
  = Json 200 (Message "Refund processed successfully") ->
  select_transactions id (durable c) = t0 :: rest ->
  In o (orders (durable c)) ->
  o_id o = t_order_id t0 ->
  let c1 :=
    with_fuse None
      (snd (TransactionController.processRefund id amount reason c)) in
  exists summaries,
    fst (OrderController.getUserOrders (o_user_id o) c1) = Data summaries
    /\ (exists s,
          In s summaries
          /\ OrderController.s_order s = set_o_status (Some "") o)
    /\ (forall s, In s summaries ->
          o_id (OrderController.s_order s) = t_order_id t0 ->
          o_status (OrderController.s_order s) = Some ""
          /\ OrderController.s_currentStatus s = "pending").
Proof.
  intros Hidle Hr Hsel Hin Hid c1.
  destruct (processRefund_spec id amount reason c Hidle)
    as (_ & Hv & _ & [HA | HB]).
  2:{ destruct HB as (Hfail & _). rewrite Hr in Hfail. discriminate. }
  destruct HA as (_ & (t & ts & Hsel' & _ & Href) & _).
  rewrite Hsel in Hsel'. injection Hsel' as <- <-.
  destruct (refund_orders _ _ _ _ _ _ _ Href) as (Ho & Hh).
  assert (Hview : view c1
                  = durable (snd (TransactionController.processRefund id
                                    amount reason c))) by exact Hv.
  eexists. split.
  { rewrite getUserOrders_runs; [reflexivity | reflexivity]. }
  rewrite Hview. split.
  - exists (summary_of
              (durable (snd (TransactionController.processRefund id amount
                               reason c)))
              (set_o_status (Some "") o)).
    split; [| reflexivity].
    apply in_map. unfold select_orders_by_user. apply -> in_rev.
    apply filter_In. split; [| simpl; apply Z.eqb_refl].
    rewrite Ho. apply in_map_iff. exists o. split; [| exact Hin].
    rewrite Hid, Z.eqb_refl. reflexivity.
  - intros s Hs Hsid. apply in_map_iff in Hs.
    destruct Hs as (o' & <- & Ho'). simpl in Hsid.
    unfold select_orders_by_user in Ho'. apply in_rev, filter_In in Ho'.
    destruct Ho' as (Ho' & _). rewrite Ho in Ho'.
    apply in_map_iff in Ho'. destruct Ho' as (o0 & Heq & _).
    split.
    + simpl. subst o'. destruct (o_id o0 =? t_order_id t0) eqn:E;
        [reflexivity |].
      apply Z.eqb_neq in E. contradiction.
    + simpl. unfold OrderController.currentStatus.
      rewrite (latest_after_append _ _ _ _ Hh). simpl.
      rewrite Hsid, Z.eqb_refl. reflexivity.
Qed.

(** X25 on the sample shop without strict mode: the basket of user 7 is
    refunded. *)
Lemma refunded_order_shown_pending_witness :
  let c := Sample.after_checkout false None in
  let o :=
    {| o_id := 1; o_user_id := 7;
       o_order_number := "ORD-1700000000000-4242";
       o_total_amount := 2250; o_status := Some "pending";
       o_shipping := Sample.home |} in
  let t0 :=
    {| t_id := 1; t_order_id := 1;
       t_transaction_id := "TXN-1700000000001-1717";
       t_amount := 2250; t_payment_method := "card";
       t_status := "completed";
       t_payment_details := MethodOnly "card" |} in
  let c1 :=
    with_fuse None (snd (TransactionController.processRefund 1 None None c)) in
  exists summaries,
    fst (OrderController.getUserOrders (o_user_id o) c1) = Data summaries
    /\ (exists s,
          In s summaries
          /\ OrderController.s_order s = set_o_status (Some "") o)
    /\ (forall s, In s summaries ->
          o_id (OrderController.s_order s) = t_order_id t0 ->
          o_status (OrderController.s_order s) = Some ""
          /\ OrderController.s_currentStatus s = "pending").
Proof.
  intros c o t0 c1.
  apply (refunded_order_shown_pending 1 None None c t0 [] o).
  - vm_compute. reflexivity.
  - vm_compute. reflexivity.
  - vm_compute. reflexivity.
  - vm_compute. left. reflexivity.
  - reflexivity.
Defined.

(** * The routes *)

Lemma query_cases {A} (q : db -> A) c :
  (fst (query q c) = Exc StoreFault /\ snd (query q c) = c)
  \/ (fst (query q c) = Val (q (view c))
      /\ exists f, snd (query q c) = with_fuse f c
                   /\ (fuse c = None -> f = None)).
Proof.
  unfold query, bind, tick. destruct (fuse c) as [[| n] |] eqn:E; simpl.
  - left. split; reflexivity.
  - right. split; [reflexivity |]. exists (Some n).
    split; [reflexivity | discriminate].
  - right. split; [reflexivity |]. exists None. split; [| reflexivity].
    rewrite <- E. symmetry. apply with_fuse_same.
Qed.

(** [verifyToken] either turns the request away with status 401, or
    hands it on with [req.user] set to the user the token names. *)
Lemma verifyToken_cases verify a authorization next c :
  (durable (snd (Auth.verifyToken verify a authorization next c))
   = durable c
   /\ view (snd (Auth.verifyToken verify a authorization next c)) = view c
   /\ exists message,
        fst (Auth.verifyToken verify a authorization next c)
        = Json 401 (Message message))
  \/ (exists token id user rest f,
        Auth.token_of authorization = Some token
        /\ verify token = Some id
        /\ Auth.select_users id a = user :: rest
        /\ (fuse c = None -> f = None)
        /\ Auth.verifyToken verify a authorization next c
           = next user (with_fuse f c)).
Proof.
  unfold Auth.verifyToken.
  destruct (Auth.token_of authorization) as [token |] eqn:Et.
  2:{ left. simpl. repeat split. eexists. reflexivity. }
  destruct (verify token) as [id |] eqn:Ev.
  2:{ left. simpl. repeat split. eexists. reflexivity. }
  destruct (query_cases (fun _ : db => Auth.select_users id a) c)
    as [(Ho & Hc) | (Ho & f & Hc & Hf)];
    destruct (query (fun _ : db => Auth.select_users id a) c) as [o c'];
    simpl in Ho, Hc; subst o c'.
  - left. simpl. repeat split. eexists. reflexivity.
  - destruct (Auth.select_users id a) as [| user rest] eqn:Eu.
    + left. simpl. repeat split. eexists. reflexivity.
    + right. exists token, id, user, rest, f. repeat split; auto.
Qed.

(** [checkRole] either turns the request away with status 403 or 500, or
    hands it on for a user whose role is one of those allowed. *)
Lemma checkRole_cases a allowed user next c :
  (durable (snd (Auth.checkRole a allowed user next c)) = durable c
   /\ view (snd (Auth.checkRole a allowed user next c)) = view c
   /\ exists status message,
        fst (Auth.checkRole a allowed user next c)
        = Json status (Message message)
        /\ (status = 403 \/ status = 500))
  \/ (exists name others f,
        Auth.select_role_names (Auth.u_role_id user) a = name :: others
        /\ member name allowed = true
        /\ (fuse c = None -> f = None)
        /\ Auth.checkRole a allowed user next c = next (with_fuse f c)).
Proof.
  unfold Auth.checkRole.
  destruct (query_cases
              (fun _ : db => Auth.select_role_names (Auth.u_role_id user) a)
              c) as [(Ho & Hc) | (Ho & f & Hc & Hf)];
    destruct (query
                (fun _ : db =>
                   Auth.select_role_names (Auth.u_role_id user) a) c)
      as [o c'];
    simpl in Ho, Hc; subst o c'.
  - left. simpl. repeat split. exists 500. eexists. auto.
  - destruct (Auth.select_role_names (Auth.u_role_id user) a)
      as [| name others] eqn:Er.
    + left. simpl. repeat split. exists 403. eexists. auto.
    + destruct (member name allowed) eqn:Em.
      * right. exists name, others, f. repeat split; auto.
      * left. simpl. repeat split. exists 403. eexists. auto.
Qed.

Lemma member_admin name : member name ["admin"] = true -> name = "admin".
Proof.
  unfold member. simpl. rewrite orb_false_r. apply String.eqb_eq.
Qed.

(** A route behind [verifyToken] and [checkRole(['admin'])]. *)
Lemma admin_route verify a authorization h c :
  (~ admin_caller verify a authorization ->
   turned_away c
     (fst (Auth.verifyToken verify a authorization (fun user =>
             Auth.checkRole a ["admin"] user h) c))
     (snd (Auth.verifyToken verify a authorization (fun user =>
             Auth.checkRole a ["admin"] user h) c)))
  /\ (admin_caller verify a authorization ->
      fuse c = None ->
      Auth.verifyToken verify a authorization (fun user =>
        Auth.checkRole a ["admin"] user h) c
      = h c).
Proof.
  split.
  - intros Hnot.
    destruct (verifyToken_cases verify a authorization
                (fun user => Auth.checkRole a ["admin"] user h) c)
      as [(Hd & Hv & m & Hr) | (token & id & user & rest & f & Ht & Hid
                               & Hu & _ & Heq)].
    { split; [exact Hd |]. split; [exact Hv |].
      exists 401, m. auto. }
    rewrite Heq.
    destruct (checkRole_cases a ["admin"] user h (with_fuse f c))
      as [(Hd & Hv & s & m & Hr & Hs) | (name & others & g & Hn & Hm & _)].
    { split; [exact Hd |]. split; [exact Hv |].
      exists s, m. split; [exact Hr |]. destruct Hs; auto. }
    exfalso. apply Hnot. apply member_admin in Hm. subst name.
    exists token, id, user, rest, others. auto.
  - intros (token & id & user & rest & others & Ht & Hid & Hu & Hn) Hf.
    unfold Auth.verifyToken, Auth.checkRole.
    rewrite Ht, Hid, (query_ok _ _ Hf), Hu, (query_ok _ _ Hf), Hn.
    reflexivity.
Qed.

(** X26. The status of an order is changed and a refund is made for
    administrators only.  Behind [verifyToken] and [checkRole(['admin'])]
    the routes [PUT /:id/status] and [POST /transactions/:id/refund] turn
    away, with status 401, 403 or 500 and without writing, every request
    whose token is missing, does not verify, names no user, or names a
    user whose role is not called "admin", also when the store fails
    during the checks; for an administrator, while the store answers,
    they are [updateOrderStatus] and [processRefund] themselves. *)
Theorem admin_routes_guarded verify a authorization c :
  (~ admin_caller verify a authorization ->
   (forall id status notes,
      turned_away c
        (fst (OrderRoutes.put_order_status verify a authorization id status
                notes c))
        (snd (OrderRoutes.put_order_status verify a authorization id status
                notes c)))
   /\ (forall id amount reason,
         turned_away c
           (fst (OrderRoutes.post_refund verify a authorization id amount
                   reason c))
           (snd (OrderRoutes.post_refund verify a authorization id amount
                   reason c))))
  /\ (admin_caller verify a authorization ->
      fuse c = None ->
      (forall id status notes,
         OrderRoutes.put_order_status verify a authorization id status
           notes c
         = OrderController.updateOrderStatus id status notes c)
      /\ (forall id amount reason,
            OrderRoutes.post_refund verify a authorization id amount reason
              c
            = TransactionController.processRefund id amount reason c)).
Proof.
  split.
  - intros Hnot. split.
    + intros id status notes.
      apply (admin_route verify a authorization
               (OrderController.updateOrderStatus id status notes) c).
      exact Hnot.
    + intros id amount reason.
      apply (admin_route verify a authorization
               (TransactionController.processRefund id amount reason) c).
      exact Hnot.
  - intros Hadmin Hf. split.
    + intros id status notes.
      apply (admin_route verify a authorization
               (OrderController.updateOrderStatus id status notes) c);
        assumption.
    + intros id amount reason.
      apply (admin_route verify a authorization
               (TransactionController.processRefund id amount reason) c);
        assumption.
Qed.

Lemma staff_admin : admin_caller Staff.verify Staff.accounts Staff.admin.
Proof.
  exists "token-of-admin", 1,
    {| Auth.u_id := 1; Auth.u_name := "Admin";
       Auth.u_email := "admin@example.com";
       Auth.u_password := "$2b$10$hash"; Auth.u_role_id := 1 |},
    [], [].
  repeat split; vm_compute; reflexivity.
Defined.

Lemma staff_ada_not_admin :
  ~ admin_caller Staff.verify Staff.accounts Staff.ada.
Proof.
  intros (token & id & user & rest & others & Ht & Hid & Hu & Hn).
  vm_compute in Ht. injection Ht as <-.
  vm_compute in Hid. injection Hid as <-.
  vm_compute in Hu. injection Hu as <- _.
  vm_compute in Hn. discriminate.
Defined.

(** X26 on the sample shop after the checkout: the customer and the
    administrator ask for the order to be shipped. *)
Lemma admin_routes_guarded_witness :
  let c := Sample.after_checkout true None in
  turned_away c
    (fst (OrderRoutes.put_order_status Staff.verify Staff.accounts Staff.ada
            1 (Some "shipped") None c))
    (snd (OrderRoutes.put_order_status Staff.verify Staff.accounts Staff.ada
            1 (Some "shipped") None c))
  /\ OrderRoutes.put_order_status Staff.verify Staff.accounts Staff.admin 1
       (Some "shipped") None c
     = OrderController.updateOrderStatus 1 (Some "shipped") None c.
Proof.
  intros c. split.
  - destruct (admin_routes_guarded Staff.verify Staff.accounts Staff.ada c)
      as (Hno & _).
    destruct (Hno staff_ada_not_admin) as (Hstatus & _).
    apply Hstatus.
  - destruct (admin_routes_guarded Staff.verify Staff.accounts Staff.admin
                c) as (_ & Hyes).
    destruct (Hyes staff_admin eq_refl) as (Hstatus & _).
    apply Hstatus.
Defined.

(** X27. An order is created for the user the token names.  When the
    route [POST /] answers 201 on a consistent connection, the request
    carried a token that verifies, the [users] table has the user it
    names, and the order created belongs to that user: the body has no
    say in whose order it is. *)
Theorem post_order_for_token_user
    verify a authorization body c orderId orderNumber transactionId :
  idle c ->
  fresh c ->
  fst (OrderRoutes.post_order verify a authorization body c)
  = Json 201 (OrderCreated orderId orderNumber transactionId) ->
  exists token id,
    Auth.token_of authorization = Some token
    /\ verify token = Some id
    /\ Auth.select_users id a <> []
    /\ map o_user_id
         (select_orders orderId
            (durable (snd (OrderRoutes.post_order verify a authorization
                             body c))))
       = [id].
Proof.
  intros Hidle Hfresh Hr. unfold OrderRoutes.post_order in *.
  destruct (verifyToken_cases verify a authorization
              (fun user =>
                 OrderController.createOrder (OrderRoutes.as_user user body))
              c)
    as [(_ & _ & m & Hm) | (token & id & user & rest & f & Ht & Hid & Hu
                           & _ & Heq)].
  { rewrite Hr in Hm. discriminate. }
  rewrite Heq in *.
  assert (Huid : Auth.u_id user = id).
  { assert (Hin : In user (Auth.select_users id a))
      by (rewrite Hu; left; reflexivity).
    apply filter_In in Hin. destruct Hin as (_ & Hb).
    apply Z.eqb_eq. exact Hb. }
  destruct (createOrder_new_order (OrderRoutes.as_user user body)
              (with_fuse f c) orderId orderNumber transactionId
              Hidle Hfresh Hr) as (total & rows & _ & _ & Ho & _).
  exists token, id. split; [exact Ht |]. split; [exact Hid |].
  split; [rewrite Hu; discriminate |].
  rewrite Ho. simpl. rewrite Huid. reflexivity.
Qed.

(** X27 on the sample shop: the customer checks out the basket, sent
    with another user's id in the place the handler never reads. *)
Lemma post_order_for_token_user_witness :
  let c := Sample.connection true None in
  let body :=
    {| OrderController.userId := 1;
       OrderController.items := OrderController.items Sample.basket;
       OrderController.shippingInfo := Sample.home;
       OrderController.paymentMethod := "card";
       OrderController.order_stamp :=
         OrderController.order_stamp Sample.basket;
       OrderController.transaction_stamp :=
         OrderController.transaction_stamp Sample.basket |} in
  exists token id,
    Auth.token_of Staff.ada = Some token
    /\ Staff.verify token = Some id
    /\ Auth.select_users id Staff.accounts <> []
    /\ map o_user_id
         (select_orders 1
            (durable (snd (OrderRoutes.post_order Staff.verify
                             Staff.accounts Staff.ada body c))))
       = [id].
Proof.
  intros c body.
  apply (post_order_for_token_user Staff.verify Staff.accounts Staff.ada
           body c 1 "ORD-1700000000000-4242" "TXN-1700000000001-1717").
  - reflexivity.
  - apply sample_fresh.
  - vm_compute. reflexivity.
Defined.

(** ** [getTransactionById] *)

Lemma transaction_row_user_id a id d row :
  In row (TransactionReader.select_transaction_rows a id d) ->
  TransactionReader.field "user_id" row = TransactionReader.Undefined.
Proof.
  unfold TransactionReader.select_transaction_rows. intros Hin.
  apply in_flat_map in Hin. destruct Hin as (t & _ & Hin).
  apply in_flat_map in Hin. destruct Hin as (o & _ & Hin).
  apply in_map_iff in Hin. destruct Hin as (u & <- & _).
  reflexivity.
Qed.

(** X28. [getTransactionById] never shows a transaction.  The check
    meant to let the owner and administrators through reads
    [req.user.role] and [transaction[0].user_id], and neither the row of
    [users] that [verifyToken] puts in [req.user] nor the row the
    handler selects has such a column: both are [undefined], so the
    check refuses every caller.  Whoever calls, the answer carries no
    data and nothing is written; while the store answers it is 403 "Not
    authorized to access this transaction" when the transaction exists
    with its order and user, and 404 "Transaction not found"
    otherwise. *)
Theorem getTransactionById_refuses_everyone a user id c :
  (forall details,
     fst (TransactionReader.getTransactionById a user id c)
     <> Data details)
  /\ (exists f,
        snd (TransactionReader.getTransactionById a user id c)
        = with_fuse f c)
  /\ (fuse c = None ->
      fst (TransactionReader.getTransactionById a user id c)
      = match TransactionReader.select_transaction_rows a id (view c) with
        | [] => Refused (Json 404 (Message "Transaction not found"))
        | _ :: _ =>
            Refused (Json 403 (Message
              "Not authorized to access this transaction"))
        end).
Proof.
  assert (Hcheck : forall row,
    In row (TransactionReader.select_transaction_rows a id (view c)) ->
    TransactionReader.strict_neq
      (TransactionReader.field "role"
         (TransactionReader.object_of_user user))
      (TransactionReader.Text "admin")
    && TransactionReader.strict_neq
         (TransactionReader.field "user_id" row)
         (TransactionReader.field "id"
            (TransactionReader.object_of_user user))
    = true).
  { intros row Hin. rewrite (transaction_row_user_id _ _ _ _ Hin).
    reflexivity. }
  split; [| split].
  - intros details Hdata. revert details Hdata.
    apply (reading_data _ (fun _ => False)).
    apply wp_bind, wp_query; [exact I |]. intros f0. unfold then_wp at 1.
    destruct (TransactionReader.select_transaction_rows a id (view c))
      as [| row rows] eqn:E; [exact I |].
    rewrite (Hcheck row (or_introl eq_refl)). exact I.
  - apply reads_reading.
    apply reads_bind; [apply reads_query |]. intros [| row rows].
    + apply reads_respond.
    + destruct (_ && _).
      * apply reads_respond.
      * apply reads_bind; [apply reads_query |]. intros order.
        apply reads_bind; [apply reads_query |]. intros items.
        apply reads_ret.
  - intros Hf. unfold TransactionReader.getTransactionById, reading.
    unfold bind at 1. rewrite (query_ok _ _ Hf).
    destruct (TransactionReader.select_transaction_rows a id (view c))
      as [| row rows] eqn:E; [reflexivity |].
    rewrite (Hcheck row (or_introl eq_refl)). reflexivity.
Qed.

(** * Stock and the cart *)

(** X29. A cart reserves nothing.  On a consistent connection [getCart],
    [addToCart], [updateCartItem], [removeFromCart], [clearCart] and
    [processPayment] leave the products table, and with it the stock of
    every product, exactly as it was, whatever their outcome and under
    any storage failure: stock is compared with the cart but taken only
    by a checkout. *)
Theorem cart_reserves_no_stock c :
  idle c ->
  fresh c ->
  (forall userId,
     products (durable (snd (CartController.getCart userId c)))
     = products (durable c))
  /\ (forall req,
        products (durable (snd (CartController.addToCart req c)))
        = products (durable c))
  /\ (forall userId itemId quantity,
        products
          (durable (snd (CartController.updateCartItem userId itemId
                           quantity c)))
        = products (durable c))
  /\ (forall userId itemId,
        products
          (durable (snd (CartController.removeFromCart userId itemId c)))
        = products (durable c))
  /\ (forall userId,
        products (durable (snd (CartController.clearCart userId c)))
        = products (durable c))
  /\ (forall req,
        products
          (durable (snd (TransactionController.processPayment req c)))
        = products (durable c)).
Proof.
  intros Hidle Hfresh. repeat split.
  - intros userId.
    destruct (getCart_spec userId c Hidle) as (_ & _ & _ & [HA | HB]).
    + destruct HA as (_ & -> & _). unfold with_cart.
      destruct (select_carts userId (durable c)); reflexivity.
    + destruct HB as (_ & ->). reflexivity.
  - intros req.
    destruct (addToCart_spec req c Hidle Hfresh) as (_ & _ & _ & [HA | HB]).
    + destruct HA as (_ & _ & _ & -> & _).
      unfold add_item, with_cart. cbv zeta.
      destruct (select_carts (CartController.userId req) (durable c));
        destruct (select_cart_items _ _ _); reflexivity.
    + destruct HB as (_ & ->). reflexivity.
  - intros userId itemId quantity.
    destruct (updateCartItem_spec userId itemId quantity c Hidle)
      as (_ & _ & _ & [HA | HB]).
    + destruct HA as (q & cartItem & rest & _ & _ & _ & _ & -> & _).
      unfold change_item. destruct (q =? 0); reflexivity.
    + destruct HB as (_ & ->). reflexivity.
  - intros userId itemId.
    destruct (removeFromCart_spec userId itemId c Hidle)
      as (_ & _ & _ & [HA | HB]).
    + destruct HA as (_ & -> & _). reflexivity.
    + destruct HB as (_ & ->). reflexivity.
  - intros userId.
    destruct (clearCart_spec userId c Hidle)
      as (_ & _ & _ & [HA | [HB | HB]]).
    + destruct HA as (_ & _ & -> & _). unfold clear_cart.
      destruct (select_carts userId (durable c)); reflexivity.
    + destruct HB as (_ & _ & ->). reflexivity.
    + destruct HB as (_ & ->). reflexivity.
  - intros req.
    destruct (processPayment_spec req c Hidle) as (_ & _ & _ & [HA | HB]).
    + destruct HA as (_ & (order0 & rest & _ & Hp) & _).
      destruct (payment_rows _ _ _ _ _ _ Hp) as (t & _ & _ & _ & Hpr & _).
      exact Hpr.
    + destruct HB as (_ & ->). reflexivity.
Qed.

(** X29 on the sample shop. *)
Lemma cart_reserves_no_stock_witness :
  let c := Sample.connection true None in
  (forall userId,
     products (durable (snd (CartController.getCart userId c)))
     = products (durable c))
  /\ (forall req,
        products (durable (snd (CartController.addToCart req c)))
        = products (durable c))
  /\ (forall userId itemId quantity,
        products
          (durable (snd (CartController.updateCartItem userId itemId
                           quantity c)))
        = products (durable c))
  /\ (forall userId itemId,
        products
          (durable (snd (CartController.removeFromCart userId itemId c)))
        = products (durable c))
  /\ (forall userId,
        products (durable (snd (CartController.clearCart userId c)))
        = products (durable c))
  /\ (forall req,
        products
          (durable (snd (TransactionController.processPayment req c)))
        = products (durable c)).
Proof.
  intros c. apply (cart_reserves_no_stock c).
  - reflexivity.
  - apply sample_fresh.
Defined.
